(** * Template source resolution (pkg/util/gitutil/git.go) and stack tags
      (pkg/backend/filestate/stack.go): a shallow embedding and its properties.

    Go strings are byte strings; they are modelled by [string] (one [ascii]
    per byte).  Calls into go-git are modelled as nodes of a small command
    tree that is run against a handler, so that the order and the arguments of
    the calls are visible in a trace.  The library functions whose code is not
    part of the repository ([url.Parse], [ReferenceName.Short], [sort.Sort])
    are parameters of the development. *)

From Stdlib Require Import Ascii String List ZArith Lia Bool Permutation Sorted.
From stdpp Require Import base gmap strings list fin_maps.

Local Open Scope stdpp_scope.

#[local] Arguments String.append !s1 s2 : simpl nomatch.

(** ** Go's [strings] package, on byte strings *)

Module GoStrings.

Abbreviation len := String.length.

(** [strings.HasPrefix(s, prefix)] *)
Definition HasPrefix (s prefix : string) : bool := String.prefix prefix s.

(** [s[n:]] (all of [s] is dropped when it is shorter than [n]) *)
Fixpoint sdrop (n : nat) (s : string) : string :=
  match n, s with
  | O, _ => s
  | S n', String _ s' => sdrop n' s'
  | S _, EmptyString => EmptyString
  end.

(** [s[:n]] *)
Fixpoint stake (n : nat) (s : string) : string :=
  match n, s with
  | O, _ => EmptyString
  | S n', String a s' => String a (stake n' s')
  | S _, EmptyString => EmptyString
  end.

(** [strings.HasSuffix(s, suffix)] *)
Definition HasSuffix (s suffix : string) : bool :=
  (len suffix <=? len s)%nat && String.eqb (sdrop (len s - len suffix) s) suffix.

(** [strings.TrimPrefix(s, prefix)] *)
Definition TrimPrefix (s prefix : string) : string :=
  if HasPrefix s prefix then sdrop (len prefix) s else s.

(** [strings.TrimSuffix(s, suffix)] *)
Definition TrimSuffix (s suffix : string) : string :=
  if HasSuffix s suffix then stake (len s - len suffix) s else s.

(** [strings.Split(s, sep)] for a separator of one byte: the pieces of [s]
    between the occurrences of [sep]; always at least one piece. *)
Fixpoint Split (s : string) (sep : ascii) : list string :=
  match s with
  | EmptyString => [EmptyString]
  | String a s' =>
      if Ascii.eqb a sep then EmptyString :: Split s' sep
      else match Split s' sep with
           | [] => [String a EmptyString]
           | x :: xs => String a x :: xs
           end
  end.

(** [strings.Join(elems, sep)] *)
Fixpoint Join (elems : list string) (sep : string) : string :=
  match elems with
  | [] => EmptyString
  | x :: xs =>
      match xs with
      | [] => x
      | _ :: _ => x +:+ sep +:+ Join xs sep
      end
  end.

(** the byte [c] occurs in [s] *)
Fixpoint contains (c : ascii) (s : string) : bool :=
  match s with
  | EmptyString => false
  | String a s' => Ascii.eqb a c || contains c s'
  end.

(** every byte of [s] satisfies [p] *)
Fixpoint all_bytes (p : ascii -> bool) (s : string) : bool :=
  match s with
  | EmptyString => true
  | String a s' => p a && all_bytes p s'
  end.

End GoStrings.

Import GoStrings.

(** ** Errors and results *)

(** Go [error] values.  The two go-git sentinels are compared by identity in
    the source; every other error is carried by its message. *)
Inductive error : Type :=
| ErrRepositoryAlreadyExists
| NoErrAlreadyUpToDate
| errors_New (msg : string)
| ErrLibrary (msg : string).

(** [err == git.ErrRepositoryAlreadyExists] *)
Definition is_ErrRepositoryAlreadyExists (e : error) : bool :=
  match e with ErrRepositoryAlreadyExists => true | _ => false end.

(** [err == git.NoErrAlreadyUpToDate] *)
Definition is_NoErrAlreadyUpToDate (e : error) : bool :=
  match e with NoErrAlreadyUpToDate => true | _ => false end.

(** A Go pair [(value, error)] of which exactly one side is meaningful. *)
Inductive result (A : Type) : Type :=
| Ok (a : A)
| Err (e : error).

Arguments Ok {A} a.
Arguments Err {A} e.

(** ** The parts of net/url and go-git's plumbing that the code touches *)

(** [url.URL]: the fields that are read. *)
Record URL : Type := { Scheme : string; Host : string; Path : string }.

(** [plumbing.ReferenceName] is a string type. *)
Definition ReferenceName : Type := string.

(** [plumbing.Master] *)
Definition Master : ReferenceName := "refs/heads/master".

(** [plumbing.Reference]: its name, and what it points to. *)
Record Reference : Type := { Name : ReferenceName; Target : string }.

(** [plumbing.Hash], an array of 20 bytes. *)
Definition Hash : Type := list Z.

(** the zero value of [plumbing.Hash] *)
Definition ZeroHash : Hash := replicate 20 0%Z.

(** [Hash.IsZero] *)
Definition IsZero (h : Hash) : bool := bool_decide (h = ZeroHash).

(** encoding/hex [fromHexChar] *)
Definition fromHexChar (c : ascii) : option Z :=
  let n := Z.of_nat (nat_of_ascii c) in
  if ((48 <=? n) && (n <=? 57))%Z then Some (n - 48)%Z
  else if ((97 <=? n) && (n <=? 102))%Z then Some (n - 97 + 10)%Z
  else if ((65 <=? n) && (n <=? 70))%Z then Some (n - 65 + 10)%Z
  else None.

(** encoding/hex [DecodeString], keeping the bytes decoded before the first
    invalid or unpaired character (the error is discarded by [NewHash]). *)
Fixpoint hex_DecodeString (s : string) : list Z :=
  match s with
  | String a (String b s') =>
      match fromHexChar a, fromHexChar b with
      | Some x, Some y => Z.lor (Z.shiftl x 4) y :: hex_DecodeString s'
      | _, _ => []
      end
  | _ => []
  end.

(** [plumbing.NewHash(s)]: the decoded bytes copied into a zeroed array of 20
    bytes. *)
Definition NewHash (s : string) : Hash :=
  let b := hex_DecodeString s in
  take 20 (b ++ replicate (20 - length b) 0%Z).

(** [gitSHARegex.MatchString], for the pattern [^[0-9a-fA-F]{40}$]. *)
Definition gitSHARegex_MatchString (s : string) : bool :=
  (len s =? 40)%nat && all_bytes (fun c => bool_decide (is_Some (fromHexChar c))) s.

(** [git.CloneOptions], [git.PullOptions], [git.CheckoutOptions]: the fields
    the code sets; the others keep their zero value. *)
Module CloneOptions.
Record t : Type := { URL : string; Depth : Z }.
End CloneOptions.

Module PullOptions.
Record t : Type := { Depth : Z; Force : bool }.
End PullOptions.

Module CheckoutOptions.
Record t : Type := { Hash : Hash; Branch : ReferenceName }.
End CheckoutOptions.

(** [storer.ReferenceIter]: the references that [ForEach] visits and the error
    it ends with, if any. *)
Record ReferenceIter : Type :=
  { iter_refs : list Reference; iter_err : option error }.

(** [refs.ForEach(cb)] for a callback that updates a state and never fails. *)
Definition ForEach {S : Type} (it : ReferenceIter) (cb : S -> Reference -> S) (s : S)
  : S * option error :=
  (foldl cb s (iter_refs it), iter_err it).

(** [strings.Split(strings.TrimSuffix(u.Path, "/"), "/")], the value of [paths]
    at the start of [ParseGitCheckoutOptionsSubDirectory]. *)
Definition pathSegments (u : URL) : list string :=
  Split (TrimSuffix (Path u) "/") "/".

(** ** Calls into go-git, as a command tree *)

Section Commands.

(** [*git.Repository] and [*git.Worktree] handles. *)
Variables Repository Worktree : Type.

(** The go-git entry points used by the package. *)
Inductive call : Type :=
| PlainClone (path : string) (isBare : bool) (o : CloneOptions.t)
| PlainOpen (path : string)
| Repository_Worktree (r : Repository)
| Worktree_Pull (w : Worktree) (o : PullOptions.t)
| Repository_References (r : Repository).

(** What each of them returns. *)
Definition answer (c : call) : Type :=
  match c with
  | PlainClone _ _ _ => result Repository
  | PlainOpen _ => result Repository
  | Repository_Worktree _ => result Worktree
  | Worktree_Pull _ _ => option error
  | Repository_References _ => result ReferenceIter
  end.

(** A computation that may call go-git before it returns. *)
Inductive prog (A : Type) : Type :=
| Ret (a : A)
| Do (c : call) (k : answer c -> prog A).

Arguments Ret {A} a.
Arguments Do {A} c k.

Fixpoint bind {A B : Type} (p : prog A) (f : A -> prog B) : prog B :=
  match p with
  | Ret a => f a
  | Do c k => Do c (fun x => bind (k x) f)
  end.

(** The outside world: a state [W] and the answer it gives to each call. *)
Definition handler (W : Type) : Type := forall c : call, W -> answer c * W.

(** Runs [p] from [w]: the value returned, the final state and the calls made,
    in order. *)
Fixpoint run {W A : Type} (h : handler W) (p : prog A) (w : W) : A * W * list call :=
  match p with
  | Ret a => (a, w, [])
  | Do c k =>
      let '(x, w') := h c w in
      let '(a, w'', t) := run h (k x) w' in
      (a, w'', c :: t)
  end.

Definition result_of {W A : Type} (h : handler W) (p : prog A) (w : W) : A :=
  (run h p w).1.1.

Definition trace_of {W A : Type} (h : handler W) (p : prog A) (w : W) : list call :=
  (run h p w).2.

(** ** pkg/util/gitutil/git.go *)

(** [url.Parse] *)
Variable url_Parse : string -> result URL.

(** [ReferenceName.Short] *)
Variable Short : ReferenceName -> string.

(** [byShortNameLengthDesc.Less] *)
Definition byShortNameLengthDesc_Less (r : list ReferenceName) (i j : nat) : bool :=
  (len (Short (r !!! j)) <? len (Short (r !!! i)))%nat.

(** [sort.Sort(byShortNameLengthDesc(results))] *)
Variable sort_Sort : list ReferenceName -> list ReferenceName.

(** [GitCloneOrPull] *)
Definition GitCloneOrPull (url path : string) : prog (result Repository) :=
  let cloneOpts := {| CloneOptions.URL := url; CloneOptions.Depth := 1 |} in
  Do (PlainClone path false cloneOpts) (fun r =>
    match r with
    | Err err =>
        if is_ErrRepositoryAlreadyExists err then
          Do (PlainOpen path) (fun r =>
            match r with
            | Err err => Ret (Err err)
            | Ok repo =>
                Do (Repository_Worktree repo) (fun rw =>
                  match rw with
                  | Err err => Ret (Err err)
                  | Ok w =>
                      let pullOpts :=
                        {| PullOptions.Depth := 1; PullOptions.Force := true |} in
                      Do (Worktree_Pull w pullOpts) (fun perr =>
                        match perr with
                        | Some err =>
                            if negb (is_NoErrAlreadyUpToDate err) then Ret (Err err)
                            else Ret (Ok repo)
                        | None => Ret (Ok repo)
                        end)
                  end)
            end)
        else Ret (Err err)
    | Ok repo => Ret (Ok repo)
    end).

(** [ParseGitRepoURL] *)
Definition ParseGitRepoURL (rawurl : string) : result string :=
  match url_Parse rawurl with
  | Err err => Err err
  | Ok u =>
      if negb (String.eqb (Scheme u) "https") then Err (errors_New "invalid URL scheme")
      else
        let paths := Split (Path u) "/" in
        if (length paths <? 3)%nat then Err (errors_New "invalid Git URL")
        else
          let owner := paths !!! 1%nat in
          if String.eqb owner "" then Err (errors_New "invalid Git URL; no owner")
          else
            let repo := paths !!! 2%nat in
            if String.eqb repo "" then Err (errors_New "invalid Git URL; no repository")
            else
              let repo := if negb (HasSuffix repo ".git") then repo +:+ ".git" else repo in
              Ok (Scheme u +:+ "://" +:+ Host u +:+ "/" +:+ owner +:+ "/" +:+ repo)
  end.

(** [listGitReferencesByShortNameLength] *)
Definition listGitReferencesByShortNameLength (repo : Repository)
  : prog (result (list ReferenceName)) :=
  Do (Repository_References repo) (fun r =>
    match r with
    | Err err => Ret (Err err)
    | Ok refs =>
        let '(results, err) := ForEach refs (fun results ref => results ++ [Name ref]) [] in
        match err with
        | Some err => Ret (Err err)
        | None => Ret (Ok (sort_Sort results))
        end
    end).

(** [strings.TrimPrefix(ref.Short(), "origin/")] *)
Definition shortNameWithoutOrigin (ref : ReferenceName) : string :=
  TrimPrefix (Short ref) "origin/".

(** the test of the loop over [refs]: [strings.HasPrefix(path, prefix)] *)
Definition refMatches (path : string) (ref : ReferenceName) : bool :=
  HasPrefix path (shortNameWithoutOrigin ref +:+ "/").

(** The loop over [refs] of [ParseGitCheckoutOptionsSubDirectory]: it returns at
    the first reference whose short name without a leading [origin/], followed
    by a slash, is a prefix of [path]. *)
Fixpoint matchRefs (path : string) (refs : list ReferenceName)
  : option (CheckoutOptions.t * string) :=
  match refs with
  | [] => None
  | ref :: refs' =>
      let prefix := shortNameWithoutOrigin ref +:+ "/" in
      if HasPrefix path prefix then
        let subDir := TrimPrefix path prefix in
        Some ({| CheckoutOptions.Hash := ZeroHash; CheckoutOptions.Branch := ref |},
              TrimSuffix subDir "/")
      else matchRefs path refs'
  end.

(** the check of the loop over [paths]: some component is [.] or [..] *)
Definition hasDotComponent (paths : list string) : bool :=
  existsb (fun path => String.eqb path "." || String.eqb path "..") paths.

(** [ParseGitCheckoutOptionsSubDirectory] *)
Definition ParseGitCheckoutOptionsSubDirectory (rawurl : string) (repo : Repository)
  : prog (result (CheckoutOptions.t * string)) :=
  match url_Parse rawurl with
  | Err err => Ret (Err err)
  | Ok u =>
      let paths := pathSegments u in
      if (length paths <? 3)%nat then Ret (Err (errors_New "invalid Git URL"))
      else if (length paths =? 3)%nat then
        Ret (Ok ({| CheckoutOptions.Hash := ZeroHash; CheckoutOptions.Branch := Master |}, ""))
      else
        let paths := drop 3 paths in
        if hasDotComponent paths then Ret (Err (errors_New "invalid Git URL"))
        else if String.eqb (paths !!! 0%nat) "tree" then
          if (2 <=? length paths)%nat then
            if gitSHARegex_MatchString (paths !!! 1%nat) then
              Ret (Ok ({| CheckoutOptions.Hash := NewHash (paths !!! 1%nat);
                          CheckoutOptions.Branch := "" |},
                       Join (drop 2 paths) "/"))
            else
              bind (listGitReferencesByShortNameLength repo) (fun r =>
                match r with
                | Err err => Ret (Err err)
                | Ok refs =>
                    let path := Join (drop 1 paths) "/" +:+ "/" in
                    match matchRefs path refs with
                    | Some found => Ret (Ok found)
                    | None => Ret (Err (errors_New "invalid Git URL"))
                    end
                end)
          else Ret (Err (errors_New "invalid Git URL"))
        else
          Ret (Ok ({| CheckoutOptions.Hash := ZeroHash; CheckoutOptions.Branch := Master |},
                   Join paths "/"))
  end.

End Commands.

Arguments Ret {Repository Worktree A} a.
Arguments Do {Repository Worktree A} c k.
Arguments PlainClone {Repository Worktree} path isBare o.
Arguments PlainOpen {Repository Worktree} path.
Arguments Repository_Worktree {Repository Worktree} r.
Arguments Worktree_Pull {Repository Worktree} w o.
Arguments Repository_References {Repository Worktree} r.
Arguments run {Repository Worktree W A} h p w.
Arguments result_of {Repository Worktree W A} h p w.
Arguments trace_of {Repository Worktree W A} h p w.
Arguments GitCloneOrPull {Repository Worktree} url path.
Arguments listGitReferencesByShortNameLength {Repository Worktree} sort_Sort repo.
Arguments ParseGitCheckoutOptionsSubDirectory {Repository Worktree} url_Parse Short sort_Sort rawurl repo.

(** ** pkg/backend/filestate/stack.go *)

Section Filestate.

(** [backend.StackReference], [config.Map], [*deploy.Snapshot], [*localBackend] *)
Variables StackReference ConfigMap Snapshot localBackend : Type.

(** [apitype.StackTagName] is a string type. *)
Definition StackTagName : Type := string.

(** [localStack].  A Go map is either [nil] ([None]) or a table. *)
Record localStack : Type :=
  { ref : StackReference;
    path : string;
    config : ConfigMap;
    snapshot : Snapshot;
    b : localBackend;
    tags : option (gmap StackTagName string) }.

(** [s.Tags()] *)
Definition Tags (s : localStack) : option (gmap StackTagName string) := tags s.

(** reading a key of a Go map; a [nil] map has no keys *)
Definition tagOf (m : option (gmap StackTagName string)) (k : StackTagName) : option string :=
  match m with
  | None => None
  | Some t => t !! k
  end.

(** [s.MergeTags(tags)].  The incoming map is only measured and ranged over,
    for which a [nil] map and an empty one behave alike; the loop over it is
    the fold of the assignment [s.tags[k] = v]. *)
Definition MergeTags (s : localStack) (incoming : gmap StackTagName string) : localStack :=
  if (size incoming =? 0)%nat then s
  else
    let existing := match tags s with None => ∅ | Some t => t end in
    {| ref := ref s; path := path s; config := config s; snapshot := snapshot s; b := b s;
       tags := Some (map_fold (fun k v t => <[k:=v]> t) existing incoming) |}.

End Filestate.

Arguments ref {StackReference ConfigMap Snapshot localBackend} l.
Arguments path {StackReference ConfigMap Snapshot localBackend} l.
Arguments config {StackReference ConfigMap Snapshot localBackend} l.
Arguments snapshot {StackReference ConfigMap Snapshot localBackend} l.
Arguments b {StackReference ConfigMap Snapshot localBackend} l.
Arguments tags {StackReference ConfigMap Snapshot localBackend} l.
Arguments Tags {StackReference ConfigMap Snapshot localBackend} s.
Arguments MergeTags {StackReference ConfigMap Snapshot localBackend} s incoming.

(** ** Instances of the parameters, for the examples *)

Module Sample.

(** The pieces of [scheme://host/path]: a stand-in for [url.Parse] on URLs
    without user information, port, query, fragment or escapes. *)
Fixpoint untilSlash (s : string) : string * string :=
  match s with
  | EmptyString => (EmptyString, EmptyString)
  | String a s' =>
      if Ascii.eqb a "/" then (EmptyString, s)
      else let '(h, p) := untilSlash s' in (String a h, p)
  end.

Fixpoint splitScheme (s : string) : option (string * string) :=
  match s with
  | EmptyString => None
  | String a s' =>
      if HasPrefix s "://" then Some (EmptyString, sdrop 3 s)
      else match splitScheme s' with
           | Some (sch, rest) => Some (String a sch, rest)
           | None => None
           end
  end.

Definition url_Parse (rawurl : string) : result URL :=
  match splitScheme rawurl with
  | Some (sch, rest) =>
      let '(h, p) := untilSlash rest in
      Ok {| Scheme := sch; Host := h; Path := p |}
  | None => Ok {| Scheme := ""; Host := ""; Path := rawurl |}
  end.

(** A stand-in for [ReferenceName.Short]: the name without its
    [refs/heads/], [refs/tags/] or [refs/remotes/] prefix. *)
Definition Short (r : ReferenceName) : string :=
  if HasPrefix r "refs/heads/" then sdrop 11 r
  else if HasPrefix r "refs/tags/" then sdrop 10 r
  else if HasPrefix r "refs/remotes/" then sdrop 13 r
  else r.

(** A stand-in for [sort.Sort(byShortNameLengthDesc(_))]: insertion sort. *)
Fixpoint insertDesc (x : ReferenceName) (l : list ReferenceName) : list ReferenceName :=
  match l with
  | [] => [x]
  | y :: l' =>
      if (len (Short y) <? len (Short x))%nat then x :: l
      else y :: insertDesc x l'
  end.

Fixpoint sort_Sort (l : list ReferenceName) : list ReferenceName :=
  match l with
  | [] => []
  | x :: l' => insertDesc x (sort_Sort l')
  end.

(** Handles are numbers. *)
Definition Repository : Type := nat.
Definition Worktree : Type := nat.

Definition named (names : list ReferenceName) : list Reference :=
  map (fun n => {| Name := n; Target := "" |}) names.

(** A world in which every repository has the references [names] and nothing
    can be cloned, opened or pulled. *)
Definition world (names : list ReferenceName) : handler Repository Worktree unit :=
  fun c w =>
    match c return answer Repository Worktree c * unit with
    | PlainClone _ _ _ => (Err (ErrLibrary "unreachable"), w)
    | PlainOpen _ => (Err (ErrLibrary "unreachable"), w)
    | Repository_Worktree _ => (Err (ErrLibrary "unreachable"), w)
    | Worktree_Pull _ _ => (Some (ErrLibrary "unreachable"), w)
    | Repository_References _ => (Ok {| iter_refs := named names; iter_err := None |}, w)
    end.

(** A world that answers the calls of a clone-or-pull with fixed values. *)
Definition scripted (clone open : result Repository) (wt : result Worktree)
  (pull : option error) : handler Repository Worktree unit :=
  fun c w =>
    match c return answer Repository Worktree c * unit with
    | PlainClone _ _ _ => (clone, w)
    | PlainOpen _ => (open, w)
    | Repository_Worktree _ => (wt, w)
    | Worktree_Pull _ _ => (pull, w)
    | Repository_References _ => (Err (ErrLibrary "unreachable"), w)
    end.

(** The same references, in a world that counts the calls made. *)
Definition counting (names : list ReferenceName) : handler Repository Worktree nat :=
  fun c n =>
    match c return answer Repository Worktree c * nat with
    | PlainClone _ _ _ => (Err (ErrLibrary "unreachable"), S n)
    | PlainOpen _ => (Err (ErrLibrary "unreachable"), S n)
    | Repository_Worktree _ => (Err (ErrLibrary "unreachable"), S n)
    | Worktree_Pull _ _ => (Some (ErrLibrary "unreachable"), S n)
    | Repository_References _ => (Ok {| iter_refs := named names; iter_err := None |}, S n)
    end.

Definition ParseGitRepoURL := ParseGitRepoURL url_Parse.

(** The result of [ParseGitCheckoutOptionsSubDirectory] on [rawurl] for a
    repository whose references are [names]. *)
Definition resolve (names : list ReferenceName) (rawurl : string)
  : result (CheckoutOptions.t * string) :=
  result_of (world names)
    (ParseGitCheckoutOptionsSubDirectory url_Parse Short sort_Sort rawurl 0%nat) tt.

End Sample.

(** ** The rest of git.go and its callers in pkg/workspace/templates.go *)

(** [config.RemoteConfig]: the URLs of a remote. *)
Record Remote : Type := { URLs : list string }.

(** [os.FileInfo]: what is read of it. *)
Module FileInfo.
Record t : Type := { Name : string; IsDir : bool }.
End FileInfo.

(** [user.User]: what is read of it. *)
Module User.
Record t : Type := { HomeDir : string }.
End User.

(** the line feed and the carriage return *)
Definition LF : string := String "010"%char EmptyString.
Definition CR : string := String "013"%char EmptyString.

(** [fmt.Errorf] with its arguments already formatted: an error carried by its
    message. *)
Definition fmt_Errorf (msg : string) : error := errors_New msg.

(** [trimGitRemoteURL] *)
Definition trimGitRemoteURL (url prefix suffix : string) : string :=
  TrimSuffix (TrimPrefix url prefix) suffix.

(** The constants of [GetGitHubProjectForOriginByRepo]. *)
Definition GitHubSSHPrefix : string := "git@github.com:".
Definition GitHubHTTPSPrefix : string := "https://github.com/".
Definition GitHubRepositorySuffix : string := ".git".

(** The constants of templates.go. *)
Definition defaultProjectName : string := "project".
Definition pulumiTemplateGitRepository : string := "https://github.com/pulumi/templates.git".
Definition legacyPulumiTemplateManifestFile : string := ".pulumi.template.yaml".

Section Workspace.

Variables Repository Worktree : Type.

(** The calls made besides those of [call]: more of go-git, the file system,
    the current user and the standard output.  [fsutil_WalkUp dir] is the call
    [fsutil.WalkUp(dir, func(s) { return filepath.Base(s) == ".git" }, nil)];
    [Worktree_Checkout w opts force] is [w.Checkout(opts)] with [opts.Force]
    set to [force]. *)
Inductive oscall : Type :=
| Git (c : call Repository Worktree)
| Repository_Remote (r : Repository) (name : string)
| fsutil_WalkUp (dir : string)
| Worktree_Checkout (w : Worktree) (opts : CheckoutOptions.t) (force : bool)
| os_Stat (name : string)
| os_RemoveAll (path : string)
| os_MkdirAll (path : string) (perm : Z)
| user_Current
| fmt_Printf (text : string).

Definition osanswer (c : oscall) : Type :=
  match c with
  | Git c => answer Repository Worktree c
  | Repository_Remote _ _ => result Remote
  | fsutil_WalkUp _ => result string
  | Worktree_Checkout _ _ _ => option error
  | os_Stat _ => result FileInfo.t
  | os_RemoveAll _ => option error
  | os_MkdirAll _ _ => option error
  | user_Current => (option User.t * option error)%type
  | fmt_Printf _ => unit
  end.

Inductive osprog (A : Type) : Type :=
| OsRet (a : A)
| OsDo (c : oscall) (k : osanswer c -> osprog A).

Arguments OsRet {A} a.
Arguments OsDo {A} c k.

Fixpoint osbind {A B : Type} (p : osprog A) (f : A -> osprog B) : osprog B :=
  match p with
  | OsRet a => f a
  | OsDo c k => OsDo c (fun x => osbind (k x) f)
  end.

(** A computation over [call] is one over [oscall]. *)
Fixpoint lift {A : Type} (p : prog Repository Worktree A) : osprog A :=
  match p with
  | Ret a => OsRet a
  | Do c k => OsDo (Git c) (fun x => lift (k x))
  end.

Definition oshandler (W : Type) : Type := forall c : oscall, W -> osanswer c * W.

(** the go-git part of a world *)
Definition gitOf {W : Type} (h : oshandler W) : handler Repository Worktree W :=
  fun c w => h (Git c) w.

Fixpoint osrun {W A : Type} (h : oshandler W) (p : osprog A) (w : W)
  : A * W * list oscall :=
  match p with
  | OsRet a => (a, w, [])
  | OsDo c k =>
      let '(x, w') := h c w in
      let '(a, w'', t) := osrun h (k x) w' in
      (a, w'', c :: t)
  end.

(** [url.Parse], [ReferenceName.Short], [sort.Sort(byShortNameLengthDesc(_))] *)
Variable url_Parse : string -> result URL.
Variable Short : ReferenceName -> string.
Variable sort_Sort : list ReferenceName -> list ReferenceName.

(** [errors.Wrap(err, message)] of github.com/pkg/errors, for an [err] that is
    not [nil] *)
Variable errors_Wrap : error -> string -> error.

(** [errors.Wrap] returns [nil] when given [nil]. *)
Definition errors_Wrap_nilable (err : option error) (message : string) : option error :=
  match err with
  | None => None
  | Some e => Some (errors_Wrap e message)
  end.

(** [err == git.ErrRepositoryNotExists] *)
Variable is_ErrRepositoryNotExists : error -> bool.

(** [path.Join], [filepath.Join] and [filepath.FromSlash] *)
Variable path_Join : list string -> string.
Variable filepath_Join : list string -> string.
Variable filepath_FromSlash : string -> string.

(** how [%v] prints a [*git.Remote] *)
Variable Remote_String : Remote -> string.

(** [BookkeepingDir] and [TemplateDir] of the workspace package *)
Variables BookkeepingDir TemplateDir : string.

(** [GetGitRepository]; a Go pair of which both sides may be [nil] *)
Definition GetGitRepository (dir : string) : osprog (option Repository * option error) :=
  OsDo (fsutil_WalkUp dir) (fun r =>
    match r with
    | Err err =>
        OsRet (None, Some (errors_Wrap err ("searching for git repository from " +:+ dir)))
    | Ok gitRoot =>
        if String.eqb gitRoot "" then OsRet (None, None)
        else
          OsDo (Git (PlainOpen (path_Join [gitRoot; ".."]))) (fun r =>
            match r with
            | Err err =>
                if is_ErrRepositoryNotExists err then OsRet (None, None)
                else OsRet (None, Some (errors_Wrap err "reading git repository"))
            | Ok repo => OsRet (Some repo, None)
            end)
    end).

(** [GetGitHubProjectForOriginByRepo] *)
Definition GetGitHubProjectForOriginByRepo (repo : Repository)
  : osprog (result (string * string)) :=
  OsDo (Repository_Remote repo "origin") (fun r =>
    match r with
    | Err err => OsRet (Err (errors_Wrap err "could not read origin information"))
    | Ok remote =>
        let remoteURL :=
          match URLs remote with
          | [] => EmptyString
          | url :: _ => url
          end in
        let project :=
          if HasPrefix remoteURL GitHubSSHPrefix then
            trimGitRemoteURL remoteURL GitHubSSHPrefix GitHubRepositorySuffix
          else if HasPrefix remoteURL GitHubHTTPSPrefix then
            trimGitRemoteURL remoteURL GitHubHTTPSPrefix GitHubRepositorySuffix
          else EmptyString in
        let split := Split project "/" in
        if negb (length split =? 2)%nat then
          OsRet (Err (errors_New ("could not detect GitHub project from url: "
                                  +:+ Remote_String remote)))
        else OsRet (Ok (split !!! 0%nat, split !!! 1%nat))
    end).

(** [GetGitHubProjectForOrigin] *)
Definition GetGitHubProjectForOrigin (dir : string) : osprog (result (string * string)) :=
  osbind (GetGitRepository dir) (fun '(repo, err) =>
    match repo with
    | None => OsRet (Err (fmt_Errorf ("no git repository found from " +:+ dir)))
    | Some repo =>
        match err with
        | Some err => OsRet (Err err)
        | None => GetGitHubProjectForOriginByRepo repo
        end
    end).

(** [GetTemplateDir] *)
Definition GetTemplateDir (name : string) : osprog (string * option error) :=
  OsDo user_Current (fun '(u, err) =>
    match u, err with
    | Some u, None =>
        let dir := filepath_Join [User.HomeDir u; BookkeepingDir; TemplateDir] in
        let dir := if negb (String.eqb name "") then filepath_Join [dir; TemplateDir; name]
                   else dir in
        OsRet (dir, None)
    | _, _ => OsRet (EmptyString, errors_Wrap_nilable err "getting user home directory")
    end).

(** [cleanupLegacyTemplateDir] *)
Definition cleanupLegacyTemplateDir : osprog (option error) :=
  osbind (GetTemplateDir "") (fun '(templateDir, err) =>
    match err with
    | Some err => OsRet (Some err)
    | None =>
        OsDo (Git (PlainOpen templateDir)) (fun r =>
          match r with
          | Err err =>
              if is_ErrRepositoryNotExists err then
                OsDo (os_RemoveAll templateDir) (fun e => OsRet e)
              else OsRet (Some err)
          | Ok _ => OsRet None
          end)
    end).

(** [CloneOrUpdatePulumiTemplates] *)
Definition CloneOrUpdatePulumiTemplates : osprog (option error) :=
  osbind cleanupLegacyTemplateDir (fun e =>
    match e with
    | Some err => OsRet (Some err)
    | None =>
        osbind (GetTemplateDir "") (fun '(templateDir, err) =>
          match err with
          | Some err => OsRet (Some err)
          | None =>
              OsDo (os_MkdirAll templateDir 448) (fun e =>
                match e with
                | Some err => OsRet (Some err)
                | None =>
                    osbind (lift (GitCloneOrPull pulumiTemplateGitRepository templateDir))
                      (fun r =>
                         match r with
                         | Err err => OsRet (Some err)
                         | Ok _ => OsRet None
                         end)
                end)
          end)
    end).

(** [RetrieveTemplate] *)
Definition RetrieveTemplate (rawurl path : string) : osprog (result string) :=
  match ParseGitRepoURL url_Parse rawurl with
  | Err err => OsRet (Err err)
  | Ok url =>
      osbind (lift (GitCloneOrPull url path)) (fun r =>
        match r with
        | Err err => OsRet (Err err)
        | Ok repo =>
            osbind (lift (ParseGitCheckoutOptionsSubDirectory url_Parse Short sort_Sort
                            rawurl repo)) (fun r =>
              match r with
              | Err err => OsRet (Err err)
              | Ok (opts, subDirectory) =>
                  OsDo (fmt_Printf ("JVP: Branch: " +:+ CheckoutOptions.Branch opts +:+ LF))
                    (fun _ =>
                  OsDo (Git (Repository_Worktree repo)) (fun r =>
                    match r with
                    | Err err => OsRet (Err err)
                    | Ok w =>
                        OsDo (Worktree_Checkout w opts true) (fun e =>
                          match e with
                          | Some err => OsRet (Err err)
                          | None =>
                              let fullPath :=
                                filepath_Join [path; filepath_FromSlash subDirectory] in
                              OsDo (os_Stat fullPath) (fun r =>
                                match r with
                                | Err err => OsRet (Err err)
                                | Ok info =>
                                    if negb (FileInfo.IsDir info) then
                                      OsRet (Err (errors_New
                                                    (fullPath +:+ " is not a directory")))
                                    else OsRet (Ok fullPath)
                                end)
                          end)
                    end))
              end)
        end)
  end.

End Workspace.

Arguments OsRet {Repository Worktree A} a.
Arguments OsDo {Repository Worktree A} c k.
Arguments Git {Repository Worktree} c.
Arguments Repository_Remote {Repository Worktree} r name.
Arguments fsutil_WalkUp {Repository Worktree} dir.
Arguments Worktree_Checkout {Repository Worktree} w opts force.
Arguments os_Stat {Repository Worktree} name.
Arguments os_RemoveAll {Repository Worktree} path.
Arguments os_MkdirAll {Repository Worktree} path perm.
Arguments user_Current {Repository Worktree}.
Arguments fmt_Printf {Repository Worktree} text.
Arguments osbind {Repository Worktree A B} p f.
Arguments lift {Repository Worktree A} p.
Arguments osrun {Repository Worktree W A} h p w.
Arguments gitOf {Repository Worktree W} h c w.

Arguments GetGitRepository {Repository Worktree} errors_Wrap is_ErrRepositoryNotExists
  path_Join dir.
Arguments GetGitHubProjectForOriginByRepo {Repository Worktree} errors_Wrap Remote_String repo.
Arguments GetGitHubProjectForOrigin {Repository Worktree} errors_Wrap is_ErrRepositoryNotExists
  path_Join Remote_String dir.
Arguments GetTemplateDir {Repository Worktree} errors_Wrap filepath_Join
  BookkeepingDir TemplateDir name.
Arguments cleanupLegacyTemplateDir {Repository Worktree} errors_Wrap is_ErrRepositoryNotExists
  filepath_Join BookkeepingDir TemplateDir.
Arguments CloneOrUpdatePulumiTemplates {Repository Worktree} errors_Wrap
  is_ErrRepositoryNotExists filepath_Join BookkeepingDir TemplateDir.
Arguments RetrieveTemplate {Repository Worktree} url_Parse Short sort_Sort filepath_Join
  filepath_FromSlash rawurl path.

(** ** The helpers of templates.go that touch nothing outside *)

(** A function that may panic instead of returning. *)
Inductive orPanic (A : Type) : Type :=
| Returns (a : A)
| Panics.

Arguments Returns {A} a.
Arguments Panics {A}.

(** [strings.Replace(s, old, new, -1)] for a non-empty [old]: every occurrence
    of [old] met from left to right, none overlapping an earlier one, becomes
    [new].  [skip] counts the bytes of an occurrence still to be dropped. *)
Fixpoint replaceFrom (old new : string) (skip : nat) (s : string) : string :=
  match s with
  | EmptyString => EmptyString
  | String a s' =>
      match skip with
      | S k => replaceFrom old new k s'
      | O =>
          if HasPrefix s old then new +:+ replaceFrom old new (len old - 1) s'
          else String a (replaceFrom old new 0 s')
      end
  end.

Definition Replace (s old new : string) : string := replaceFrom old new 0 s.

(** [string(b)] for a byte [b]: the UTF-8 encoding of the code point [b], one
    byte below 128 and two bytes from 128 on. *)
Definition string_of_byte (b : ascii) : string :=
  let n := N_of_ascii b in
  if (n <? 128)%N then String b EmptyString
  else String (ascii_of_N (N.lor 192 (N.shiftr n 6)))
         (String (ascii_of_N (N.lor 128 (N.land n 63))) EmptyString).

(** [firstFewBytes] of [isBinary].  A [[]byte] is modelled by [string], as Go
    strings are, so that [string(b)] and [[]byte(s)] change nothing. *)
Definition firstFewBytes : nat := 8 * 1000.

(** the loop of [isBinary]: a zero byte among the first [length] bytes *)
Fixpoint zeroWithin (length : nat) (bytes : string) : bool :=
  match length, bytes with
  | S n, String c bytes' => if Ascii.eqb c zero then true else zeroWithin n bytes'
  | _, _ => false
  end.

(** [isBinary] *)
Definition isBinary (bytes : string) : bool :=
  let length := len bytes in
  let length := if (firstFewBytes <? length)%nat then firstFewBytes else length in
  zeroWithin length bytes.

(** [newExistingFilesError]; [contract.Assert] panics when its argument is
    false *)
Definition newExistingFilesError (existing : list string) : orPanic error :=
  if negb (0 <? length existing)%nat then Panics
  else
    let message := "creating this template will make changes to existing files:" +:+ LF in
    let message :=
      foldl (fun message file => message +:+ ("  overwrite   " +:+ file +:+ LF))
        message existing in
    let message :=
      message +:+ (LF +:+ "rerun the command and pass --force to accept and create") in
    Returns (errors_New message).

Section Templates.

(** [tokens.IsPackageName] *)
Variable IsPackageName : string -> bool.

(** [runtime.GOOS] *)
Variable runtime_GOOS : string.

(** [IsValidProjectName] *)
Definition IsValidProjectName (name : string) : bool := IsPackageName name.

(** the loop of [getValidProjectName], from the byte it has reached *)
Fixpoint buildUp (result name : string) : string :=
  match name with
  | EmptyString => result
  | String c name' =>
      let temp := result +:+ string_of_byte c in
      if IsValidProjectName temp then buildUp temp name' else buildUp result name'
  end.

(** [getValidProjectName] *)
Definition getValidProjectName (name : string) : string :=
  if IsValidProjectName name then name
  else
    let result := buildUp EmptyString name in
    if String.eqb result "" then defaultProjectName else result.

(** [ValueOrSanitizedDefaultProjectName] *)
Definition ValueOrSanitizedDefaultProjectName (name defaultNameToSanitize : string) : string :=
  if negb (String.eqb name "") then name
  else getValidProjectName defaultNameToSanitize.

(** [ValueOrDefaultProjectDescription] *)
Definition ValueOrDefaultProjectDescription (description defaultDescription : string)
  : string :=
  if negb (String.eqb description "") then description
  else if negb (String.eqb defaultDescription "") then defaultDescription
  else EmptyString.

(** [transform] *)
Definition transform (content projectName projectDescription : string) : string :=
  let content :=
    if String.eqb runtime_GOOS "windows" then Replace content LF (CR +:+ LF)
    else content in
  let content := Replace content "${PROJECT}" projectName in
  let content := Replace content "${DESCRIPTION}" projectDescription in
  content.

End Templates.

(** A template text seen as literal pieces and placeholders, and what it reads
    once each placeholder is given a text.  The file itself is
    [render "${PROJECT}" "${DESCRIPTION}" pieces]. *)
Inductive piece : Type :=
| Text (s : string)
| ProjectPlaceholder
| DescriptionPlaceholder.

Fixpoint render (project description : string) (pieces : list piece) : string :=
  match pieces with
  | [] => EmptyString
  | Text s :: pieces' => s +:+ render project description pieces'
  | ProjectPlaceholder :: pieces' => project +:+ render project description pieces'
  | DescriptionPlaceholder :: pieces' => description +:+ render project description pieces'
  end.

(** the literal pieces have no [$] *)
Definition plainText (pieces : list piece) : bool :=
  forallb (fun p => match p with Text s => negb (contains "$" s) | _ => true end) pieces.

(** ** Instances of the further parameters, for the examples *)

Module SampleOS.

Definition errorText (e : error) : string :=
  match e with
  | ErrRepositoryAlreadyExists => "repository already exists"
  | NoErrAlreadyUpToDate => "already up-to-date"
  | errors_New msg => msg
  | ErrLibrary msg => msg
  end.

(** A stand-in for [errors.Wrap]. *)
Definition errors_Wrap (e : error) (message : string) : error :=
  ErrLibrary (message +:+ ": " +:+ errorText e).

(** [git.ErrRepositoryNotExists] is the library error with this message. *)
Definition ErrRepositoryNotExists : error := ErrLibrary "repository does not exist".

Definition is_ErrRepositoryNotExists (e : error) : bool :=
  match e with
  | ErrLibrary msg => String.eqb msg "repository does not exist"
  | _ => false
  end.

(** A stand-in for [path.Join] and [filepath.Join] on clean elements. *)
Definition path_Join (elem : list string) : string := Join elem "/".

(** [filepath.FromSlash] where the separator is a slash. *)
Definition filepath_FromSlash (s : string) : string := s.

Definition Remote_String (r : Remote) : string := Join (URLs r) " ".

(** A stand-in for [tokens.IsPackageName]: a letter, [_] or [.], then letters,
    digits, [_], [.] and [-]. *)
Definition isNameStart (c : ascii) : bool :=
  let n := nat_of_ascii c in
  ((65 <=? n) && (n <=? 90) || (97 <=? n) && (n <=? 122) || (n =? 95) || (n =? 46))%nat.

Definition isNameChar (c : ascii) : bool :=
  let n := nat_of_ascii c in
  (isNameStart c || (48 <=? n) && (n <=? 57) || (n =? 45))%nat.

Definition IsPackageName (s : string) : bool :=
  match s with
  | EmptyString => false
  | String c s' => isNameStart c && all_bytes isNameChar s'
  end.

(** go-git in a world where cloning, opening and pulling succeed and every
    repository has the references [names]. *)
Definition cloned (names : list ReferenceName)
  : handler Sample.Repository Sample.Worktree unit :=
  fun c w =>
    match c return answer Sample.Repository Sample.Worktree c * unit with
    | PlainClone _ _ _ => (Ok 1%nat, w)
    | PlainOpen _ => (Ok 1%nat, w)
    | Repository_Worktree _ => (Ok 2%nat, w)
    | Worktree_Pull _ _ => (None, w)
    | Repository_References _ =>
        (Ok {| iter_refs := Sample.named names; iter_err := None |}, w)
    end.

(** A world that answers every call with a fixed value. *)
Definition machine (git : handler Sample.Repository Sample.Worktree unit)
    (remote : result Remote) (walk : result string) (checkout : option error)
    (stat : result FileInfo.t) (user : option User.t * option error)
    (remove mkdir : option error)
  : oshandler Sample.Repository Sample.Worktree unit :=
  fun c w =>
    match c return osanswer Sample.Repository Sample.Worktree c * unit with
    | Git c => git c w
    | Repository_Remote _ _ => (remote, w)
    | fsutil_WalkUp _ => (walk, w)
    | Worktree_Checkout _ _ _ => (checkout, w)
    | os_Stat _ => (stat, w)
    | os_RemoveAll _ => (remove, w)
    | os_MkdirAll _ _ => (mkdir, w)
    | user_Current => (user, w)
    | fmt_Printf _ => (tt, w)
    end.

End SampleOS.

(** * Properties *)

(** ** Byte strings *)

Section StringFacts.

Implicit Types s t p q : string.

Lemma append_assoc s t q : (s +:+ t) +:+ q = s +:+ (t +:+ q).
Proof. induction s as [|a s IH]; simpl; [done | by rewrite IH]. Qed.

Lemma append_empty_r s : s +:+ "" = s.
Proof. induction s as [|a s IH]; simpl; [done | by rewrite IH]. Qed.

Lemma len_append s t : len (s +:+ t) = (len s + len t)%nat.
Proof. induction s as [|a s IH]; simpl; [done | by rewrite IH]. Qed.

Lemma HasPrefix_append p t : HasPrefix (p +:+ t) p = true.
Proof.
  unfold HasPrefix. induction p as [|a p IH]; simpl.
  - by destruct t.
  - destruct (ascii_dec a a) as [_|Hne]; [exact IH | by destruct Hne].
Qed.

Lemma sdrop_append p t : sdrop (len p) (p +:+ t) = t.
Proof. induction p as [|a p IH]; simpl; [by destruct t | exact IH]. Qed.

Lemma stake_append p t : stake (len p) (p +:+ t) = p.
Proof. induction p as [|a p IH]; simpl; [by destruct t | by rewrite IH]. Qed.

Lemma stake_sdrop n s : stake n s +:+ sdrop n s = s.
Proof.
  revert s. induction n as [|n IH]; intros [|a s]; simpl; try done.
  by rewrite IH.
Qed.

Lemma HasPrefix_inv s p : HasPrefix s p = true -> s = p +:+ sdrop (len p) s.
Proof.
  unfold HasPrefix. revert s. induction p as [|a p IH]; intros [|c s] H; simpl in *;
    try done.
  destruct (ascii_dec a c) as [->|]; [| done].
  by rewrite <- IH.
Qed.

Lemma TrimPrefix_append p t : TrimPrefix (p +:+ t) p = t.
Proof. unfold TrimPrefix. by rewrite HasPrefix_append, sdrop_append. Qed.

Lemma TrimPrefix_cases s p : s = TrimPrefix s p \/ s = p +:+ TrimPrefix s p.
Proof.
  unfold TrimPrefix. destruct (HasPrefix s p) eqn:H; [right | by left].
  by apply HasPrefix_inv.
Qed.

Lemma HasSuffix_append q t : HasSuffix (q +:+ t) t = true.
Proof.
  unfold HasSuffix. rewrite len_append.
  replace (len q + len t - len t)%nat with (len q) by lia.
  rewrite sdrop_append, String.eqb_refl.
  rewrite andb_true_r. apply Nat.leb_le. lia.
Qed.

Lemma HasSuffix_inv s t : HasSuffix s t = true -> s = stake (len s - len t) s +:+ t.
Proof.
  unfold HasSuffix. intros [_ H]%andb_true_iff.
  apply String.eqb_eq in H.
  pose proof (stake_sdrop (len s - len t) s) as E. by rewrite H in E.
Qed.

Lemma TrimSuffix_append q t : TrimSuffix (q +:+ t) t = q.
Proof.
  unfold TrimSuffix. rewrite HasSuffix_append, len_append.
  replace (len q + len t - len t)%nat with (len q) by lia.
  apply stake_append.
Qed.

Lemma TrimSuffix_cases s t : TrimSuffix s t = s \/ s = TrimSuffix s t +:+ t.
Proof.
  unfold TrimSuffix. destruct (HasSuffix s t) eqn:H; [right | by left].
  by apply HasSuffix_inv.
Qed.

Lemma Split_not_nil s c : Split s c <> [].
Proof.
  destruct s as [|a s]; simpl; [done |].
  destruct (Ascii.eqb a c); [done |]. by destruct (Split s c).
Qed.

Lemma Split_no_sep s c : contains c s = false -> Split s c = [s].
Proof.
  induction s as [|a s IH]; simpl; [done |].
  intros [Ha Hs]%orb_false_iff. rewrite Ha, (IH Hs). done.
Qed.

Lemma Split_append_sep s t c :
  contains c s = false -> Split (s +:+ String c t) c = s :: Split t c.
Proof.
  induction s as [|a s IH]; simpl.
  - intros _. by rewrite Ascii.eqb_refl.
  - intros [Ha Hs]%orb_false_iff. rewrite Ha, (IH Hs). done.
Qed.

Lemma Split_snoc_sep s c : Split (s +:+ String c "") c = Split s c ++ [""].
Proof.
  induction s as [|a s IH]; simpl.
  - by rewrite Ascii.eqb_refl.
  - destruct (Ascii.eqb a c); [by rewrite IH |].
    rewrite IH. pose proof (Split_not_nil s c). by destruct (Split s c).
Qed.

Lemma Join_cons x xs sep :
  xs <> [] -> Join (x :: xs) sep = x +:+ sep +:+ Join xs sep.
Proof. by destruct xs. Qed.


End StringFacts.

(** ** Running command trees *)

Section RunFacts.

Context {Repository Worktree W : Type}.
Implicit Types (h : handler Repository Worktree W) (w : W).

Lemma run_Ret {A} h (a : A) w : run h (Ret a) w = (a, w, []).
Proof. reflexivity. Qed.

Lemma run_Do {A} h c (k : answer Repository Worktree c -> prog Repository Worktree A) w :
  run h (Do c k) w =
  (let '(a, w'', t) := run h (k (h c w).1) (h c w).2 in (a, w'', c :: t)).
Proof. simpl. by destruct (h c w). Qed.

Lemma run_bind {A B} h (p : prog Repository Worktree A)
    (f : A -> prog Repository Worktree B) w :
  run h (bind _ _ p f) w =
  (let '(a, w', t) := run h p w in
   let '(b, w'', t') := run h (f a) w' in (b, w'', t ++ t')).
Proof.
  revert w. induction p as [a | c k IH]; intros w; simpl.
  - by destruct (run h (f a) w) as [[? ?] ?].
  - destruct (h c w) as [x w1]. rewrite IH.
    destruct (run h (k x) w1) as [[a w2] t].
    by destruct (run h (f a) w2) as [[? ?] ?].
Qed.

End RunFacts.

(** ** GitCloneOrPull *)

Section CloneOrPull.

Context {Repository Worktree W : Type}.
Implicit Types (h : handler Repository Worktree W) (w : W).

Ltac in_trace := repeat first [apply list_elem_of_here | apply list_elem_of_further].

(** C6. [GitCloneOrPull] starts with a clone of depth 1.  A successful clone
    is returned and nothing else is called; a clone that fails with anything
    but [ErrRepositoryAlreadyExists] is returned unchanged and nothing else is
    called.  Exactly when the clone fails with [ErrRepositoryAlreadyExists] the
    repository at [path] is opened; a failure to open it or to get its worktree
    is returned unchanged; otherwise the worktree is pulled with depth 1 and
    force, the opened repository is returned when the pull succeeds or answers
    [NoErrAlreadyUpToDate], and any other pull error is returned unchanged. *)
Theorem GitCloneOrPull_clone_then_pull h w (url path : string) :
  let clone := PlainClone path false {| CloneOptions.URL := url; CloneOptions.Depth := 1 |} in
  let open := PlainOpen path in
  let pullOpts := {| PullOptions.Depth := 1; PullOptions.Force := true |} in
  let res := result_of h (GitCloneOrPull url path) w in
  let tr := trace_of h (GitCloneOrPull url path) w in
  (exists t, tr = clone :: t) /\
  (open ∈ tr <-> (h clone w).1 = Err ErrRepositoryAlreadyExists) /\
  (forall repo, (h clone w).1 = Ok repo -> res = Ok repo /\ tr = [clone]) /\
  (forall e, (h clone w).1 = Err e -> e <> ErrRepositoryAlreadyExists ->
     res = Err e /\ tr = [clone]) /\
  ((h clone w).1 = Err ErrRepositoryAlreadyExists ->
     let w1 := (h clone w).2 in
     (forall e, (h open w1).1 = Err e -> res = Err e /\ tr = [clone; open]) /\
     (forall repo, (h open w1).1 = Ok repo ->
        let w2 := (h open w1).2 in
        let worktree := Repository_Worktree repo in
        (forall e, (h worktree w2).1 = Err e ->
           res = Err e /\ tr = [clone; open; worktree]) /\
        (forall wt, (h worktree w2).1 = Ok wt ->
           let w3 := (h worktree w2).2 in
           let pull := Worktree_Pull wt pullOpts in
           tr = [clone; open; worktree; pull] /\
           ((h pull w3).1 = None -> res = Ok repo) /\
           ((h pull w3).1 = Some NoErrAlreadyUpToDate -> res = Ok repo) /\
           (forall e, (h pull w3).1 = Some e -> e <> NoErrAlreadyUpToDate ->
              res = Err e)))).
Proof.
  intros clone open pullOpts res tr.
  subst res tr. unfold result_of, trace_of, GitCloneOrPull.
  fold clone. fold open. fold pullOpts.
  rewrite run_Do.
  destruct (h clone w) as [r0 w1] eqn:Hc. simpl in r0. simpl fst; simpl snd.
  destruct r0 as [repo0 | e0].
  { (* the clone succeeded *)
    simpl. split_and!.
    - by eexists.
    - split; [| done]. intros Hin. apply list_elem_of_singleton in Hin. done.
    - by intros repo [= ->].
    - done.
    - done. }
  destruct (is_ErrRepositoryAlreadyExists e0) eqn:He0.
  2:{ (* any other failure of the clone *)
    simpl. split_and!.
    - by eexists.
    - split.
      + intros Hin. apply list_elem_of_singleton in Hin. done.
      + intros [= ->]. done.
    - done.
    - by intros e [= ->] _.
    - intros [= ->]. done. }
  destruct e0; try done. clear He0.
  rewrite run_Do.
  destruct (h open w1) as [r1 w2] eqn:Ho. simpl in r1. simpl fst; simpl snd.
  destruct r1 as [repo | e1].
  2:{ simpl. split_and!.
      - by eexists.
      - split; [done | intros _; in_trace].
      - done.
      - by intros e [= <-].
      - intros _. split; [by intros e [= ->] | done]. }
  rewrite run_Do.
  destruct (h (Repository_Worktree repo) w2) as [r2 w3] eqn:Hw. simpl in r2.
  simpl fst; simpl snd.
  destruct r2 as [wt | e2].
  2:{ simpl. split_and!.
      - by eexists.
      - split; [done | intros _; in_trace].
      - done.
      - by intros e [= <-].
      - intros _. split; [done |]. intros repo' [= <-]. rewrite Hw. simpl.
        split; [by intros e [= ->] | done]. }
  rewrite run_Do.
  destruct (h (Worktree_Pull wt pullOpts) w3) as [r3 w4] eqn:Hp. simpl in r3.
  simpl fst; simpl snd.
  destruct r3 as [e3 |].
  - destruct (is_NoErrAlreadyUpToDate e3) eqn:He3; simpl.
    + destruct e3; try done. split_and!.
      * by eexists.
      * split; [done | intros _; in_trace].
      * done.
      * by intros e [= <-].
      * intros _. split; [done |]. intros repo' [= <-]. rewrite Hw. simpl.
        split; [done |]. intros wt' [= <-]. rewrite Hp. simpl.
        split_and!; try done. by intros e [= <-].
    + split_and!.
      * by eexists.
      * split; [done | intros _; in_trace].
      * done.
      * by intros e [= <-].
      * intros _. split; [done |]. intros repo' [= <-]. rewrite Hw. simpl.
        split; [done |]. intros wt' [= <-]. rewrite Hp. simpl.
        split_and!; try done.
        -- intros [= ->]. done.
        -- by intros e [= ->] _.
  - simpl. split_and!.
    + by eexists.
    + split; [done | intros _; in_trace].
    + done.
    + by intros e [= <-].
    + intros _. split; [done |]. intros repo' [= <-]. rewrite Hw. simpl.
      split; [done |]. intros wt' [= <-]. rewrite Hp. simpl.
      split_and!; try done.
Qed.

End CloneOrPull.

(** ** MergeTags *)

Section MergeTagsFacts.

Context {StackReference ConfigMap Snapshot localBackend : Type}.
Implicit Types (s : localStack StackReference ConfigMap Snapshot localBackend).
Implicit Types (incoming existing : gmap StackTagName string) (k : StackTagName).

Lemma range_insert_lookup existing incoming k :
  map_fold (fun k v t => <[k:=v]> t) existing incoming !! k =
  match incoming !! k with
  | Some v => Some v
  | None => existing !! k
  end.
Proof.
  revert k.
  apply (map_fold_weak_ind
    (fun (r : gmap StackTagName string) (m : gmap StackTagName string) =>
       forall k, r !! k = match m !! k with Some v => Some v | None => existing !! k end)).
  - intros k. by rewrite lookup_empty.
  - intros i x m r Hi IH k. destruct (decide (i = k)) as [->|Hne].
    + by rewrite !lookup_insert_eq.
    + rewrite !lookup_insert_ne by done. apply IH.
Qed.

(** Go ranges over a map in an unspecified order: inserting the incoming pairs
    in any order gives the table that [MergeTags] builds. *)
Lemma range_order_irrelevant existing incoming (order : list (StackTagName * string)) :
  order ≡ₚ map_to_list incoming ->
  foldr (fun kv t => <[kv.1:=kv.2]> t) existing order =
  map_fold (fun k v t => <[k:=v]> t) existing incoming.
Proof.
  intros Hperm.
  assert (Hnd : NoDup order.*1).
  { rewrite Hperm. apply NoDup_fst_map_to_list. }
  assert (Hl : list_to_map order = incoming).
  { rewrite <- (list_to_map_to_list incoming). by apply list_to_map_proper. }
  clear Hperm. subst incoming.
  induction order as [|[k v] l IH]; simpl.
  - by rewrite map_fold_empty.
  - apply NoDup_cons in Hnd as [Hk Hnd].
    rewrite map_fold_insert_L.
    + by rewrite IH.
    + intros j1 j2 z1 z2 y Hne _ _. by apply insert_insert_ne.
    + by apply not_elem_of_list_to_map_1.
Qed.

(** C8. After [MergeTags], a key of the incoming map has its incoming value,
    and every other key has what the stack's tags had for it before (nothing,
    when it was absent); the other fields of the stack are untouched. *)
Theorem MergeTags_overwrites_only_incoming s incoming :
  (forall k v, incoming !! k = Some v -> tagOf (Tags (MergeTags s incoming)) k = Some v) /\
  (forall k, incoming !! k = None ->
     tagOf (Tags (MergeTags s incoming)) k = tagOf (Tags s) k) /\
  ref (MergeTags s incoming) = ref s /\
  path (MergeTags s incoming) = path s /\
  config (MergeTags s incoming) = config s /\
  snapshot (MergeTags s incoming) = snapshot s /\
  b (MergeTags s incoming) = b s.
Proof.
  unfold MergeTags, Tags.
  destruct (size incoming =? 0)%nat eqn:Hsz.
  - apply Nat.eqb_eq, map_size_empty_iff in Hsz. subst incoming.
    split_and!; done.
  - simpl. split_and!; try done.
    + intros k v Hk. by rewrite range_insert_lookup, Hk.
    + intros k Hk. rewrite range_insert_lookup, Hk.
      destruct (tags s); simpl; [done | by rewrite lookup_empty].
Qed.

End MergeTagsFacts.

(** ** ParseGitRepoURL *)

Section RepoURL.

Variable url_Parse : string -> result URL.

Lemma HasSuffix_git_append repo : HasSuffix (repo +:+ ".git") ".git" = true.
Proof. apply HasSuffix_append. Qed.

Lemma ParseGitRepoURL_segments rawurl u p0 owner repo rest :
  url_Parse rawurl = Ok u ->
  Scheme u = "https" ->
  Split (Path u) "/" = p0 :: owner :: repo :: rest ->
  owner <> "" -> repo <> "" ->
  ParseGitRepoURL url_Parse rawurl =
  Ok ("https://" +:+ Host u +:+ "/" +:+ owner +:+ "/" +:+
      (if HasSuffix repo ".git" then repo else repo +:+ ".git")).
Proof.
  intros Hu Hs Hp Ho Hr. unfold ParseGitRepoURL. rewrite Hu, Hs, Hp. simpl.
  apply String.eqb_neq in Ho, Hr. rewrite Ho, Hr.
  by destruct (HasSuffix repo ".git").
Qed.

Lemma Split_owner_repo owner repo :
  contains "/" owner = false -> contains "/" repo = false ->
  (Split ("/" +:+ owner +:+ "/" +:+ repo) "/" = [""; owner; repo]) /\
  (forall extra, exists rest,
     Split ("/" +:+ owner +:+ "/" +:+ repo +:+ "/" +:+ extra) "/" = "" :: owner :: repo :: rest).
Proof.
  intros Ho Hr. split.
  - change ("/" +:+ owner +:+ "/" +:+ repo)
      with ("" +:+ String "/" (owner +:+ String "/" repo)).
    rewrite Split_append_sep by done. rewrite Split_append_sep by done.
    by rewrite Split_no_sep.
  - intros extra. exists (Split extra "/").
    change ("/" +:+ owner +:+ "/" +:+ repo +:+ "/" +:+ extra)
      with ("" +:+ String "/" (owner +:+ String "/" (repo +:+ String "/" extra))).
    by rewrite !Split_append_sep.
Qed.

(** C4. For an https URL with host [host] whose path is [/owner/repo],
    [/owner/repo.git], [/owner/repo/], or either of these followed by further
    segments, [ParseGitRepoURL] returns [https://host/owner/repo.git]: what
    follows the repository segment is dropped, and [.git] is appended to that
    segment exactly when it does not already end with it. *)
Theorem ParseGitRepoURL_canonical rawurl u host owner repo :
  url_Parse rawurl = Ok u ->
  Scheme u = "https" -> Host u = host ->
  owner <> "" -> repo <> "" ->
  contains "/" owner = false -> contains "/" repo = false ->
  HasSuffix repo ".git" = false ->
  (Path u = "/" +:+ owner +:+ "/" +:+ repo \/
   Path u = "/" +:+ owner +:+ "/" +:+ repo +:+ ".git" \/
   Path u = "/" +:+ owner +:+ "/" +:+ repo +:+ "/" \/
   (exists extra, Path u = "/" +:+ owner +:+ "/" +:+ repo +:+ "/" +:+ extra) \/
   (exists extra, Path u = "/" +:+ owner +:+ "/" +:+ repo +:+ ".git" +:+ "/" +:+ extra)) ->
  ParseGitRepoURL url_Parse rawurl =
  Ok ("https://" +:+ host +:+ "/" +:+ owner +:+ "/" +:+ repo +:+ ".git").
Proof.
  intros Hu Hs Hh Ho Hr Hco Hcr Hsuf Hpath. subst host.
  assert (Hgit : contains "/" (repo +:+ ".git") = false).
  { clear -Hcr. induction repo as [|a r IH]; simpl in *; [done |].
    apply orb_false_iff in Hcr as [-> Hr]. by rewrite IH. }
  assert (Hne : repo +:+ ".git" <> "") by (by destruct repo).
  destruct (Split_owner_repo owner repo Hco Hcr) as [E1 E2].
  destruct (Split_owner_repo owner (repo +:+ ".git") Hco Hgit) as [G1 G2].
  destruct Hpath as [Hp | [Hp | [Hp | [[extra Hp] | [extra Hp]]]]].
  - rewrite (ParseGitRepoURL_segments rawurl u "" owner repo []); try done.
    + by rewrite Hsuf.
    + by rewrite Hp.
  - rewrite (ParseGitRepoURL_segments rawurl u "" owner (repo +:+ ".git") []); try done.
    + by rewrite HasSuffix_git_append.
    + by rewrite Hp.
  - destruct (E2 "") as [rest E].
    rewrite (ParseGitRepoURL_segments rawurl u "" owner repo rest); try done.
    + by rewrite Hsuf.
    + by rewrite Hp.
  - destruct (E2 extra) as [rest E].
    rewrite (ParseGitRepoURL_segments rawurl u "" owner repo rest); try done.
    + by rewrite Hsuf.
    + by rewrite Hp.
  - destruct (G2 extra) as [rest E]. rewrite append_assoc in E.
    rewrite (ParseGitRepoURL_segments rawurl u "" owner (repo +:+ ".git") rest); try done.
    + by rewrite HasSuffix_git_append.
    + by rewrite Hp.
Qed.

End RepoURL.

(** ** ParseGitCheckoutOptionsSubDirectory *)

Section Resolver.

Context {Repository Worktree : Type}.
Variable url_Parse : string -> result URL.
Variable Short : ReferenceName -> string.
Variable sort_Sort : list ReferenceName -> list ReferenceName.

Local Abbreviation Parse :=
  (ParseGitCheckoutOptionsSubDirectory (Repository:=Repository) (Worktree:=Worktree)
     url_Parse Short sort_Sort).
Local Abbreviation invalid := (Err (errors_New "invalid Git URL")).
Local Abbreviation onBranch ref :=
  {| CheckoutOptions.Hash := ZeroHash; CheckoutOptions.Branch := ref |}.
Local Abbreviation atHash s :=
  {| CheckoutOptions.Hash := NewHash s; CheckoutOptions.Branch := "" |}.

Implicit Types (rawurl lead owner rname : string) (u : URL) (repo : Repository).
Implicit Types (rest : list string) (names : list ReferenceName).

(** *** The branches of the function *)

Lemma hasDotComponent_true rest :
  hasDotComponent rest = true <-> "." ∈ rest \/ ".." ∈ rest.
Proof.
  unfold hasDotComponent. rewrite existsb_exists. split.
  - intros (x & Hx & E). apply list_elem_of_In in Hx.
    apply orb_true_iff in E as [E|E]; apply String.eqb_eq in E; subst x; auto.
  - intros [H|H]; apply list_elem_of_In in H; eexists; (split; [exact H | done]).
Qed.

Lemma hasDotComponent_false rest :
  hasDotComponent rest = false <-> ("." ∉ rest) /\ (".." ∉ rest).
Proof.
  rewrite <- not_true_iff_false, hasDotComponent_true. tauto.
Qed.

Lemma Parse_parse_error rawurl repo e :
  url_Parse rawurl = Err e -> Parse rawurl repo = Ret (Err e).
Proof. intros H. unfold ParseGitCheckoutOptionsSubDirectory. by rewrite H. Qed.

Lemma Parse_too_short rawurl u repo :
  url_Parse rawurl = Ok u -> (length (pathSegments u) < 3)%nat ->
  Parse rawurl repo = Ret invalid.
Proof.
  intros H Hl. unfold ParseGitCheckoutOptionsSubDirectory. rewrite H.
  apply Nat.ltb_lt in Hl. by rewrite Hl.
Qed.

Lemma Parse_owner_repo_only rawurl u repo lead owner rname :
  url_Parse rawurl = Ok u -> pathSegments u = [lead; owner; rname] ->
  Parse rawurl repo = Ret (Ok (onBranch Master, "")).
Proof.
  intros H Hp. unfold ParseGitCheckoutOptionsSubDirectory. by rewrite H, Hp.
Qed.

Lemma Parse_dot rawurl u repo lead owner rname x rest :
  url_Parse rawurl = Ok u -> pathSegments u = lead :: owner :: rname :: x :: rest ->
  hasDotComponent (x :: rest) = true ->
  Parse rawurl repo = Ret invalid.
Proof.
  intros H Hp Hd. unfold ParseGitCheckoutOptionsSubDirectory. rewrite H, Hp.
  cbn [length Nat.ltb Nat.leb Nat.eqb drop]. by rewrite Hd.
Qed.

Lemma Parse_no_tree rawurl u repo lead owner rname x rest :
  url_Parse rawurl = Ok u -> pathSegments u = lead :: owner :: rname :: x :: rest ->
  hasDotComponent (x :: rest) = false -> x <> "tree" ->
  Parse rawurl repo = Ret (Ok (onBranch Master, Join (x :: rest) "/")).
Proof.
  intros H Hp Hd Hx. unfold ParseGitCheckoutOptionsSubDirectory. rewrite H, Hp.
  cbn [length Nat.ltb Nat.leb Nat.eqb drop]. rewrite Hd.
  change ((x :: rest) !!! 0%nat) with x.
  apply String.eqb_neq in Hx. by rewrite Hx.
Qed.

Lemma Parse_tree_alone rawurl u repo lead owner rname :
  url_Parse rawurl = Ok u -> pathSegments u = [lead; owner; rname; "tree"] ->
  Parse rawurl repo = Ret invalid.
Proof.
  intros H Hp. unfold ParseGitCheckoutOptionsSubDirectory. by rewrite H, Hp.
Qed.

Lemma Parse_sha rawurl u repo lead owner rname sha rest :
  url_Parse rawurl = Ok u ->
  pathSegments u = lead :: owner :: rname :: "tree" :: sha :: rest ->
  hasDotComponent ("tree" :: sha :: rest) = false ->
  gitSHARegex_MatchString sha = true ->
  Parse rawurl repo = Ret (Ok (atHash sha, Join rest "/")).
Proof.
  intros H Hp Hd Hs. unfold ParseGitCheckoutOptionsSubDirectory. rewrite H, Hp.
  cbn [length Nat.ltb Nat.leb Nat.eqb drop]. rewrite Hd.
  change (("tree" :: sha :: rest) !!! 0%nat) with "tree".
  change (("tree" :: sha :: rest) !!! 1%nat) with sha.
  rewrite String.eqb_refl, Hs. done.
Qed.

Lemma Parse_by_name rawurl u repo lead owner rname seg rest :
  url_Parse rawurl = Ok u ->
  pathSegments u = lead :: owner :: rname :: "tree" :: seg :: rest ->
  hasDotComponent ("tree" :: seg :: rest) = false ->
  gitSHARegex_MatchString seg = false ->
  Parse rawurl repo =
  bind _ _ (listGitReferencesByShortNameLength sort_Sort repo) (fun r =>
    match r with
    | Err err => Ret (Err err)
    | Ok refs =>
        match matchRefs Short (Join (seg :: rest) "/" +:+ "/") refs with
        | Some found => Ret (Ok found)
        | None => Ret invalid
        end
    end).
Proof.
  intros H Hp Hd Hs. unfold ParseGitCheckoutOptionsSubDirectory. rewrite H, Hp.
  cbn [length Nat.ltb Nat.leb Nat.eqb drop]. rewrite Hd.
  change (("tree" :: seg :: rest) !!! 0%nat) with "tree".
  change (("tree" :: seg :: rest) !!! 1%nat) with seg.
  rewrite String.eqb_refl, Hs. done.
Qed.

(** *** Enumerating the references *)

Lemma foldl_append_names (l : list Reference) acc :
  foldl (fun results ref => results ++ [Name ref]) acc l = acc ++ map Name l.
Proof.
  revert acc. induction l as [|r l IH]; intros acc; simpl.
  - by rewrite app_nil_r.
  - rewrite IH. by rewrite <- app_assoc.
Qed.

Lemma run_listGitReferences {W} (h : handler Repository Worktree W) repo w :
  run h (listGitReferencesByShortNameLength sort_Sort repo) w =
  (match (h (Repository_References repo) w).1 with
   | Err e => Err e
   | Ok it =>
       match iter_err it with
       | Some e => Err e
       | None => Ok (sort_Sort (map Name (iter_refs it)))
       end
   end,
   (h (Repository_References repo) w).2,
   [Repository_References repo]).
Proof.
  unfold listGitReferencesByShortNameLength. rewrite run_Do.
  destruct (h (Repository_References repo) w) as [a w1]. simpl in a.
  simpl fst; simpl snd. destruct a as [it | e]; [| done].
  unfold ForEach. rewrite foldl_append_names. simpl.
  by destruct (iter_err it).
Qed.

(** *** The loop over the references *)


Lemma matchRefs_Some path names found :
  matchRefs Short path names = Some found ->
  exists names1 ref names2,
    names = names1 ++ ref :: names2 /\
    Forall (fun x => refMatches Short path x = false) names1 /\
    refMatches Short path ref = true /\
    found = (onBranch ref,
             TrimSuffix (TrimPrefix path (shortNameWithoutOrigin Short ref +:+ "/")) "/").
Proof.
  induction names as [|x l IH]; [done |]. cbn [matchRefs].
  destruct (HasPrefix path (shortNameWithoutOrigin Short x +:+ "/")) eqn:Hx.
  - intros [= <-]. by exists [], x, l.
  - intros (l1 & r & l2 & -> & Hl1 & Hr & ->)%IH.
    exists (x :: l1), r, l2. split_and!; try done. by constructor.
Qed.

Lemma matchRefs_None path names :
  matchRefs Short path names = None <->
  Forall (fun x => refMatches Short path x = false) names.
Proof.
  unfold refMatches. induction names as [|x l IH]; cbn [matchRefs].
  - split; [by constructor | done].
  - destruct (HasPrefix path (shortNameWithoutOrigin Short x +:+ "/")) eqn:Hx.
    + split; [done |]. intros H. apply Forall_cons in H as [H _]. congruence.
    + rewrite IH. split; [by constructor |]. by intros [_ H]%Forall_cons.
Qed.

(** *** Claims that do not depend on the references *)

Lemma elem_of_drop_snoc (x y : string) n (l : list string) :
  x ∈ drop n (l ++ [y]) -> x <> y -> x ∈ drop n l.
Proof.
  revert n. induction l as [|a l IH]; intros [|n] H Hne.
  - apply list_elem_of_singleton in H. done.
  - change (drop (S n) ([] ++ [y])) with (drop n (@nil string)) in H.
    rewrite drop_nil in H. by apply elem_of_nil in H.
  - change (drop 0 ((a :: l) ++ [y])) with (a :: (l ++ [y])) in H.
    change (drop 0 (a :: l)) with (a :: l).
    apply elem_of_cons in H as [-> | H]; [apply list_elem_of_here |].
    apply list_elem_of_further. apply elem_of_app in H as [H | H]; [done |].
    apply list_elem_of_singleton in H. done.
  - change (drop (S n) ((a :: l) ++ [y])) with (drop n (l ++ [y])) in H.
    change (drop (S n) (a :: l)) with (drop n l). by apply IH.
Qed.

Lemma pathSegments_dot u (x : string) :
  x <> "" -> x ∈ drop 3 (Split (Path u) "/") -> x ∈ drop 3 (pathSegments u).
Proof.
  intros Hx H. unfold pathSegments.
  destruct (TrimSuffix_cases (Path u) "/") as [E | E]; [by rewrite E |].
  rewrite E in H. change (TrimSuffix (Path u) "/" +:+ "/")
    with (TrimSuffix (Path u) "/" +:+ String "/" "") in H.
  rewrite Split_snoc_sep in H. by apply elem_of_drop_snoc in H.
Qed.

(** C3. When one of the segments of the URL's path after the owner and the
    repository (the pieces of [u.Path] between slashes, from the fourth on) is
    [.] or [..], [ParseGitCheckoutOptionsSubDirectory] returns an error, and it
    does so without a call to the repository. *)
Theorem dot_components_rejected {W} (h : handler Repository Worktree W) w rawurl u repo :
  url_Parse rawurl = Ok u ->
  "." ∈ drop 3 (Split (Path u) "/") \/ ".." ∈ drop 3 (Split (Path u) "/") ->
  run h (Parse rawurl repo) w = (invalid, w, []).
Proof.
  intros Hu Hdot.
  assert (Hseg : "." ∈ drop 3 (pathSegments u) \/ ".." ∈ drop 3 (pathSegments u)).
  { destruct Hdot as [H | H]; [left | right]; by apply pathSegments_dot. }
  destruct (pathSegments u) as [|lead [|owner [|rname [|x rest]]]] eqn:Hp;
    try (by destruct Hseg as [H | H]; apply elem_of_nil in H).
  change (drop 3 (lead :: owner :: rname :: x :: rest)) with (x :: rest) in Hseg.
  apply hasDotComponent_true in Hseg.
  by rewrite (Parse_dot rawurl u repo lead owner rname x rest).
Qed.

(** C5, as amended. For a URL whose path has an owner and a repository, no
    [tree] segment after them and no [.] or [..] segment after them,
    [ParseGitCheckoutOptionsSubDirectory] returns the branch [plumbing.Master]
    and the remaining segments joined by slashes; this is the empty
    subdirectory when no segment remains.  The repository is not called. *)
Theorem no_tree_uses_default_branch {W} (h : handler Repository Worktree W) w
    rawurl u repo lead owner rname rest :
  url_Parse rawurl = Ok u ->
  pathSegments u = lead :: owner :: rname :: rest ->
  "tree" ∉ rest -> "." ∉ rest -> ".." ∉ rest ->
  run h (Parse rawurl repo) w = (Ok (onBranch Master, Join rest "/"), w, []).
Proof.
  intros Hu Hp Ht Hd1 Hd2. destruct rest as [|x rest].
  - by rewrite (Parse_owner_repo_only rawurl u repo lead owner rname).
  - rewrite (Parse_no_tree rawurl u repo lead owner rname x rest); try done.
    + by apply hasDotComponent_false.
    + intros ->. apply Ht, list_elem_of_here.
Qed.

Lemma gitSHARegex_len s : gitSHARegex_MatchString s = true -> len s = 40%nat.
Proof.
  unfold gitSHARegex_MatchString. intros [H _]%andb_true_iff. by apply Nat.eqb_eq.
Qed.

(** C2, as amended. For a URL whose path is owner, repository, [tree], a
    segment of 40 hexadecimal digits and further segments none of which is [.]
    or [..], [ParseGitCheckoutOptionsSubDirectory] returns the hash decoded from
    that segment, no branch, and the further segments joined by slashes.  The
    repository is not called, so its references play no part. *)
Theorem sha_segment_resolves_as_hash {W} (h : handler Repository Worktree W) w
    rawurl u repo lead owner rname sha rest :
  url_Parse rawurl = Ok u ->
  pathSegments u = lead :: owner :: rname :: "tree" :: sha :: rest ->
  gitSHARegex_MatchString sha = true ->
  "." ∉ rest -> ".." ∉ rest ->
  run h (Parse rawurl repo) w = (Ok (atHash sha, Join rest "/"), w, []).
Proof.
  intros Hu Hp Hs Hd1 Hd2.
  rewrite (Parse_sha rawurl u repo lead owner rname sha rest); try done.
  apply hasDotComponent_false.
  pose proof (gitSHARegex_len sha Hs) as Hl.
  rewrite !not_elem_of_cons. split_and!; try done; by intros <-.
Qed.

(** *** Purity *)

Lemma Parse_shape rawurl repo :
  (exists r, Parse rawurl repo = Ret r) \/
  (exists f, Parse rawurl repo = bind _ _ (listGitReferencesByShortNameLength sort_Sort repo) f /\
     forall a, exists r, f a = Ret r).
Proof.
  unfold ParseGitCheckoutOptionsSubDirectory.
  destruct (url_Parse rawurl) as [u | e]; [| left; eauto].
  repeat match goal with
         | |- context [if ?c then _ else _] => destruct c; try (left; eauto; fail)
         end.
  right. eexists. split; [reflexivity |].
  intros [refs | e]; [| eauto].
  destruct (matchRefs Short _ refs); eauto.
Qed.

(** C9. The result of [ParseGitCheckoutOptionsSubDirectory] is determined by
    the raw URL and by what enumerating the references of the caller's
    repository yields: run in any two worlds that agree on that enumeration, it
    returns the same value after the same calls.  Those calls are none at all,
    or the single enumeration of the references of the repository passed in;
    nothing is cloned, opened or pulled. *)
Theorem resolver_pure_given_references {W1 W2}
    (h1 : handler Repository Worktree W1) (h2 : handler Repository Worktree W2)
    w1 w2 rawurl repo :
  (h1 (Repository_References repo) w1).1 = (h2 (Repository_References repo) w2).1 ->
  result_of h1 (Parse rawurl repo) w1 = result_of h2 (Parse rawurl repo) w2 /\
  trace_of h1 (Parse rawurl repo) w1 = trace_of h2 (Parse rawurl repo) w2 /\
  (trace_of h1 (Parse rawurl repo) w1 = [] \/
   trace_of h1 (Parse rawurl repo) w1 = [Repository_References repo]).
Proof.
  intros Hsame. unfold result_of, trace_of.
  destruct (Parse_shape rawurl repo) as [[r ->] | (f & -> & Hf)].
  - simpl. auto.
  - rewrite !run_bind, !run_listGitReferences, <- Hsame.
    set (a := match (h1 (Repository_References repo) w1).1 with
              | Ok it => _ | Err e => _ end).
    destruct (Hf a) as [r ->]. simpl. auto.
Qed.

(** *** Hashes *)

Lemma fromHexChar_zero c : fromHexChar c = Some 0%Z -> c = "0"%char.
Proof.
  destruct c as [[] [] [] [] [] [] [] []]; vm_compute; intros H;
    try discriminate H; reflexivity.
Qed.

Lemma fromHexChar_nonneg c x : fromHexChar c = Some x -> (0 <= x)%Z.
Proof.
  destruct c as [[] [] [] [] [] [] [] []]; vm_compute; intros H;
    try discriminate H; injection H as <-; discriminate.
Qed.

Lemma hex_byte_zero a c x y :
  fromHexChar a = Some x -> fromHexChar c = Some y ->
  Z.lor (Z.shiftl x 4) y = 0%Z -> a = "0"%char /\ c = "0"%char.
Proof.
  intros Ha Hc H. apply Z.lor_eq_0_iff in H as [Hx Hy].
  apply Z.shiftl_eq_0_iff in Hx; [| lia]. subst x y.
  split; by apply fromHexChar_zero.
Qed.

Lemma hex_DecodeString_digits n : forall s,
  len s = (2 * n)%nat ->
  all_bytes (fun c => bool_decide (is_Some (fromHexChar c))) s = true ->
  length (hex_DecodeString s) = n /\
  (hex_DecodeString s = replicate n 0%Z ->
   s = string_of_list_ascii (replicate (2 * n) "0"%char)).
Proof.
  induction n as [|n IH]; intros s Hl Hh.
  - destruct s; [done | discriminate Hl].
  - destruct s as [|a [|c s]]; try (simpl in Hl; lia).
    simpl in Hl. simpl in Hh.
    apply andb_true_iff in Hh as [Ha Hh]. apply andb_true_iff in Hh as [Hc Hh].
    apply bool_decide_eq_true in Ha as [x Hx]. apply bool_decide_eq_true in Hc as [y Hy].
    destruct (IH s ltac:(lia) Hh) as [IHl IHz].
    cbn [hex_DecodeString]. rewrite Hx, Hy. split; [simpl; by rewrite IHl |].
    replace (2 * S n)%nat with (S (S (2 * n))) by lia.
    cbn [replicate string_of_list_ascii]. intros [= Hb Hs].
    destruct (hex_byte_zero a c x y Hx Hy Hb) as [-> ->].
    by rewrite <- (IHz Hs).
Qed.

Lemma NewHash_zero s :
  gitSHARegex_MatchString s = true -> IsZero (NewHash s) = true ->
  s = "0000000000000000000000000000000000000000".
Proof.
  unfold gitSHARegex_MatchString, IsZero, NewHash.
  intros [Hl Hh]%andb_true_iff Hz. apply Nat.eqb_eq in Hl.
  apply bool_decide_eq_true in Hz.
  destruct (hex_DecodeString_digits 20 s Hl Hh) as [Hn Hs].
  rewrite Hn in Hz. simpl replicate in Hz at 1. rewrite app_nil_r in Hz.
  rewrite take_ge in Hz by lia. by apply Hs.
Qed.

(** *** The contract of [sort.Sort] *)

(** [sort.Sort] permutes its argument, and leaves it ordered by [Less]: no
    element is less than one before it. *)
Hypothesis sort_Sort_perm : forall names, sort_Sort names ≡ₚ names.
Hypothesis sort_Sort_sorted : forall names i j,
  (i < j < length (sort_Sort names))%nat ->
  byShortNameLengthDesc_Less Short (sort_Sort names) j i = false.

Lemma sort_Sort_descending names i j x y :
  sort_Sort names !! i = Some x -> sort_Sort names !! j = Some y -> (i < j)%nat ->
  (len (Short y) <= len (Short x))%nat.
Proof.
  intros Hi Hj Hlt. pose proof (lookup_lt_Some _ _ _ Hj) as Hlen.
  pose proof (sort_Sort_sorted names i j ltac:(lia)) as H.
  unfold byShortNameLengthDesc_Less in H.
  rewrite (list_lookup_total_correct _ _ _ Hi), (list_lookup_total_correct _ _ _ Hj) in H.
  by apply Nat.ltb_ge in H.
Qed.


Lemma sort_Sort_after names before ref after x :
  sort_Sort names = before ++ ref :: after -> x ∈ after ->
  (len (Short x) <= len (Short ref))%nat.
Proof.
  intros E [i Hi]%list_elem_of_lookup.
  apply (sort_Sort_descending names (length before) (length before + S i)); [| | lia].
  - rewrite E. apply list_lookup_middle. done.
  - rewrite E, lookup_app_r by lia.
    replace (length before + S i - length before)%nat with (S i) by lia. done.
Qed.

(** *** Resolution by reference name *)

Lemma by_name_run {W} (h : handler Repository Worktree W) w
    rawurl u repo lead owner rname seg rest it :
  url_Parse rawurl = Ok u ->
  pathSegments u = lead :: owner :: rname :: "tree" :: seg :: rest ->
  hasDotComponent ("tree" :: seg :: rest) = false ->
  gitSHARegex_MatchString seg = false ->
  (h (Repository_References repo) w).1 = Ok it ->
  iter_err it = None ->
  run h (Parse rawurl repo) w =
  (match matchRefs Short (Join (seg :: rest) "/" +:+ "/")
           (sort_Sort (map Name (iter_refs it))) with
   | Some found => Ok found
   | None => invalid
   end,
   (h (Repository_References repo) w).2,
   [Repository_References repo]).
Proof.
  intros Hu Hp Hd Hs Hit Herr.
  rewrite (Parse_by_name rawurl u repo lead owner rname seg rest) by done.
  rewrite run_bind, run_listGitReferences, Hit, Herr.
  by destruct (matchRefs Short _ _).
Qed.

Lemma hasDot_tree rest :
  "." ∉ rest -> ".." ∉ rest -> hasDotComponent ("tree" :: rest) = false.
Proof.
  intros H1 H2. apply hasDotComponent_false. rewrite !not_elem_of_cons. done.
Qed.

Lemma Parse_result_cases {W} (h : handler Repository Worktree W) w rawurl repo opts sub :
  result_of h (Parse rawurl repo) w = Ok (opts, sub) ->
  opts = onBranch Master \/
  (exists u lead owner rname sha rest,
     url_Parse rawurl = Ok u /\
     pathSegments u = lead :: owner :: rname :: "tree" :: sha :: rest /\
     gitSHARegex_MatchString sha = true /\ opts = atHash sha) \/
  (exists it ref,
     (h (Repository_References repo) w).1 = Ok it /\
     ref ∈ map Name (iter_refs it) /\ opts = onBranch ref).
Proof.
  unfold result_of.
  destruct (url_Parse rawurl) as [u | e] eqn:Hu.
  2:{ by rewrite (Parse_parse_error rawurl repo e). }
  destruct (pathSegments u) as [|lead [|owner [|rname [|x rest]]]] eqn:Hp.
  1-3: by rewrite (Parse_too_short rawurl u repo); [| done | rewrite Hp; simpl; lia].
  { rewrite (Parse_owner_repo_only rawurl u repo lead owner rname) by done.
    intros [= <- <-]. by left. }
  destruct (hasDotComponent (x :: rest)) eqn:Hd.
  { by rewrite (Parse_dot rawurl u repo lead owner rname x rest). }
  destruct (decide (x = "tree")) as [-> | Hx].
  2:{ rewrite (Parse_no_tree rawurl u repo lead owner rname x rest) by done.
      intros [= <- <-]. by left. }
  destruct rest as [|seg rest].
  { by rewrite (Parse_tree_alone rawurl u repo lead owner rname). }
  destruct (gitSHARegex_MatchString seg) eqn:Hs.
  { rewrite (Parse_sha rawurl u repo lead owner rname seg rest) by done.
    intros [= <- <-]. right; left. by exists u, lead, owner, rname, seg, rest. }
  rewrite (Parse_by_name rawurl u repo lead owner rname seg rest) by done.
  rewrite run_bind, run_listGitReferences.
  destruct (h (Repository_References repo) w).1 as [it | e]; [| done].
  destruct (iter_err it); [done |].
  destruct (matchRefs Short _ _) as [found |] eqn:Hm; [| done].
  apply matchRefs_Some in Hm as (l1 & ref & l2 & E & _ & _ & ->).
  simpl. intros [= <- <-]. right; right. exists it, ref. split_and!; try done.
  rewrite <- (sort_Sort_perm (map Name (iter_refs it))), E.
  apply elem_of_app. right. apply list_elem_of_here.
Qed.

(** A target returned by [ParseGitCheckoutOptionsSubDirectory] never has both
    a branch and a non-zero hash.  When no reference of the repository has the
    empty name, a target with neither is returned only for a URL whose path is
    owner, repository, [tree] and forty zeros, possibly followed by more
    segments. *)
Lemma target_branch_or_hash {W} (h : handler Repository Worktree W) w
    rawurl repo opts sub :
  result_of h (Parse rawurl repo) w = Ok (opts, sub) ->
  (forall it, (h (Repository_References repo) w).1 = Ok it ->
     Forall (fun r => Name r <> "") (iter_refs it)) ->
  ~ (CheckoutOptions.Branch opts <> "" /\ IsZero (CheckoutOptions.Hash opts) = false) /\
  ((CheckoutOptions.Branch opts = "" /\ IsZero (CheckoutOptions.Hash opts) = true) ->
   exists u lead owner rname rest,
     url_Parse rawurl = Ok u /\
     pathSegments u = lead :: owner :: rname :: "tree" ::
                      "0000000000000000000000000000000000000000" :: rest) /\
  ((CheckoutOptions.Branch opts <> "" /\ IsZero (CheckoutOptions.Hash opts) = true) \/
   (CheckoutOptions.Branch opts = "" /\ IsZero (CheckoutOptions.Hash opts) = false) \/
   (CheckoutOptions.Branch opts = "" /\ IsZero (CheckoutOptions.Hash opts) = true)).
Proof.
  intros Hres Hnames.
  apply Parse_result_cases in Hres
    as [-> | [(u & lead & owner & rname & sha & rest & Hu & Hp & Hs & ->) |
              (it & ref & Hit & Hin & ->)]]; simpl.
  - split_and!.
    + by intros [_ H].
    + by intros [H _].
    + by left.
  - split_and!.
    + by intros [H _].
    + intros [_ Hz]. apply NewHash_zero in Hz; [| done]. subst sha.
      by exists u, lead, owner, rname, rest.
    + destruct (IsZero (NewHash sha)); auto.
  - assert (Hne : ref <> "").
    { apply list_elem_of_In, in_map_iff in Hin as (r & <- & Hr).
      apply list_elem_of_In in Hr.
      specialize (Hnames it Hit). rewrite Forall_forall in Hnames. by apply Hnames. }
    split_and!.
    + by intros [_ H].
    + by intros [H _].
    + by left.
Qed.

(** C7.  The code does not keep the invariant at one segment.  For a URL whose
    path is owner, repository, [tree] and forty zeros, possibly followed by
    more segments none of which is [.] or [..],
    [ParseGitCheckoutOptionsSubDirectory] succeeds, without a call to the
    repository, with a target that has neither a branch nor a hash: its branch
    is empty and its hash is the zero hash, of which [IsZero] holds. *)
Theorem zero_hash_target_has_neither {W} (h : handler Repository Worktree W) w
    rawurl u repo lead owner rname rest :
  url_Parse rawurl = Ok u ->
  pathSegments u = lead :: owner :: rname :: "tree" ::
                   "0000000000000000000000000000000000000000" :: rest ->
  "." ∉ rest -> ".." ∉ rest ->
  run h (Parse rawurl repo) w =
  (Ok ({| CheckoutOptions.Hash := ZeroHash; CheckoutOptions.Branch := "" |},
       Join rest "/"), w, []) /\
  IsZero ZeroHash = true.
Proof.
  intros Hu Hp Hd1 Hd2. split; [| by vm_compute].
  rewrite (Parse_sha rawurl u repo lead owner rname
             "0000000000000000000000000000000000000000" rest); try done.
  apply hasDotComponent_false. rewrite !not_elem_of_cons. done.
Qed.

(** [Hm : "literal" = (t +:+ "/") +:+ tail]: enumerates the values of [t]. *)
Ltac peel_prefix Hm t :=
  let c := fresh "c" in
  let t' := fresh "t" in
  destruct t as [|c t'];
  [ simpl in Hm; try discriminate Hm
  | simpl in Hm; first [ discriminate Hm | injection Hm as <- Hm; peel_prefix Hm t' ] ].

(** C1, as amended. For a URL whose path is owner, repository, [tree] and a
    ref-path without [.] or [..] segments that does not start with 40
    hexadecimal digits, and a repository whose references can be enumerated.
    A reference matches when its short name without a leading [origin/],
    followed by a slash, is a prefix of the ref-path followed by a slash.  The
    URL is rejected exactly when no reference matches; otherwise a reference
    that matches wins, and the subdirectory is what the ref-path has after the
    winner's name.  The winner is a longest match, no matching reference having
    a longer name without [origin/], whenever among the matching references a
    longer name without [origin/] goes with a longer short name; where the two
    lengths disagree nothing is said of the longest match.  In particular, with
    references of short names [my] and [my/content] and none that is
    [my/content/foo] up to a leading [origin/], the ref-path [my/content/foo]
    resolves to a reference that is [my/content] up to a leading [origin/],
    with subdirectory [foo]. *)
Theorem first_longest_reference_wins {W} (h : handler Repository Worktree W) w
    rawurl u repo lead owner rname seg rest it :
  url_Parse rawurl = Ok u ->
  pathSegments u = lead :: owner :: rname :: "tree" :: seg :: rest ->
  "." ∉ seg :: rest -> ".." ∉ seg :: rest ->
  gitSHARegex_MatchString seg = false ->
  (h (Repository_References repo) w).1 = Ok it ->
  iter_err it = None ->
  let names := map Name (iter_refs it) in
  let path := Join (seg :: rest) "/" +:+ "/" in
  let res := result_of h (Parse rawurl repo) w in
  let name := shortNameWithoutOrigin Short in
  (res = invalid <-> Forall (fun x => refMatches Short path x = false) names) /\
  (Exists (fun x => refMatches Short path x = true) names ->
   exists ref, ref ∈ names /\ refMatches Short path ref = true /\
     res = Ok (onBranch ref, TrimSuffix (TrimPrefix path (name ref +:+ "/")) "/")) /\
  ((forall x y, x ∈ names -> y ∈ names ->
      refMatches Short path x = true -> refMatches Short path y = true ->
      (len (name x) < len (name y))%nat -> (len (Short x) < len (Short y))%nat) ->
   forall ref sub, res = Ok (onBranch ref, sub) ->
   forall x, x ∈ names -> refMatches Short path x = true ->
     (len (name x) <= len (name ref))%nat) /\
  (seg :: rest = ["my"; "content"; "foo"] ->
   (exists a, a ∈ names /\ Short a = "my") ->
   (exists c, c ∈ names /\ Short c = "my/content") ->
   (forall x, x ∈ names -> name x <> "my/content/foo") ->
   exists ref, res = Ok (onBranch ref, "foo") /\ ref ∈ names /\ name ref = "my/content").
Proof.
  intros Hu Hp Hd1 Hd2 Hs Hit Herr names path res name.
  assert (Hres : res = match matchRefs Short path (sort_Sort names) with
                       | Some found => Ok found
                       | None => invalid
                       end).
  { subst res. unfold result_of.
    rewrite (by_name_run h w rawurl u repo lead owner rname seg rest it); try done.
    by apply hasDot_tree. }
  (* the winner is the first match of the sorted list *)
  assert (Hwin : forall opts sub, res = Ok (opts, sub) ->
     opts = onBranch (CheckoutOptions.Branch opts) /\
     CheckoutOptions.Branch opts ∈ names /\
     refMatches Short path (CheckoutOptions.Branch opts) = true /\
     sub = TrimSuffix (TrimPrefix path (name (CheckoutOptions.Branch opts) +:+ "/")) "/" /\
     forall x, x ∈ names -> refMatches Short path x = true ->
       (len (Short x) <= len (Short (CheckoutOptions.Branch opts)))%nat).
  { intros opts sub. rewrite Hres.
    destruct (matchRefs Short path (sort_Sort names)) as [found |] eqn:Hm; [| done].
    apply matchRefs_Some in Hm as (l1 & ref & l2 & E & Hl1 & Hr & ->).
    intros [= <- <-]. simpl. split_and!; try done.
    - rewrite <- (sort_Sort_perm names), E. apply elem_of_app. right. apply list_elem_of_here.
    - intros x Hx Hmx. rewrite <- (sort_Sort_perm names), E in Hx.
      apply elem_of_app in Hx as [Hx | Hx].
      + rewrite Forall_forall in Hl1. rewrite (Hl1 x Hx) in Hmx. done.
      + apply elem_of_cons in Hx as [-> | Hx]; [done |].
        by apply (sort_Sort_after names l1 ref l2). }
  assert (Hsome : Exists (fun x => refMatches Short path x = true) names ->
            exists found, res = Ok found).
  { intros Hex. rewrite Hres.
    destruct (matchRefs Short path (sort_Sort names)) as [found |] eqn:Hm; [by exists found |].
    apply matchRefs_None in Hm. rewrite (sort_Sort_perm names) in Hm.
    apply Exists_exists in Hex as (x & Hx & Hmx).
    rewrite Forall_forall in Hm. rewrite (Hm x Hx) in Hmx. done. }
  split_and!.
  - split.
    + intros Hinv. rewrite Hres in Hinv.
      destruct (matchRefs Short path (sort_Sort names)) as [found |] eqn:Hm; [done |].
      apply matchRefs_None in Hm. by rewrite (sort_Sort_perm names) in Hm.
    + intros Hnone. rewrite Hres.
      rewrite <- (sort_Sort_perm names) in Hnone.
      apply matchRefs_None in Hnone. by rewrite Hnone.
  - intros Hex. destruct (Hsome Hex) as [[opts sub] Hfound].
    destruct (Hwin opts sub Hfound) as (Hopts & Hin & Hm & Hsub & _).
    exists (CheckoutOptions.Branch opts). split_and!; try done.
    by rewrite Hfound, Hsub, <- Hopts.
  - intros Hagree ref sub Hfound x Hx Hmx.
    destruct (Hwin _ _ Hfound) as (_ & Hin & Hm & _ & Hlong). simpl in Hin, Hm, Hlong.
    specialize (Hlong x Hx Hmx).
    destruct (decide (len (name x) <= len (name ref))%nat) as [| Hgt]; [done |].
    specialize (Hagree ref x Hin Hx Hm Hmx ltac:(lia)). lia.
  - intros Hsegs _ (c & Hc & Hsc) Hfoo.
    assert (Hpath : path = "my/content/foo/") by (subst path; by rewrite Hsegs).
    assert (Hmc : refMatches Short path c = true).
    { unfold refMatches, shortNameWithoutOrigin. by rewrite Hsc, Hpath. }
    destruct (Hsome ltac:(apply Exists_exists; by exists c)) as [[opts sub] Hfound].
    destruct (Hwin opts sub Hfound) as (Hopts & Hin & Hm & Hsub & Hlong).
    set (ref := CheckoutOptions.Branch opts) in *.
    assert (Hstrip : name ref = "my/content").
    { specialize (Hlong c Hc Hmc). rewrite Hsc in Hlong. simpl in Hlong.
      specialize (Hfoo ref Hin).
      unfold refMatches in Hm. rewrite Hpath in Hm.
      apply HasPrefix_inv in Hm.
      pose proof (TrimPrefix_cases (Short ref) "origin/") as Hcases.
      fold (shortNameWithoutOrigin Short ref) in Hcases. fold (name ref) in Hcases, Hm.
      remember (sdrop _ _) as tail eqn:Etail in Hm. clear Etail.
      remember (name ref) as t eqn:Et. clear Et.
      peel_prefix Hm t.
      all: first [ reflexivity
                 | by destruct Hfoo
                 | destruct Hcases as [E | E]; rewrite E in Hlong; simpl in Hlong; lia ]. }
    exists ref. split_and!; try done.
    by rewrite Hfound, Hopts, Hsub, Hstrip, Hpath.
Qed.





End Resolver.

(** ** The sample instances meet the contract of [sort.Sort] *)

Section SampleSort.

Local Abbreviation notLonger :=
  (fun x y : ReferenceName => (len (Sample.Short y) <= len (Sample.Short x))%nat).

Lemma insertDesc_perm x l : Sample.insertDesc x l ≡ₚ x :: l.
Proof.
  induction l as [|y l IH]; simpl; [done |].
  destruct (len (Sample.Short y) <? len (Sample.Short x))%nat; [done |].
  rewrite IH. apply Permutation_swap.
Qed.

Lemma sample_sort_perm l : Sample.sort_Sort l ≡ₚ l.
Proof.
  induction l as [|x l IH]; simpl; [done |].
  by rewrite insertDesc_perm, IH.
Qed.

Lemma insertDesc_sorted x l :
  StronglySorted notLonger l -> StronglySorted notLonger (Sample.insertDesc x l).
Proof.
  induction 1 as [|y l Hs IH Hy]; simpl.
  - repeat constructor.
  - destruct (len (Sample.Short y) <? len (Sample.Short x))%nat eqn:E.
    + apply Nat.ltb_lt in E. constructor; [by constructor |].
      constructor; [lia |].
      eapply Forall_impl; [exact Hy |]. simpl. intros z Hz. lia.
    + apply Nat.ltb_ge in E. constructor; [done |].
      rewrite insertDesc_perm. by constructor.
Qed.

Lemma sample_sort_sorted l : StronglySorted notLonger (Sample.sort_Sort l).
Proof.
  induction l as [|x l IH]; simpl; [constructor | by apply insertDesc_sorted].
Qed.

Lemma StronglySorted_lookup_lt (l : list ReferenceName) i j x y :
  StronglySorted notLonger l -> l !! i = Some x -> l !! j = Some y -> (i < j)%nat ->
  (len (Sample.Short y) <= len (Sample.Short x))%nat.
Proof.
  intros Hs. revert i j. induction Hs as [|a l Hs IH Ha]; intros i j Hi Hj Hlt.
  - done.
  - destruct j as [|j]; [lia |]. simpl in Hj. destruct i as [|i].
    + injection Hi as <-. rewrite Forall_forall in Ha.
      apply Ha. by eapply list_elem_of_lookup_2.
    + simpl in Hi. apply (IH i j); [done | done | lia].
Qed.

Lemma sample_sort_Less names i j :
  (i < j < length (Sample.sort_Sort names))%nat ->
  byShortNameLengthDesc_Less Sample.Short (Sample.sort_Sort names) j i = false.
Proof.
  intros [Hij Hj].
  destruct (lookup_lt_is_Some_2 (Sample.sort_Sort names) i ltac:(lia)) as [x Hx].
  destruct (lookup_lt_is_Some_2 (Sample.sort_Sort names) j Hj) as [y Hy].
  unfold byShortNameLengthDesc_Less.
  rewrite (list_lookup_total_correct _ _ _ Hx), (list_lookup_total_correct _ _ _ Hy).
  apply Nat.ltb_ge.
  by apply (StronglySorted_lookup_lt (Sample.sort_Sort names) i j x y (sample_sort_sorted names)).
Qed.

End SampleSort.

(** ** The claims on concrete inputs *)

Section Instances.

Local Abbreviation onBranch ref :=
  {| CheckoutOptions.Hash := ZeroHash; CheckoutOptions.Branch := ref |}.
Local Abbreviation atHash s :=
  {| CheckoutOptions.Hash := NewHash s; CheckoutOptions.Branch := "" |}.
Local Abbreviation invalid := (Err (errors_New "invalid Git URL")).
Local Abbreviation Parse :=
  (ParseGitCheckoutOptionsSubDirectory (Repository:=Sample.Repository)
     (Worktree:=Sample.Worktree) Sample.url_Parse Sample.Short Sample.sort_Sort).

Ltac by_decide := apply (bool_decide_unpack _); vm_compute; exact I.

(** The URLs of the repository's tests, for a clone with the references of
    the test repository. *)
Example resolve_tests :
  let refs := ["HEAD"; "refs/heads/master"; "refs/remotes/origin/master";
               "refs/remotes/origin/my/content"; "refs/tags/my"] in
  let fakeURLPrefix := "https://fakegithost.com/fakeowner/fakerepo" in
  Sample.resolve refs (fakeURLPrefix +:+ ".git") = Ok (onBranch Master, "") /\
  Sample.resolve refs (fakeURLPrefix +:+ "/") = Ok (onBranch Master, "") /\
  Sample.resolve refs (fakeURLPrefix +:+ "/content/foo/") = Ok (onBranch Master, "content/foo") /\
  Sample.resolve refs (fakeURLPrefix +:+ "/tree/master/content/foo/")
    = Ok (onBranch "refs/remotes/origin/master", "content/foo") /\
  Sample.resolve refs (fakeURLPrefix +:+ "/tree/HEAD/foo") = Ok (onBranch "HEAD", "foo") /\
  Sample.resolve refs (fakeURLPrefix +:+ "/tree/my/foo/") = Ok (onBranch "refs/tags/my", "foo") /\
  Sample.resolve refs (fakeURLPrefix +:+ "/tree/my/content/foo")
    = Ok (onBranch "refs/remotes/origin/my/content", "foo") /\
  Sample.resolve refs (fakeURLPrefix +:+ "/tree/2ba6921f3163493809bcbb0ec7283a0446048076/foo/")
    = Ok (atHash "2ba6921f3163493809bcbb0ec7283a0446048076", "foo") /\
  Sample.resolve refs (fakeURLPrefix +:+ "/tree") = invalid /\
  Sample.resolve refs (fakeURLPrefix +:+ "/tree/") = invalid /\
  Sample.resolve refs (fakeURLPrefix +:+ "/tree/Master") = invalid /\
  Sample.resolve refs (fakeURLPrefix +:+ "/content/../foo/") = invalid.
Proof. vm_compute. repeat split. Qed.

Example ParseGitRepoURL_tests :
  let exp := Ok "https://github.com/pulumi/templates.git" in
  Sample.ParseGitRepoURL "https://github.com/pulumi/templates.git" = exp /\
  Sample.ParseGitRepoURL "https://github.com/pulumi/templates" = exp /\
  Sample.ParseGitRepoURL "https://github.com/pulumi/templates/" = exp /\
  Sample.ParseGitRepoURL "https://github.com/pulumi/templates/tree/master/templates/python" = exp /\
  Sample.ParseGitRepoURL "https://github.com/pulumi" = Err (errors_New "invalid Git URL") /\
  Sample.ParseGitRepoURL "https://github.com/pulumi/"
    = Err (errors_New "invalid Git URL; no repository") /\
  Sample.ParseGitRepoURL "http://github.com/pulumi/templates" = Err (errors_New "invalid URL scheme").
Proof. vm_compute. repeat split. Qed.

Lemma dot_components_rejected_witness :
  run (Sample.world []) (Parse "https://github.com/pulumi/templates/content/../foo" 0%nat) tt
  = (invalid, tt, []).
Proof.
  apply (dot_components_rejected Sample.url_Parse Sample.Short Sample.sort_Sort
           (Sample.world []) tt "https://github.com/pulumi/templates/content/../foo"
           {| Scheme := "https"; Host := "github.com";
              Path := "/pulumi/templates/content/../foo" |} 0%nat).
  - reflexivity.
  - right. by_decide.
Defined.

Lemma no_tree_uses_default_branch_witness :
  run (Sample.world ["refs/heads/master"])
      (Parse "https://github.com/pulumi/templates/templates/typescript" 0%nat) tt
  = (Ok (onBranch Master, "templates/typescript"), tt, []).
Proof.
  apply (no_tree_uses_default_branch Sample.url_Parse Sample.Short Sample.sort_Sort
           (Sample.world ["refs/heads/master"]) tt
           "https://github.com/pulumi/templates/templates/typescript"
           {| Scheme := "https"; Host := "github.com";
              Path := "/pulumi/templates/templates/typescript" |} 0%nat
           "" "pulumi" "templates" ["templates"; "typescript"]).
  - reflexivity.
  - reflexivity.
  - by_decide.
  - by_decide.
  - by_decide.
Defined.

(** C5 as stated fails: a URL with an owner, a repository and no [tree]
    segment, for which an error is returned instead of the default branch. *)
Lemma no_tree_counterexample :
  let rawurl := "https://github.com/pulumi/templates/templates/../secrets" in
  Sample.url_Parse rawurl
    = Ok {| Scheme := "https"; Host := "github.com";
            Path := "/pulumi/templates/templates/../secrets" |} /\
("tree" ∉ Split "/pulumi/templates/templates/../secrets" "/") /\
  Sample.resolve ["refs/heads/master"] rawurl = invalid.
Proof. split_and!; [reflexivity | by_decide | reflexivity]. Qed.

Lemma sha_segment_resolves_as_hash_witness :
  run (Sample.world ["refs/heads/master"])
      (Parse "https://github.com/pulumi/templates/tree/929b6e4c5c39196ae2482b318f145e0d765e9608/templates/python" 0%nat) tt
  = (Ok (atHash "929b6e4c5c39196ae2482b318f145e0d765e9608", "templates/python"), tt, []).
Proof.
  apply (sha_segment_resolves_as_hash Sample.url_Parse Sample.Short Sample.sort_Sort
           (Sample.world ["refs/heads/master"]) tt
           "https://github.com/pulumi/templates/tree/929b6e4c5c39196ae2482b318f145e0d765e9608/templates/python"
           {| Scheme := "https"; Host := "github.com";
              Path := "/pulumi/templates/tree/929b6e4c5c39196ae2482b318f145e0d765e9608/templates/python" |}
           0%nat "" "pulumi" "templates" "929b6e4c5c39196ae2482b318f145e0d765e9608"
           ["templates"; "python"]).
  - reflexivity.
  - reflexivity.
  - reflexivity.
  - by_decide.
  - by_decide.
Defined.

(** C2 as stated fails: URLs in which the segment after [tree] is 40
    hexadecimal digits and which do not resolve to that hash, the first
    because of a [..] segment, the second because [tree] does not come right
    after the repository. *)
Lemma sha_segment_counterexample :
  let sha := "929b6e4c5c39196ae2482b318f145e0d765e9608" in
  gitSHARegex_MatchString sha = true /\
  Sample.resolve [] ("https://github.com/pulumi/templates/tree/" +:+ sha +:+ "/templates/..")
    = invalid /\
  Sample.resolve [] ("https://github.com/pulumi/templates/docs/tree/" +:+ sha +:+ "/python")
    = Ok (onBranch Master, "docs/tree/" +:+ sha +:+ "/python").
Proof. vm_compute. repeat split. Qed.

Lemma resolver_pure_given_references_witness :
  let names := ["refs/heads/master"; "refs/tags/my"] in
  let p := Parse "https://github.com/pulumi/templates/tree/my/templates" 0%nat in
  result_of (Sample.world names) p tt = result_of (Sample.counting names) p 7%nat /\
  trace_of (Sample.world names) p tt = trace_of (Sample.counting names) p 7%nat /\
  (trace_of (Sample.world names) p tt = [] \/
   trace_of (Sample.world names) p tt = [Repository_References 0%nat]).
Proof.
  apply (resolver_pure_given_references Sample.url_Parse Sample.Short Sample.sort_Sort
           (Sample.world ["refs/heads/master"; "refs/tags/my"])
           (Sample.counting ["refs/heads/master"; "refs/tags/my"]) tt 7%nat).
  reflexivity.
Defined.

Lemma zero_hash_target_has_neither_witness :
  run (Sample.world ["refs/heads/master"])
      (Parse "https://github.com/pulumi/templates/tree/0000000000000000000000000000000000000000"
         0%nat) tt
  = (Ok ({| CheckoutOptions.Hash := ZeroHash; CheckoutOptions.Branch := "" |}, ""), tt, []) /\
  IsZero ZeroHash = true.
Proof.
  apply (zero_hash_target_has_neither Sample.url_Parse Sample.Short Sample.sort_Sort
           (Sample.world ["refs/heads/master"]) tt
           "https://github.com/pulumi/templates/tree/0000000000000000000000000000000000000000"
           {| Scheme := "https"; Host := "github.com";
              Path := "/pulumi/templates/tree/0000000000000000000000000000000000000000" |}
           0%nat "" "pulumi" "templates" []).
  - reflexivity.
  - reflexivity.
  - by_decide.
  - by_decide.
Defined.

Lemma first_longest_reference_wins_witness :
  let names := ["refs/tags/my"; "refs/heads/my/content"; "refs/remotes/origin/my/content";
                "refs/heads/master"] in
  let rawurl := "https://fakegithost.com/fakeowner/fakerepo/tree/my/content/foo" in
  (exists ref,
     Sample.resolve names rawurl = Ok (onBranch ref, "foo") /\
     ref ∈ names /\ shortNameWithoutOrigin Sample.Short ref = "my/content") /\
  (forall ref sub, Sample.resolve names rawurl = Ok (onBranch ref, sub) ->
   forall x, x ∈ names -> refMatches Sample.Short "my/content/foo/" x = true ->
     (len (shortNameWithoutOrigin Sample.Short x)
      <= len (shortNameWithoutOrigin Sample.Short ref))%nat).
Proof.
  intros names rawurl.
  destruct (first_longest_reference_wins Sample.url_Parse Sample.Short Sample.sort_Sort
              sample_sort_perm sample_sort_Less (Sample.world names) tt rawurl
              {| Scheme := "https"; Host := "fakegithost.com";
                 Path := "/fakeowner/fakerepo/tree/my/content/foo" |} 0%nat
              "" "fakeowner" "fakerepo" "my" ["content"; "foo"]
              {| iter_refs := Sample.named names; iter_err := None |})
    as (_ & _ & Hlongest & Hmy).
  - reflexivity.
  - reflexivity.
  - by_decide.
  - by_decide.
  - reflexivity.
  - reflexivity.
  - reflexivity.
  - split.
    + destruct Hmy as (ref & Hres & Hin & Hstrip).
      * reflexivity.
      * exists "refs/tags/my". split; [by_decide | reflexivity].
      * exists "refs/heads/my/content". split; [by_decide | reflexivity].
      * intros x Hx. simpl in Hx.
        repeat (apply elem_of_cons in Hx as [-> | Hx]); try (vm_compute; discriminate).
        by apply elem_of_nil in Hx.
      * exists ref. split_and!; [exact Hres | exact Hin | exact Hstrip].
    + apply Hlongest. intros x y Hx Hy Hmx Hmy' Hlt. simpl in Hx, Hy.
      repeat (apply elem_of_cons in Hx as [-> | Hx]); [| | | | by apply elem_of_nil in Hx];
        (repeat (apply elem_of_cons in Hy as [-> | Hy]); [| | | | by apply elem_of_nil in Hy]);
        vm_compute in Hmx, Hmy', Hlt |- *; first [ discriminate | lia ].
Defined.

(** C1 as stated fails.  First, the references and a URL of the tests of the
    package: the reference that wins is not one whose short name followed by a
    slash is a prefix of the ref-path followed by a slash, although the list
    has one that is.  Second, a list with [my] and [my/content] for which
    [my/content/foo] does not resolve to [my/content]: the remote branch
    [my/content/foo] is the longest match.  In both the winner is the longest
    match once [origin/] is removed. *)
Lemma first_longest_counterexample :
  (Sample.resolve ["HEAD"; "refs/heads/master"; "refs/remotes/origin/master";
                   "refs/remotes/origin/my/content"; "refs/tags/my"]
     "https://fakegithost.com/fakeowner/fakerepo/tree/my/content/foo"
   = Ok (onBranch "refs/remotes/origin/my/content", "foo") /\
   HasPrefix "my/content/foo/" (Sample.Short "refs/remotes/origin/my/content" +:+ "/") = false /\
   HasPrefix "my/content/foo/" (Sample.Short "refs/tags/my" +:+ "/") = true) /\
  (Sample.Short "refs/tags/my" = "my" /\
   Sample.Short "refs/heads/my/content" = "my/content" /\
   Sample.resolve ["refs/tags/my"; "refs/heads/my/content";
                   "refs/remotes/origin/my/content/foo"]
     "https://fakegithost.com/fakeowner/fakerepo/tree/my/content/foo"
   = Ok (onBranch "refs/remotes/origin/my/content/foo", "")).
Proof. vm_compute. repeat split. Qed.

(** Where the two lengths disagree the longest match can lose: [origin/my] is
    sorted before [my/con], which has the shorter short name and the longer
    name once [origin/] is removed, and both match. *)
Example longest_match_can_lose :
  Sample.resolve ["refs/remotes/origin/my"; "refs/tags/my/con"]
    "https://fakegithost.com/fakeowner/fakerepo/tree/my/con/foo"
  = Ok (onBranch "refs/remotes/origin/my", "con/foo") /\
  refMatches Sample.Short "my/con/foo/" "refs/tags/my/con" = true.
Proof. vm_compute. repeat split. Qed.



Lemma ParseGitRepoURL_canonical_witness :
  Sample.ParseGitRepoURL "https://github.com/pulumi/templates/tree/master/templates/python"
  = Ok "https://github.com/pulumi/templates.git".
Proof.
  apply (ParseGitRepoURL_canonical Sample.url_Parse
           "https://github.com/pulumi/templates/tree/master/templates/python"
           {| Scheme := "https"; Host := "github.com";
              Path := "/pulumi/templates/tree/master/templates/python" |}
           "github.com" "pulumi" "templates").
  - reflexivity.
  - reflexivity.
  - reflexivity.
  - discriminate.
  - discriminate.
  - reflexivity.
  - reflexivity.
  - reflexivity.
  - right; right; right; left. exists "tree/master/templates/python". reflexivity.
Defined.

Lemma GitCloneOrPull_clone_then_pull_witness :
  let h := Sample.scripted (Err ErrRepositoryAlreadyExists) (Ok 7%nat) (Ok 3%nat)
             (Some NoErrAlreadyUpToDate) in
  let p := GitCloneOrPull "https://github.com/pulumi/templates.git" "/home/user/.pulumi/templates" in
  result_of h p tt = Ok 7%nat /\
  trace_of h p tt =
    [PlainClone "/home/user/.pulumi/templates" false
       {| CloneOptions.URL := "https://github.com/pulumi/templates.git";
          CloneOptions.Depth := 1 |};
     PlainOpen "/home/user/.pulumi/templates";
     Repository_Worktree 7%nat;
     Worktree_Pull 3%nat {| PullOptions.Depth := 1; PullOptions.Force := true |}].
Proof.
  intros h p.
  destruct (GitCloneOrPull_clone_then_pull h tt
              "https://github.com/pulumi/templates.git" "/home/user/.pulumi/templates")
    as (_ & _ & _ & _ & H).
  destruct (H eq_refl) as [_ H2].
  destruct (H2 7%nat eq_refl) as [_ H3].
  destruct (H3 3%nat eq_refl) as (Ht & _ & Hok & _).
  split; [exact (Hok eq_refl) | exact Ht].
Defined.

Lemma MergeTags_overwrites_only_incoming_witness :
  let s := {| ref := "dev"; path := "/home/user/.pulumi/stacks/dev.json"; config := tt;
              snapshot := tt; b := tt;
              tags := Some (<["pulumi:project" := "site"]> (<["owner" := "ops"]> ∅)) |} in
  let incoming : gmap StackTagName string := <["owner" := "web"]> ∅ in
  tagOf (Tags (MergeTags s incoming)) "owner" = Some "web" /\
  tagOf (Tags (MergeTags s incoming)) "pulumi:project" = tagOf (Tags s) "pulumi:project".
Proof.
  intros s incoming.
  destruct (MergeTags_overwrites_only_incoming s incoming) as (H1 & H2 & _).
  split.
  - apply H1. apply lookup_insert_eq.
  - apply H2. subst incoming. rewrite lookup_insert_ne by discriminate. apply lookup_empty.
Defined.

End Instances.

(** * Further properties *)

(** ** More on splitting and joining *)

Section SplitJoin.

Implicit Types (s t : string) (c : ascii) (l : list string).

Lemma Split_append_any s t c :
  Split (s +:+ String c t) c = Split s c ++ Split t c.
Proof.
  induction s as [|a s IH]; simpl.
  - by rewrite Ascii.eqb_refl.
  - destruct (Ascii.eqb a c); rewrite IH; [done |].
    pose proof (Split_not_nil s c). by destruct (Split s c).
Qed.

Lemma Split_elem_no_sep s c x : x ∈ Split s c -> contains c x = false.
Proof.
  revert x. induction s as [|a s IH]; simpl; intros x Hx.
  - apply list_elem_of_singleton in Hx. by subst x.
  - destruct (Ascii.eqb a c) eqn:Ha.
    + apply elem_of_cons in Hx as [-> | Hx]; [done | by apply IH].
    + pose proof (Split_not_nil s c). destruct (Split s c) as [|y ys] eqn:E; [done |].
      apply elem_of_cons in Hx as [-> | Hx].
      * simpl. rewrite Ha. apply IH, list_elem_of_here.
      * apply IH. by apply list_elem_of_further.
Qed.

Lemma Split_Join l c :
  l <> [] -> Forall (fun x => contains c x = false) l ->
  Split (Join l (String c "")) c = l.
Proof.
  intros Hl Hall. induction Hall as [|x l Hx Hall IH]; [done |].
  destruct l as [|y l].
  - simpl. by apply Split_no_sep.
  - change (Join (x :: y :: l) (String c ""))
      with (x +:+ String c (Join (y :: l) (String c ""))).
    rewrite Split_append_sep by done. by rewrite IH.
Qed.

Lemma HasSuffix_last s (a c : ascii) :
  a <> c -> HasSuffix (s +:+ String a "") (String c "") = false.
Proof.
  intros Hne. unfold HasSuffix. rewrite len_append.
  change (len (String a "")) with 1%nat. change (len (String c "")) with 1%nat.
  replace (len s + 1 - 1)%nat with (len s) by lia.
  rewrite sdrop_append. apply andb_false_iff. right.
  apply String.eqb_neq. congruence.
Qed.

Lemma pathSegments_no_slash u x : x ∈ pathSegments u -> contains "/" x = false.
Proof. apply Split_elem_no_sep. Qed.

Lemma pathSegments_trailing_slash u1 u2 :
  HasSuffix (Path u1) "/" = false -> Path u2 = Path u1 +:+ "/" ->
  pathSegments u2 = pathSegments u1.
Proof.
  intros H1 H2. unfold pathSegments. rewrite H2, TrimSuffix_append.
  unfold TrimSuffix. by rewrite H1.
Qed.

End SplitJoin.

(** ** More on ParseGitCheckoutOptionsSubDirectory and ParseGitRepoURL *)

Section ResolverMore.

Context {Repository Worktree : Type}.
Variable url_Parse : string -> result URL.
Variable Short : ReferenceName -> string.
Variable sort_Sort : list ReferenceName -> list ReferenceName.

Local Abbreviation Parse :=
  (ParseGitCheckoutOptionsSubDirectory (Repository:=Repository) (Worktree:=Worktree)
     url_Parse Short sort_Sort).
Local Abbreviation invalid := (Err (errors_New "invalid Git URL")).
Local Abbreviation onBranch ref :=
  {| CheckoutOptions.Hash := ZeroHash; CheckoutOptions.Branch := ref |}.
Local Abbreviation atHash s :=
  {| CheckoutOptions.Hash := NewHash s; CheckoutOptions.Branch := "" |}.

Implicit Types (rawurl lead owner rname : string) (u : URL) (repo : Repository).
Implicit Types (rest : list string).

(** every way in which the function can end *)
Lemma Parse_outcomes {W} (h : handler Repository Worktree W) w rawurl repo :
  let r := result_of h (Parse rawurl repo) w in
  let listed := (h (Repository_References repo) w).1 in
  (exists e, url_Parse rawurl = Err e /\ r = Err e) \/
  r = invalid \/
  (exists u lead owner rname rest,
     url_Parse rawurl = Ok u /\ pathSegments u = lead :: owner :: rname :: rest /\
     hasDotComponent rest = false /\ r = Ok (onBranch Master, Join rest "/")) \/
  (exists u lead owner rname sha rest,
     url_Parse rawurl = Ok u /\
     pathSegments u = lead :: owner :: rname :: "tree" :: sha :: rest /\
     hasDotComponent (sha :: rest) = false /\ gitSHARegex_MatchString sha = true /\
     r = Ok (atHash sha, Join rest "/")) \/
  (exists u lead owner rname seg rest,
     url_Parse rawurl = Ok u /\
     pathSegments u = lead :: owner :: rname :: "tree" :: seg :: rest /\
     hasDotComponent (seg :: rest) = false /\ gitSHARegex_MatchString seg = false /\
     ((exists e, listed = Err e /\ r = Err e) \/
      (exists it e, listed = Ok it /\ iter_err it = Some e /\ r = Err e) \/
      (exists it ref, listed = Ok it /\ iter_err it = None /\
         ref ∈ sort_Sort (map Name (iter_refs it)) /\
         refMatches Short (Join (seg :: rest) "/" +:+ "/") ref = true /\
         r = Ok (onBranch ref,
                 TrimSuffix (TrimPrefix (Join (seg :: rest) "/" +:+ "/")
                               (shortNameWithoutOrigin Short ref +:+ "/")) "/")))).
Proof.
  intros r listed. subst r listed. unfold result_of.
  destruct (url_Parse rawurl) as [u | e] eqn:Hu.
  2:{ left. exists e. by rewrite (Parse_parse_error url_Parse Short sort_Sort rawurl repo e). }
  right.
  destruct (pathSegments u) as [|lead [|owner [|rname [|x rest]]]] eqn:Hp.
  1-3: left; by rewrite (Parse_too_short url_Parse Short sort_Sort rawurl u repo);
         [| done | rewrite Hp; simpl; lia].
  { right; left. exists u, lead, owner, rname, [].
    by rewrite (Parse_owner_repo_only url_Parse Short sort_Sort rawurl u repo lead owner rname). }
  destruct (hasDotComponent (x :: rest)) eqn:Hd.
  { left. by rewrite (Parse_dot url_Parse Short sort_Sort rawurl u repo lead owner rname x rest). }
  destruct (decide (x = "tree")) as [-> | Hx].
  2:{ right; left. exists u, lead, owner, rname, (x :: rest).
      by rewrite (Parse_no_tree url_Parse Short sort_Sort rawurl u repo lead owner rname x rest). }
  destruct rest as [|seg rest].
  { left. by rewrite (Parse_tree_alone url_Parse Short sort_Sort rawurl u repo lead owner rname). }
  assert (Hd' : hasDotComponent (seg :: rest) = false).
  { apply (hasDotComponent_false sort_Sort) in Hd as [H1 H2].
    apply not_elem_of_cons in H1 as [_ H1]. apply not_elem_of_cons in H2 as [_ H2].
    by apply (hasDotComponent_false sort_Sort). }
  destruct (gitSHARegex_MatchString seg) eqn:Hs.
  { right; right; left. exists u, lead, owner, rname, seg, rest.
    by rewrite (Parse_sha url_Parse Short sort_Sort rawurl u repo lead owner rname seg rest). }
  rewrite (Parse_by_name url_Parse Short sort_Sort rawurl u repo lead owner rname seg rest)
    by done.
  rewrite run_bind, run_listGitReferences.
  destruct (h (Repository_References repo) w).1 as [it | e] eqn:Hl.
  2:{ right; right; right. exists u, lead, owner, rname, seg, rest.
      split_and!; try done. left. by exists e. }
  destruct (iter_err it) as [e |] eqn:He.
  { right; right; right. exists u, lead, owner, rname, seg, rest.
    split_and!; try done. right; left. by exists it, e. }
  destruct (matchRefs Short _ _) as [found |] eqn:Hm; [| by left].
  apply matchRefs_Some in Hm as (l1 & ref & l2 & E & _ & Hr & ->).
  right; right; right. exists u, lead, owner, rname, seg, rest.
  split_and!; try done. right; right. exists it, ref. split_and!; try done.
  rewrite E. apply elem_of_app. right. apply list_elem_of_here.
Qed.

(** X1. The subdirectory that [ParseGitCheckoutOptionsSubDirectory] returns
    has no [.] and no [..] component, whatever the URL and the references. *)
Theorem subdirectory_has_no_dot_component {W} (h : handler Repository Worktree W) w
    rawurl repo opts sub :
  result_of h (Parse rawurl repo) w = Ok (opts, sub) ->
  ("." ∉ Split sub "/") /\ (".." ∉ Split sub "/").
Proof.
  intros Hres.
  assert (Hjoin : forall l, hasDotComponent l = false ->
            Forall (fun x => contains "/" x = false) l ->
            ("." ∉ Split (Join l "/") "/") /\ (".." ∉ Split (Join l "/") "/")).
  { intros l Hd Hl. destruct l as [|x l].
    - simpl. rewrite !list_elem_of_singleton. done.
    - rewrite (Split_Join (x :: l) "/") by done. by apply (hasDotComponent_false sort_Sort). }
  assert (Hsegs : forall u lead owner rname rest,
            pathSegments u = lead :: owner :: rname :: rest ->
            Forall (fun x => contains "/" x = false) rest).
  { intros u lead owner rname rest Hp. apply Forall_forall. intros x Hx.
    apply (pathSegments_no_slash u). rewrite Hp. by do 3 apply list_elem_of_further. }
  pose proof (Parse_outcomes h w rawurl repo) as Hcases. cbv zeta in Hcases.
  rewrite Hres in Hcases.
  destruct Hcases as [(e & _ & ?) | [? | [H | [H | H]]]]; try done.
  - destruct H as (u & lead & owner & rname & rest & _ & Hp & Hd & [= _ ->]).
    apply Hjoin; [done | by apply (Hsegs u lead owner rname)].
  - destruct H as (u & lead & owner & rname & sha & rest & _ & Hp & Hd & _ & [= _ ->]).
    specialize (Hsegs u lead owner rname _ Hp).
    apply Forall_cons in Hsegs as [_ Hsegs]. apply Forall_cons in Hsegs as [_ Hsegs].
    apply Hjoin; [| done].
    apply (hasDotComponent_false sort_Sort) in Hd as [H1 H2].
    apply not_elem_of_cons in H1 as [_ H1]. apply not_elem_of_cons in H2 as [_ H2].
    by apply (hasDotComponent_false sort_Sort).
  - destruct H as (u & lead & owner & rname & seg & rest & _ & Hp & Hd & _ & H).
    destruct H as [(e & _ & ?) | [(it & e & _ & _ & ?) | H]]; try done.
    destruct H as (it & ref & _ & _ & _ & Hm & [= _ ->]).
    specialize (Hsegs u lead owner rname _ Hp).
    apply Forall_cons in Hsegs as [_ Hsegs].
    set (path := Join (seg :: rest) "/" +:+ "/") in *.
    set (prefix := shortNameWithoutOrigin Short ref) in *.
    (* the pieces of what follows the prefix are pieces of the ref-path *)
    assert (Hpieces : forall x, x ∈ Split (TrimPrefix path (prefix +:+ "/")) "/" ->
              x ∈ (seg :: rest) ++ [""]).
    { intros x Hx. unfold refMatches in Hm. fold prefix in Hm.
      pose proof (HasPrefix_inv _ _ Hm) as E.
      assert (Et : TrimPrefix path (prefix +:+ "/") = sdrop (len (prefix +:+ "/")) path).
      { unfold TrimPrefix. by rewrite Hm. }
      rewrite Et in Hx.
      assert (Es : Split path "/" = (seg :: rest) ++ [""]).
      { subst path. change (Join (seg :: rest) "/" +:+ "/")
          with (Join (seg :: rest) "/" +:+ String "/" "").
        rewrite Split_snoc_sep. by rewrite (Split_Join (seg :: rest) "/"). }
      rewrite <- Es, E, append_assoc.
      change ("/" +:+ sdrop (len (prefix +:+ "/")) path)
        with (String "/" (sdrop (len (prefix +:+ "/")) path)).
      rewrite Split_append_any. apply elem_of_app. by right. }
    assert (Hsub : forall x,
              x ∈ Split (TrimSuffix (TrimPrefix path (prefix +:+ "/")) "/") "/" ->
              x ∈ (seg :: rest) ++ [""]).
    { intros x Hx.
      destruct (TrimSuffix_cases (TrimPrefix path (prefix +:+ "/")) "/") as [E | E].
      - apply Hpieces. by rewrite <- E.
      - apply Hpieces. rewrite E.
        change (TrimSuffix (TrimPrefix path (prefix +:+ "/")) "/" +:+ "/")
          with (TrimSuffix (TrimPrefix path (prefix +:+ "/")) "/" +:+ String "/" "").
        rewrite Split_snoc_sep. apply elem_of_app. by left. }
    apply (hasDotComponent_false sort_Sort) in Hd as [H1 H2].
    split; intros Hx; apply Hsub in Hx; apply elem_of_app in Hx as [Hx | Hx]; try done;
      by apply list_elem_of_singleton in Hx.
Qed.

(** X2. Every error of [ParseGitCheckoutOptionsSubDirectory] is the error of
    [url.Parse], the error of enumerating the references, the error that ended
    their iteration, or [invalid Git URL]. *)
Theorem resolver_errors_surface_unchanged {W} (h : handler Repository Worktree W) w
    rawurl repo e :
  result_of h (Parse rawurl repo) w = Err e ->
  e = errors_New "invalid Git URL" \/
  url_Parse rawurl = Err e \/
  (h (Repository_References repo) w).1 = Err e \/
  (exists it, (h (Repository_References repo) w).1 = Ok it /\ iter_err it = Some e).
Proof.
  intros Hres.
  pose proof (Parse_outcomes h w rawurl repo) as Hcases. cbv zeta in Hcases.
  rewrite Hres in Hcases.
  destruct Hcases as [(e' & He & [= ->]) | [[= ->] | [H | [H | H]]]]; auto.
  - by destruct H as (? & ? & ? & ? & ? & _ & _ & _ & ?).
  - by destruct H as (? & ? & ? & ? & ? & ? & _ & _ & _ & _ & ?).
  - destruct H as (u & lead & owner & rname & seg & rest & _ & _ & _ & _ & H).
    destruct H as [(e' & Hl & [= ->]) | [(it & e' & Hl & He & [= ->]) | H]]; auto.
    + right; right; right. by exists it.
    + by destruct H as (? & ? & _ & _ & _ & _ & ?).
Qed.

(** X3. One slash at the end of the URL's path changes nothing: the two URLs
    give the same computation. *)
Theorem trailing_slash_is_ignored rawurl1 rawurl2 u1 u2 repo :
  url_Parse rawurl1 = Ok u1 -> url_Parse rawurl2 = Ok u2 ->
  HasSuffix (Path u1) "/" = false -> Path u2 = Path u1 +:+ "/" ->
  Parse rawurl2 repo = Parse rawurl1 repo.
Proof.
  intros H1 H2 Hs Hp. unfold ParseGitCheckoutOptionsSubDirectory.
  by rewrite H1, H2, (pathSegments_trailing_slash u1 u2 Hs Hp).
Qed.

(** X4. A URL whose path stops at [tree], with or without a slash after it,
    is rejected, and the repository is not asked for its references. *)
Theorem tree_without_ref_rejected {W} (h : handler Repository Worktree W) w
    rawurl u repo owner rname :
  url_Parse rawurl = Ok u ->
  contains "/" owner = false -> contains "/" rname = false ->
  Path u = "/" +:+ owner +:+ "/" +:+ rname +:+ "/tree" \/
  Path u = "/" +:+ owner +:+ "/" +:+ rname +:+ "/tree/" ->
  run h (Parse rawurl repo) w = (invalid, w, []).
Proof.
  intros Hu Ho Hr Hp.
  assert (Hseg : pathSegments u = [""; owner; rname; "tree"]).
  { assert (E : Split ("/" +:+ owner +:+ "/" +:+ rname +:+ "/tree") "/"
                = [""; owner; rname; "tree"]).
    { change ("/" +:+ owner +:+ "/" +:+ rname +:+ "/tree")
        with ("" +:+ String "/" (owner +:+ String "/" (rname +:+ String "/" "tree"))).
      by rewrite !Split_append_sep. }
    unfold pathSegments. destruct Hp as [-> | ->].
    - unfold TrimSuffix.
      assert (Hs : HasSuffix ("/" +:+ owner +:+ "/" +:+ rname +:+ "/tree") "/" = false).
      { replace ("/" +:+ owner +:+ "/" +:+ rname +:+ "/tree")
          with (("/" +:+ owner +:+ "/" +:+ rname +:+ "/tre") +:+ "e")
          by (by rewrite !append_assoc).
        by apply HasSuffix_last. }
      by rewrite Hs.
    - replace ("/" +:+ owner +:+ "/" +:+ rname +:+ "/tree/")
        with (("/" +:+ owner +:+ "/" +:+ rname +:+ "/tree") +:+ "/")
        by (by rewrite !append_assoc).
      by rewrite TrimSuffix_append. }
  by rewrite (Parse_tree_alone url_Parse Short sort_Sort rawurl u repo "" owner rname).
Qed.

(** X5. What [ParseGitRepoURL] returns is always [https://], the host, and
    exactly two further segments: a non-empty owner and a repository name that
    ends in [.git], neither containing a slash. *)
Theorem ParseGitRepoURL_shape rawurl s :
  ParseGitRepoURL url_Parse rawurl = Ok s ->
  exists u owner rname,
    url_Parse rawurl = Ok u /\ Scheme u = "https" /\
    s = "https://" +:+ Host u +:+ "/" +:+ owner +:+ "/" +:+ rname /\
    owner <> "" /\ contains "/" owner = false /\
    contains "/" rname = false /\ HasSuffix rname ".git" = true.
Proof.
  unfold ParseGitRepoURL. destruct (url_Parse rawurl) as [u | e] eqn:Hu; [| done].
  destruct (String.eqb (Scheme u) "https") eqn:Hs; [| done]. simpl.
  apply String.eqb_eq in Hs.
  destruct (Split (Path u) "/") as [|lead [|owner [|rname rest]]] eqn:Hp; try done.
  simpl.
  change ((lead :: owner :: rname :: rest) !!! 1%nat) with owner.
  change ((lead :: owner :: rname :: rest) !!! 2%nat) with rname.
  destruct (String.eqb owner "") eqn:Ho; [done |].
  destruct (String.eqb rname "") eqn:Hr; [done |].
  apply String.eqb_neq in Ho.
  assert (Hno : contains "/" owner = false).
  { apply (Split_elem_no_sep (Path u)). rewrite Hp. apply list_elem_of_further, list_elem_of_here. }
  assert (Hnr : contains "/" rname = false).
  { apply (Split_elem_no_sep (Path u)). rewrite Hp.
    do 2 apply list_elem_of_further. apply list_elem_of_here. }
  intros [= <-]. rewrite Hs.
  destruct (HasSuffix rname ".git") eqn:Hg; simpl.
  - by exists u, owner, rname.
  - exists u, owner, (rname +:+ ".git"). split_and!; try done.
    + clear -Hnr. induction rname as [|a r IH]; simpl in *; [done |].
      apply orb_false_iff in Hnr as [-> Hr]. by rewrite IH.
    + apply HasSuffix_append.
Qed.

End ResolverMore.

(** ** More on MergeTags *)

Section MergeTagsMore.

Context {StackReference ConfigMap Snapshot localBackend : Type}.
Implicit Types (s : localStack StackReference ConfigMap Snapshot localBackend).
Implicit Types (incoming first second existing : gmap StackTagName string).

Lemma range_insert_union existing incoming :
  map_fold (fun k v t => <[k:=v]> t) existing incoming = incoming ∪ existing.
Proof.
  apply map_eq. intros k. rewrite range_insert_lookup, lookup_union.
  destruct (incoming !! k), (existing !! k); done.
Qed.

Lemma MergeTags_tags s incoming :
  Tags (MergeTags s incoming) =
  if decide (incoming = ∅) then Tags s
  else Some (incoming ∪ match Tags s with Some t => t | None => ∅ end).
Proof.
  unfold MergeTags, Tags. destruct (size incoming =? 0)%nat eqn:Hsz.
  - apply Nat.eqb_eq, map_size_empty_iff in Hsz. by rewrite decide_True.
  - apply Nat.eqb_neq in Hsz. rewrite decide_False by (by rewrite <- map_size_empty_iff).
    simpl. by rewrite range_insert_union.
Qed.

Lemma localStack_eq s1 s2 :
  ref s1 = ref s2 -> path s1 = path s2 -> config s1 = config s2 ->
  snapshot s1 = snapshot s2 -> b s1 = b s2 -> Tags s1 = Tags s2 -> s1 = s2.
Proof. destruct s1, s2. unfold Tags. simpl. by intros -> -> -> -> -> ->. Qed.

Lemma MergeTags_fields s incoming :
  ref (MergeTags s incoming) = ref s /\ path (MergeTags s incoming) = path s /\
  config (MergeTags s incoming) = config s /\ snapshot (MergeTags s incoming) = snapshot s /\
  b (MergeTags s incoming) = b s.
Proof. unfold MergeTags. by destruct (size incoming =? 0)%nat. Qed.

(** X6. Merging [first] and then [second] is merging their union in which
    [second] takes precedence; in particular merging the same tags twice is
    merging them once. *)
Theorem MergeTags_compose s first second :
  MergeTags (MergeTags s first) second = MergeTags s (second ∪ first) /\
  MergeTags (MergeTags s first) first = MergeTags s first.
Proof.
  assert (Hcomp : forall a c, MergeTags (MergeTags s a) c = MergeTags s (c ∪ a)).
  { intros a c.
    destruct (MergeTags_fields s a) as (? & ? & ? & ? & ?).
    destruct (MergeTags_fields (MergeTags s a) c) as (? & ? & ? & ? & ?).
    destruct (MergeTags_fields s (c ∪ a)) as (? & ? & ? & ? & ?).
    apply localStack_eq; try congruence.
    rewrite !MergeTags_tags.
    destruct (decide (c = ∅)) as [-> | Hc], (decide (a = ∅)) as [-> | Ha].
    - by rewrite (left_id_L ∅ (∪)), decide_True.
    - rewrite (left_id_L ∅ (∪)). by rewrite decide_False.
    - rewrite (right_id_L ∅ (∪)). by rewrite decide_False.
    - rewrite decide_False.
      + by rewrite (assoc_L (∪)).
      + intros ?%map_positive_l. done. }
  split; [apply Hcomp |].
  rewrite Hcomp. by rewrite (idemp_L (∪)).
Qed.

(** X7. [MergeTags] never removes a tag: afterwards the stack has the keys it
    had and the incoming keys.  Its tags are [nil] afterwards only if they were
    [nil] and nothing was merged. *)
Theorem MergeTags_keys s incoming :
  (forall k, is_Some (tagOf (Tags (MergeTags s incoming)) k) <->
             is_Some (tagOf (Tags s) k) \/ is_Some (incoming !! k)) /\
  (Tags (MergeTags s incoming) = None <-> Tags s = None /\ incoming = ∅).
Proof.
  rewrite MergeTags_tags. destruct (decide (incoming = ∅)) as [-> | Hne].
  - split.
    + intros k. rewrite lookup_empty. split; [by left |].
      intros [H | H]; [done | by destruct H].
    + tauto.
  - split.
    + intros k. simpl. rewrite lookup_union_is_Some.
      destruct (Tags s) as [t |]; simpl; [tauto |].
      rewrite lookup_empty. tauto.
    + split; [done | by intros [_ ?]].
Qed.

End MergeTagsMore.

(** ** Running computations over [oscall] *)

Section OsRunFacts.

Context {Repository Worktree W : Type}.
Implicit Types (h : oshandler Repository Worktree W) (w : W).

Lemma osrun_Do {A} h c (k : osanswer Repository Worktree c -> osprog Repository Worktree A) w :
  osrun h (OsDo c k) w =
  (let '(a, w'', t) := osrun h (k (h c w).1) (h c w).2 in (a, w'', c :: t)).
Proof. simpl. by destruct (h c w). Qed.

Lemma osrun_bind {A B} h (p : osprog Repository Worktree A)
    (f : A -> osprog Repository Worktree B) w :
  osrun h (osbind p f) w =
  (let '(a, w', t) := osrun h p w in
   let '(b, w'', t') := osrun h (f a) w' in (b, w'', t ++ t')).
Proof.
  revert w. induction p as [a | c k IH]; intros w; simpl.
  - by destruct (osrun h (f a) w) as [[? ?] ?].
  - destruct (h c w) as [x w1]. rewrite IH.
    destruct (osrun h (k x) w1) as [[a w2] t].
    by destruct (osrun h (f a) w2) as [[? ?] ?].
Qed.

Lemma osrun_lift {A} h (p : prog Repository Worktree A) w :
  osrun h (lift p) w =
  (let '(a, w', t) := run (gitOf h) p w in (a, w', map Git t)).
Proof.
  revert w. induction p as [a | c k IH]; intros w; simpl; [done |].
  unfold gitOf at 1. destruct (h (Git c) w) as [x w1]. rewrite IH.
  by destruct (run (gitOf h) (k x) w1) as [[? ?] ?].
Qed.

End OsRunFacts.

(** ** GetGitHubProjectForOriginByRepo and GetGitHubProjectForOrigin *)

Section GitHubProject.

Context {Repository Worktree W : Type}.
Variable errors_Wrap : error -> string -> error.
Variable is_ErrRepositoryNotExists : error -> bool.
Variable path_Join : list string -> string.
Variable Remote_String : Remote -> string.

Local Abbreviation ByRepo :=
  (GetGitHubProjectForOriginByRepo (Repository:=Repository) (Worktree:=Worktree)
     errors_Wrap Remote_String).
Local Abbreviation ForOrigin :=
  (GetGitHubProjectForOrigin (Repository:=Repository) (Worktree:=Worktree)
     errors_Wrap is_ErrRepositoryNotExists path_Join Remote_String).

Implicit Types (h : oshandler Repository Worktree W) (w : W) (repo : Repository).
Implicit Types (owner name url : string).

Lemma Join_Split (s : string) (c : ascii) : Join (Split s c) (String c "") = s.
Proof.
  induction s as [|a s IH]; simpl; [done |].
  destruct (Ascii.eqb a c) eqn:Ha.
  - apply Ascii.eqb_eq in Ha as ->.
    pose proof (Split_not_nil s c). destruct (Split s c) as [|y ys] eqn:E; [done |].
    simpl in IH |- *. by rewrite IH.
  - pose proof (Split_not_nil s c). destruct (Split s c) as [|y ys] eqn:E; [done |].
    destruct ys as [|z zs]; simpl in IH |- *; by rewrite <- IH.
Qed.

(** the last piece of a split takes what is appended, when that has no
    separator *)
Lemma Split_append_tail (q t : string) (c : ascii) :
  contains c t = false ->
  exists l x, Split q c = l ++ [x] /\ Split (q +:+ t) c = l ++ [x +:+ t].
Proof.
  intros Ht. induction q as [|a q (l & x & E1 & E2)]; simpl.
  - exists [], "". by rewrite Split_no_sep.
  - destruct (Ascii.eqb a c).
    + exists ("" :: l), x. by rewrite E1, E2.
    + rewrite E1, E2. destruct l as [|y l]; simpl.
      * by exists [], (String a x).
      * by exists (String a y :: l), x.
Qed.

Lemma HasSuffix_after_slash owner name :
  contains "/" owner = false -> contains "/" name = false ->
  HasSuffix name ".git" = false ->
  HasSuffix (owner +:+ "/" +:+ name) ".git" = false.
Proof.
  intros Ho Hn Hs. destruct (HasSuffix (owner +:+ "/" +:+ name) ".git") eqn:E; [| done].
  apply HasSuffix_inv in E.
  set (q := stake _ _) in E.
  destruct (Split_append_tail q ".git" "/" eq_refl) as (l & x & E1 & E2).
  rewrite <- E in E2.
  change (owner +:+ "/" +:+ name) with (owner +:+ String "/" name) in E2.
  rewrite Split_append_sep, Split_no_sep in E2 by done.
  destruct l as [|y [|z l]]; simpl in E2.
  - discriminate E2.
  - injection E2 as _ En. rewrite En, HasSuffix_append in Hs. done.
  - injection E2 as _ _ En. by destruct l.
Qed.

(** X8. When the first URL of the remote [origin] is
    [git@github.com:owner/name] or [https://github.com/owner/name], with or
    without [.git] at its end, [GetGitHubProjectForOriginByRepo] returns
    [owner] and [name]; the remote is the only thing looked at. *)
Theorem GitHub_remote_gives_owner_and_name h w repo remote url others owner name :
  (h (Repository_Remote repo "origin") w).1 = Ok remote ->
  URLs remote = url :: others ->
  contains "/" owner = false -> contains "/" name = false ->
  HasSuffix name ".git" = false ->
  url = "git@github.com:" +:+ owner +:+ "/" +:+ name \/
  url = "git@github.com:" +:+ owner +:+ "/" +:+ name +:+ ".git" \/
  url = "https://github.com/" +:+ owner +:+ "/" +:+ name \/
  url = "https://github.com/" +:+ owner +:+ "/" +:+ name +:+ ".git" ->
  osrun h (ByRepo repo) w =
  (Ok (owner, name), (h (Repository_Remote repo "origin") w).2,
   [Repository_Remote repo "origin"]).
Proof.
  intros Hr Hu Ho Hn Hs Hurl.
  unfold GetGitHubProjectForOriginByRepo. rewrite osrun_Do, Hr, Hu.
  assert (Hsplit : Split (owner +:+ "/" +:+ name) "/" = [owner; name]).
  { change (owner +:+ "/" +:+ name) with (owner +:+ String "/" name).
    by rewrite Split_append_sep, Split_no_sep. }
  assert (Htrim1 : TrimSuffix (owner +:+ "/" +:+ name) ".git" = owner +:+ "/" +:+ name).
  { unfold TrimSuffix. by rewrite HasSuffix_after_slash. }
  assert (Htrim2 : TrimSuffix (owner +:+ "/" +:+ name +:+ ".git") ".git"
                   = owner +:+ "/" +:+ name).
  { replace (owner +:+ "/" +:+ name +:+ ".git")
      with ((owner +:+ "/" +:+ name) +:+ ".git") by (by rewrite !append_assoc).
    apply TrimSuffix_append. }
  unfold trimGitRemoteURL, GitHubSSHPrefix, GitHubHTTPSPrefix, GitHubRepositorySuffix.
  destruct Hurl as [-> | [-> | [-> | ->]]].
  - rewrite HasPrefix_append, TrimPrefix_append, Htrim1, Hsplit. done.
  - rewrite HasPrefix_append, TrimPrefix_append, Htrim2, Hsplit. done.
  - change (HasPrefix ("https://github.com/" +:+ owner +:+ "/" +:+ name) "git@github.com:")
      with false.
    rewrite HasPrefix_append, TrimPrefix_append, Htrim1, Hsplit. done.
  - change (HasPrefix ("https://github.com/" +:+ owner +:+ "/" +:+ name +:+ ".git")
              "git@github.com:") with false.
    rewrite HasPrefix_append, TrimPrefix_append, Htrim2, Hsplit. done.
Qed.

(** X9. [GetGitHubProjectForOriginByRepo] returns an owner and a name only
    when the first URL of [origin] starts with [git@github.com:] or
    [https://github.com/] and is that prefix followed by [owner/name], with or
    without [.git] at the end; neither of the two contains a slash. *)
Theorem GitHub_project_only_from_GitHub_remote h w repo owner name w' t :
  osrun h (ByRepo repo) w = (Ok (owner, name), w', t) ->
  exists remote url others prefix,
    (h (Repository_Remote repo "origin") w).1 = Ok remote /\
    URLs remote = url :: others /\
    (prefix = "git@github.com:" \/ prefix = "https://github.com/") /\
    (url = prefix +:+ owner +:+ "/" +:+ name \/
     url = prefix +:+ owner +:+ "/" +:+ name +:+ ".git") /\
    contains "/" owner = false /\ contains "/" name = false.
Proof.
  unfold GetGitHubProjectForOriginByRepo. rewrite osrun_Do.
  destruct (h (Repository_Remote repo "origin") w).1 as [remote | e] eqn:Hr; [| done].
  set (remoteURL := match URLs remote with [] => "" | url :: _ => url end).
  set (project := if HasPrefix remoteURL GitHubSSHPrefix then _ else _).
  destruct (Split project "/") as [|o [|n [|x l]]] eqn:Hsplit; try done.
  simpl. intros [= -> -> _ _].
  assert (Hproj : project = owner +:+ "/" +:+ name).
  { rewrite <- (Join_Split project "/"), Hsplit. done. }
  assert (Hno : contains "/" owner = false).
  { apply (Split_elem_no_sep project "/"). rewrite Hsplit. apply list_elem_of_here. }
  assert (Hnn : contains "/" name = false).
  { apply (Split_elem_no_sep project "/"). rewrite Hsplit.
    apply list_elem_of_further, list_elem_of_here. }
  assert (Hshape : forall prefix, HasPrefix remoteURL prefix = true ->
            project = trimGitRemoteURL remoteURL prefix GitHubRepositorySuffix ->
            remoteURL = prefix +:+ owner +:+ "/" +:+ name \/
            remoteURL = prefix +:+ owner +:+ "/" +:+ name +:+ ".git").
  { intros prefix Hp E. unfold trimGitRemoteURL, GitHubRepositorySuffix in E.
    pose proof (HasPrefix_inv _ _ Hp) as Eurl.
    assert (Et : TrimPrefix remoteURL prefix = sdrop (len prefix) remoteURL)
      by (unfold TrimPrefix; by rewrite Hp).
    rewrite Et in E. rewrite Eurl.
    destruct (TrimSuffix_cases (sdrop (len prefix) remoteURL) ".git") as [E' | E'].
    - left. by rewrite <- E', <- E, Hproj.
    - right. rewrite E', <- E, Hproj. by rewrite !append_assoc. }
  assert (Hne : remoteURL <> "").
  { intros E. subst project. rewrite E in Hproj. by destruct owner. }
  destruct (URLs remote) as [|url others] eqn:Hu; [done |].
  exists remote, url, others.
  subst project. destruct (HasPrefix remoteURL GitHubSSHPrefix) eqn:H1.
  - exists "git@github.com:". split_and!; try done; [by left |].
    by apply (Hshape GitHubSSHPrefix).
  - destruct (HasPrefix remoteURL GitHubHTTPSPrefix) eqn:H2.
    + exists "https://github.com/". split_and!; try done; [by right |].
      by apply (Hshape GitHubHTTPSPrefix).
    + by destruct owner.
Qed.

(** X10. [GetGitHubProjectForOrigin] reports [no git repository found from
    dir] whenever no repository comes back from [GetGitRepository]: when the
    search fails, when it finds nothing and when the directory found cannot be
    opened.  The error of the search or of the opening is never returned, and
    the remote is not looked at.  Otherwise the result is that of
    [GetGitHubProjectForOriginByRepo] on the repository opened at the parent
    of the directory found. *)
Theorem no_repository_hides_the_cause h w dir :
  let walk := fsutil_WalkUp dir in
  let w1 := (h walk w).2 in
  let notFound := Err (fmt_Errorf ("no git repository found from " +:+ dir)) in
  (forall e, (h walk w).1 = Err e ->
     osrun h (ForOrigin dir) w = (notFound, w1, [walk])) /\
  ((h walk w).1 = Ok "" -> osrun h (ForOrigin dir) w = (notFound, w1, [walk])) /\
  (forall gitRoot, (h walk w).1 = Ok gitRoot -> gitRoot <> "" ->
     let open := Git (PlainOpen (path_Join [gitRoot; ".."])) in
     let w2 := (h open w1).2 in
     (forall e, (h open w1).1 = Err e ->
        osrun h (ForOrigin dir) w = (notFound, w2, [walk; open])) /\
     (forall repo, (h open w1).1 = Ok repo ->
        osrun h (ForOrigin dir) w =
        (let '(r, w3, t) := osrun h (ByRepo repo) w2 in (r, w3, walk :: open :: t)))).
Proof.
  intros walk w1 notFound. subst w1.
  unfold GetGitHubProjectForOrigin, GetGitRepository. fold walk.
  rewrite osrun_bind, osrun_Do.
  destruct (h walk w) as [r w1] eqn:Hw. simpl in r. cbn [fst snd].
  split_and!.
  - intros e ->. done.
  - intros ->. done.
  - intros gitRoot -> Hne. apply String.eqb_neq in Hne. rewrite Hne.
    cbv zeta. rewrite osrun_Do.
    destruct (h (Git (PlainOpen (path_Join [gitRoot; ".."]))) w1) as [r2 w2] eqn:Ho.
    simpl in r2. cbn [fst snd]. split.
    + intros e ->. by destruct (is_ErrRepositoryNotExists e).
    + intros repo ->. simpl.
      by destruct (osrun h (ByRepo repo) w2) as [[? ?] ?].
Qed.

End GitHubProject.

(** ** RetrieveTemplate *)

Section Retrieve.

Context {Repository Worktree W : Type}.
Variable url_Parse : string -> result URL.
Variable Short : ReferenceName -> string.
Variable sort_Sort : list ReferenceName -> list ReferenceName.
Variable filepath_Join : list string -> string.
Variable filepath_FromSlash : string -> string.

Local Abbreviation Retrieve :=
  (RetrieveTemplate (Repository:=Repository) (Worktree:=Worktree)
     url_Parse Short sort_Sort filepath_Join filepath_FromSlash).
Local Abbreviation Parse :=
  (ParseGitCheckoutOptionsSubDirectory (Repository:=Repository) (Worktree:=Worktree)
     url_Parse Short sort_Sort).

Implicit Types (h : oshandler Repository Worktree W) (w : W).
Implicit Types (rawurl path url : string).

(** X11. A URL whose scheme is not [https] is refused by [RetrieveTemplate]
    before anything is done: nothing is cloned, opened, pulled or checked
    out. *)
Theorem RetrieveTemplate_refuses_other_schemes h w rawurl path u :
  url_Parse rawurl = Ok u -> Scheme u <> "https" ->
  osrun h (Retrieve rawurl path) w = (Err (errors_New "invalid URL scheme"), w, []).
Proof.
  intros Hu Hs. unfold RetrieveTemplate, ParseGitRepoURL. rewrite Hu.
  apply String.eqb_neq in Hs. by rewrite Hs.
Qed.

(** X12. When [RetrieveTemplate] returns a path, then: the URL has a
    canonical clone URL; the repository was cloned or pulled from it into
    [path]; the target was resolved from the raw URL against that repository;
    the branch was printed; the worktree was checked out once, at the resolved
    target and with force; and the path returned is [path] joined with the
    resolved subdirectory, which was the last thing looked at. *)
Theorem RetrieveTemplate_success h w rawurl path fullPath w' t :
  osrun h (Retrieve rawurl path) w = (Ok fullPath, w', t) ->
  exists url repo opts sub wt w1 t1 w2 t2,
    ParseGitRepoURL url_Parse rawurl = Ok url /\
    run (gitOf h) (GitCloneOrPull url path) w = (Ok repo, w1, t1) /\
    run (gitOf h) (Parse rawurl repo) w1 = (Ok (opts, sub), w2, t2) /\
    fullPath = filepath_Join [path; filepath_FromSlash sub] /\
    t = map Git t1 ++ map Git t2 ++
        [fmt_Printf ("JVP: Branch: " +:+ CheckoutOptions.Branch opts +:+ LF);
         Git (Repository_Worktree repo);
         Worktree_Checkout wt opts true;
         os_Stat fullPath].
Proof.
  unfold RetrieveTemplate.
  destruct (ParseGitRepoURL url_Parse rawurl) as [url | e] eqn:Hurl; [| done].
  rewrite osrun_bind, osrun_lift.
  destruct (run (gitOf h) (GitCloneOrPull url path) w) as [[[repo | e] w1] t1] eqn:Hc;
    [| done].
  rewrite osrun_bind, osrun_lift.
  destruct (run (gitOf h) (Parse rawurl repo) w1) as [[[[opts sub] | e] w2] t2] eqn:Hp;
    [| done].
  rewrite osrun_Do. cbn [fst snd].
  set (w3 := (h (fmt_Printf _) w2).2).
  rewrite osrun_Do.
  destruct (h (Git (Repository_Worktree repo)) w3) as [rw w4]. simpl in rw. cbn [fst snd].
  destruct rw as [wt | e]; [| done].
  rewrite osrun_Do.
  destruct (h (Worktree_Checkout wt opts true) w4) as [rc w5]. simpl in rc. cbn [fst snd].
  destruct rc as [e |]; [done |].
  cbv zeta. rewrite osrun_Do.
  destruct (h (os_Stat (filepath_Join [path; filepath_FromSlash sub])) w5) as [rs w6].
  simpl in rs. cbn [fst snd].
  destruct rs as [info | e]; [| done].
  destruct (FileInfo.IsDir info); [| done].
  simpl. intros [= <- <- <-].
  exists url, repo, opts, sub, wt, w1, t1, w2, t2. split_and!; try done;
    by rewrite <- ?app_assoc.
Qed.

Lemma Parse_dot_path rawurl u (repo : Repository) :
  url_Parse rawurl = Ok u ->
  "." ∈ drop 3 (Split (Path u) "/") \/ ".." ∈ drop 3 (Split (Path u) "/") ->
  Parse rawurl repo = Ret (Err (errors_New "invalid Git URL")).
Proof.
  intros Hu Hdot.
  assert (Hseg : "." ∈ drop 3 (pathSegments u) \/ ".." ∈ drop 3 (pathSegments u)).
  { destruct Hdot as [H | H]; [left | right]; by apply pathSegments_dot. }
  destruct (pathSegments u) as [|lead [|owner [|rname [|x rest]]]] eqn:Hp;
    try (by destruct Hseg as [H | H]; apply elem_of_nil in H).
  change (drop 3 (lead :: owner :: rname :: x :: rest)) with (x :: rest) in Hseg.
  apply hasDotComponent_true in Hseg.
  by apply (Parse_dot url_Parse Short sort_Sort rawurl u repo lead owner rname x rest).
Qed.

(** X13. A URL with a [.] or [..] segment after the owner and the repository
    is refused by [RetrieveTemplate] only after the repository has been cloned
    or pulled: the calls made are exactly those of [GitCloneOrPull] on the
    canonical URL, whose error is returned if it fails; nothing is checked
    out. *)
Theorem RetrieveTemplate_refuses_dots_after_cloning h w rawurl path u url :
  url_Parse rawurl = Ok u ->
  ParseGitRepoURL url_Parse rawurl = Ok url ->
  "." ∈ drop 3 (Split (Path u) "/") \/ ".." ∈ drop 3 (Split (Path u) "/") ->
  osrun h (Retrieve rawurl path) w =
  (let '(r, w1, t1) := run (gitOf h) (GitCloneOrPull url path) w in
   (match r with
    | Ok _ => Err (errors_New "invalid Git URL")
    | Err e => Err e
    end, w1, map Git t1)).
Proof.
  intros Hu Hurl Hdot. unfold RetrieveTemplate. rewrite Hurl.
  rewrite osrun_bind, osrun_lift.
  destruct (run (gitOf h) (GitCloneOrPull url path) w) as [[[repo | e] w1] t1] eqn:Hc.
  - rewrite osrun_bind, (Parse_dot_path rawurl u repo Hu Hdot). simpl.
    by rewrite app_nil_r.
  - simpl. by rewrite app_nil_r.
Qed.

End Retrieve.

(** ** The template directory *)

Section TemplateDir.

Context {Repository Worktree W : Type}.
Variable errors_Wrap : error -> string -> error.
Variable is_ErrRepositoryNotExists : error -> bool.
Variable filepath_Join : list string -> string.
Variables BookkeepingDir TemplateDir : string.

Local Abbreviation cleanup :=
  (cleanupLegacyTemplateDir (Repository:=Repository) (Worktree:=Worktree)
     errors_Wrap is_ErrRepositoryNotExists filepath_Join BookkeepingDir TemplateDir).
Local Abbreviation CloneOrUpdate :=
  (CloneOrUpdatePulumiTemplates (Repository:=Repository) (Worktree:=Worktree)
     errors_Wrap is_ErrRepositoryNotExists filepath_Join BookkeepingDir TemplateDir).
Local Abbreviation TemplateDirOf :=
  (GetTemplateDir (Repository:=Repository) (Worktree:=Worktree)
     errors_Wrap filepath_Join BookkeepingDir TemplateDir).

Implicit Types (h : oshandler Repository Worktree W) (w : W).

Lemma osrun_GetTemplateDir h w name :
  osrun h (TemplateDirOf name) w =
  (match (h user_Current w).1 with
   | (Some u, None) =>
       (if negb (String.eqb name "") then
          filepath_Join [filepath_Join [User.HomeDir u; BookkeepingDir; TemplateDir];
                         TemplateDir; name]
        else filepath_Join [User.HomeDir u; BookkeepingDir; TemplateDir], None)
   | (_, err) => ("", errors_Wrap_nilable errors_Wrap err "getting user home directory")
   end, (h user_Current w).2, [user_Current]).
Proof.
  unfold GetTemplateDir. rewrite osrun_Do.
  destruct (h user_Current w) as [[[u |] [e |]] w1]; done.
Qed.

(** X14. With a current user, [cleanupLegacyTemplateDir] opens the template
    directory under the user's home.  It removes that directory, with
    everything below it, exactly when opening it fails with
    [ErrRepositoryNotExists], and then returns what the removal returns; a
    directory that opens as a repository is left alone; any other error of
    opening it is returned and nothing is removed. *)
Theorem cleanup_removes_only_non_repositories h w u :
  (h user_Current w).1 = (Some u, None) ->
  let dir := filepath_Join [User.HomeDir u; BookkeepingDir; TemplateDir] in
  let w1 := (h user_Current w).2 in
  let open := Git (PlainOpen dir) in
  let w2 := (h open w1).2 in
  (forall repo, (h open w1).1 = Ok repo ->
     osrun h cleanup w = (None, w2, [user_Current; open])) /\
  (forall e, (h open w1).1 = Err e -> is_ErrRepositoryNotExists e = false ->
     osrun h cleanup w = (Some e, w2, [user_Current; open])) /\
  (forall e, (h open w1).1 = Err e -> is_ErrRepositoryNotExists e = true ->
     osrun h cleanup w =
     ((h (os_RemoveAll dir) w2).1, (h (os_RemoveAll dir) w2).2,
      [user_Current; open; os_RemoveAll dir])) /\
  (os_RemoveAll dir ∈ (osrun h cleanup w).2 <->
   exists e, (h open w1).1 = Err e /\ is_ErrRepositoryNotExists e = true).
Proof.
  intros Hu dir w1 open w2. subst w1 w2.
  unfold cleanupLegacyTemplateDir.
  rewrite osrun_bind, osrun_GetTemplateDir, Hu. simpl negb. cbv iota. fold dir.
  rewrite osrun_Do. fold open.
  destruct (h open (h user_Current w).2) as [r w2] eqn:Ho. simpl in r. cbn [fst snd].
  destruct r as [repo | e].
  - split_and!.
    + done.
    + done.
    + done.
    + simpl. split.
      * intros Hin. rewrite !elem_of_cons in Hin.
        destruct Hin as [? | [? | Hin]]; try done. by apply elem_of_nil in Hin.
      * by intros (e & ? & _).
  - destruct (is_ErrRepositoryNotExists e) eqn:He.
    + rewrite osrun_Do.
      destruct (h (os_RemoveAll dir) w2) as [rr w3] eqn:Hr. simpl in rr. cbn [fst snd].
      split_and!.
      * done.
      * intros e' [= <-]. by rewrite He.
      * by intros e' [= <-] _.
      * simpl. split; [intros _; by exists e |].
        intros _. do 2 apply list_elem_of_further. apply list_elem_of_here.
    + split_and!.
      * done.
      * by intros e' [= <-] _.
      * intros e' [= <-]. by rewrite He.
      * simpl. split.
        -- intros Hin. rewrite !elem_of_cons in Hin.
           destruct Hin as [? | [? | Hin]]; try done. by apply elem_of_nil in Hin.
        -- intros (e' & [= <-] & He'). by rewrite He in He'.
Qed.

(** X15. When [CloneOrUpdatePulumiTemplates] succeeds, the clean-up
    succeeded, the template directory was created with mode 0700, and
    [https://github.com/pulumi/templates.git] was cloned or pulled into it;
    these are all the calls it made, in this order. *)
Theorem CloneOrUpdate_success h w w' t :
  osrun h CloneOrUpdate w = (None, w', t) ->
  exists wc tc dir wd repo tg,
    osrun h cleanup w = (None, wc, tc) /\
    osrun h (TemplateDirOf "") wc = ((dir, None), wd, [user_Current]) /\
    (h (os_MkdirAll dir 448) wd).1 = None /\
    run (gitOf h) (GitCloneOrPull "https://github.com/pulumi/templates.git" dir)
        (h (os_MkdirAll dir 448) wd).2 = (Ok repo, w', tg) /\
    t = tc ++ [user_Current; os_MkdirAll dir 448] ++ map Git tg.
Proof.
  unfold CloneOrUpdatePulumiTemplates. rewrite osrun_bind.
  destruct (osrun h cleanup w) as [[[e |] wc] tc] eqn:Hc; [done |].
  rewrite osrun_bind.
  destruct (osrun h (TemplateDirOf "") wc) as [[[dir [e |]] wd] td] eqn:Hd; [done |].
  assert (Htd : td = [user_Current]).
  { rewrite osrun_GetTemplateDir in Hd. by injection Hd as _ _ <-. }
  subst td. rewrite osrun_Do.
  destruct (h (os_MkdirAll dir 448) wd) as [rm wm] eqn:Hm. simpl in rm. cbn [fst snd].
  destruct rm as [e |]; [done |].
  rewrite osrun_bind, osrun_lift. unfold pulumiTemplateGitRepository.
  destruct (run (gitOf h) (GitCloneOrPull "https://github.com/pulumi/templates.git" dir) wm)
    as [[[repo | e] wg] tg] eqn:Hg; [| done].
  cbv beta iota zeta. intros [= <- <-].
  exists wc, tc, dir, wd, repo, tg. rewrite Hm. split_and!; try done.
  by rewrite app_nil_r.
Qed.

End TemplateDir.

(** ** The helpers of templates.go *)

Section IsBinary.

Lemma get_Some_lt (s : string) i c : String.get i s = Some c -> (i < len s)%nat.
Proof.
  revert i. induction s as [|a s IH]; intros [|i] H; simpl in *; try done; try lia.
  apply IH in H. lia.
Qed.

Lemma zeroWithin_true n (bytes : string) :
  zeroWithin n bytes = true <->
  exists i, (i < n)%nat /\ String.get i bytes = Some zero.
Proof.
  revert bytes. induction n as [|n IH]; intros bytes.
  - split; [by destruct bytes | intros (i & Hi & _); lia].
  - destruct bytes as [|c bytes]; simpl.
    + split; [done | by intros (i & _ & H)].
    + destruct (Ascii.eqb c zero) eqn:Hc.
      * apply Ascii.eqb_eq in Hc as ->. split; [| done].
        intros _. exists 0%nat. split; [lia | done].
      * rewrite IH. split.
        -- intros (i & Hi & H). exists (S i). split; [lia | done].
        -- intros ([|i] & Hi & H).
           ++ simpl in H. injection H as ->. by rewrite Ascii.eqb_refl in Hc.
           ++ exists i. split; [lia | done].
Qed.

Lemma get_append_l (s t : string) i :
  (i < len s)%nat -> String.get i (s +:+ t) = String.get i s.
Proof.
  revert i. induction s as [|a s IH]; intros i Hi; simpl in Hi; [lia |].
  destruct i as [|i]; simpl; [done |]. apply IH. lia.
Qed.

(** X16. [isBinary] is true exactly when one of the first 8000 bytes is zero:
    a zero byte further on is not seen, and what follows the first 8000 bytes
    never changes the answer. *)
Theorem isBinary_looks_at_first_bytes (bytes : string) :
  (isBinary bytes = true <->
   exists i, (i < firstFewBytes)%nat /\ String.get i bytes = Some zero) /\
  (forall tail, (firstFewBytes <= len bytes)%nat ->
     isBinary (bytes +:+ tail) = isBinary bytes).
Proof.
  assert (Hiff : forall b : string, isBinary b = true <->
            exists i, (i < firstFewBytes)%nat /\ String.get i b = Some zero).
  { intros b. unfold isBinary. generalize firstFewBytes as n. intros n.
    destruct (n <? len b)%nat eqn:Hn; rewrite zeroWithin_true; [done |].
    apply Nat.ltb_ge in Hn. split.
    - intros (i & Hi & H). exists i. split; [lia | done].
    - intros (i & Hi & H). exists i. split; [by eapply get_Some_lt | done]. }
  split; [apply Hiff |].
  intros tail Hlen. apply eq_true_iff_eq. rewrite !Hiff.
  split; intros (i & Hi & H); exists i; (split; [done |]).
  - rewrite get_append_l in H by lia. done.
  - rewrite get_append_l by lia. done.
Qed.

End IsBinary.

Section NewExistingFilesError.

Local Abbreviation line file := ("  overwrite   " +:+ file +:+ LF).

Lemma foldl_message (existing : list string) (message : string) :
  foldl (fun message file => message +:+ line file) message existing =
  message +:+ foldr (fun file rest => line file +:+ rest) "" existing.
Proof.
  revert message. induction existing as [|f l IH]; intros message; cbn [foldl foldr].
  - by rewrite append_empty_r.
  - by rewrite IH, append_assoc.
Qed.

Lemma lines_split (l1 l2 : list string) (file : string) :
  foldr (fun file rest => line file +:+ rest) "" (l1 ++ file :: l2) =
  foldr (fun file rest => line file +:+ rest) "" l1 +:+ line file +:+
  foldr (fun file rest => line file +:+ rest) "" l2.
Proof.
  induction l1 as [|g l1 IH]; [done |].
  change ((g :: l1) ++ file :: l2) with (g :: (l1 ++ file :: l2)).
  cbn [foldr]. rewrite IH. symmetry. apply append_assoc.
Qed.

(** X17. For a list of files that is not empty, [newExistingFilesError]
    returns an error whose message has a line [  overwrite   file] for each
    file of the list; for the empty list it panics. *)
Theorem newExistingFilesError_names_every_file (existing : list string) :
  newExistingFilesError [] = Panics /\
  (existing <> [] ->
   exists message,
     newExistingFilesError existing = Returns (errors_New message) /\
     forall file, file ∈ existing ->
       exists before after, message = before +:+ "  overwrite   " +:+ file +:+ LF +:+ after).
Proof.
  split; [done |]. intros Hne.
  unfold newExistingFilesError.
  destruct existing as [|f l]; [done |]. cbn [length Nat.ltb Nat.leb negb].
  eexists. split; [reflexivity |].
  intros file [l1 [l2 E]]%list_elem_of_split.
  rewrite foldl_message, E, lines_split.
  exists (("creating this template will make changes to existing files:" +:+ LF) +:+
          foldr (fun file rest => line file +:+ rest) "" l1),
         (foldr (fun file rest => line file +:+ rest) "" l2 +:+
          (LF +:+ "rerun the command and pass --force to accept and create")).
  by rewrite !append_assoc.
Qed.

End NewExistingFilesError.

Section ReplaceFacts.

Variables (c : ascii) (old' new : string).

Local Abbreviation old := (String c old').

Lemma replaceFrom_skip (x rest : string) :
  replaceFrom old new (len x) (x +:+ rest) = replaceFrom old new 0 rest.
Proof.
  induction x as [|a x IH]; [by destruct rest |]. exact IH.
Qed.

(** a text without the first byte of [old] is copied *)
Lemma replaceFrom_text (p rest : string) :
  contains c p = false ->
  replaceFrom old new 0 (p +:+ rest) = p +:+ replaceFrom old new 0 rest.
Proof.
  induction p as [|a p IH]; [done |]. simpl.
  intros [Ha Hp]%orb_false_iff.
  destruct (ascii_dec c a) as [-> | _]; [by rewrite Ascii.eqb_refl in Ha |].
  by rewrite IH.
Qed.

(** an occurrence of [old] is replaced *)
Lemma replaceFrom_old (rest : string) :
  replaceFrom old new 0 (old +:+ rest) = new +:+ replaceFrom old new 0 rest.
Proof.
  change (old +:+ rest) with (String c (old' +:+ rest)).
  cbn [replaceFrom]. change (String c (old' +:+ rest)) with (old +:+ rest).
  rewrite HasPrefix_append.
  change (len old - 1)%nat with (len old' - 0)%nat. rewrite Nat.sub_0_r.
  by rewrite replaceFrom_skip.
Qed.

Lemma Replace_without (s : string) : contains c s = false -> Replace s old new = s.
Proof.
  intros H. unfold Replace. rewrite <- (append_empty_r s) at 1.
  rewrite replaceFrom_text by done. by rewrite append_empty_r.
Qed.

End ReplaceFacts.

Section Transform.

Variable runtime_GOOS : string.

Lemma contains_append (a : ascii) (s t : string) :
  contains a (s +:+ t) = contains a s || contains a t.
Proof. induction s as [|x s IH]; simpl; [done |]. by rewrite IH, orb_assoc. Qed.

Lemma render_no_dollar project (pieces : list piece) :
  plainText pieces = true -> contains "$" project = false ->
  contains "$" (render project "" pieces) = false.
Proof.
  intros Hp Hn. induction pieces as [|[s | |] l IH]; simpl in *; try done.
  - apply andb_true_iff in Hp as [Hs Hl]. apply negb_true_iff in Hs.
    by rewrite contains_append, Hs, IH.
  - by rewrite contains_append, Hn, IH.
  - by apply IH.
Qed.

(** X18. Where the system is not Windows, [transform] leaves a text without
    [$] as it is, and in a text made of pieces without [$] and of the
    placeholders [${PROJECT}] and [${DESCRIPTION}] it puts the project name for
    the first and the description for the second, provided the project name
    has no [$]. *)
Theorem transform_fills_placeholders (content projectName projectDescription : string)
    (pieces : list piece) :
  runtime_GOOS <> "windows" ->
  (contains "$" content = false ->
   transform runtime_GOOS content projectName projectDescription = content) /\
  (plainText pieces = true -> contains "$" projectName = false ->
   transform runtime_GOOS (render "${PROJECT}" "${DESCRIPTION}" pieces)
     projectName projectDescription
   = render projectName projectDescription pieces).
Proof.
  intros Hos. apply String.eqb_neq in Hos. unfold transform. rewrite Hos. split.
  - intros Hc.
    rewrite (Replace_without "$" "{PROJECT}" projectName content Hc).
    by rewrite (Replace_without "$" "{DESCRIPTION}" projectDescription content Hc).
  - intros Hp Hn.
    assert (H1 : Replace (render "${PROJECT}" "${DESCRIPTION}" pieces) "${PROJECT}"
                   projectName = render projectName "${DESCRIPTION}" pieces).
    { unfold Replace. clear Hn. induction pieces as [|[s | |] l IH]; [done | | |].
      - simpl in Hp. apply andb_true_iff in Hp as [Hs Hl]. apply negb_true_iff in Hs.
        cbn [render]. rewrite replaceFrom_text by done. by rewrite IH.
      - cbn [render]. rewrite replaceFrom_old. by rewrite IH.
      - cbn [render].
        change ("${DESCRIPTION}" +:+ render "${PROJECT}" "${DESCRIPTION}" l)
          with (String "$" ("{DESCRIPTION}" +:+ render "${PROJECT}" "${DESCRIPTION}" l)).
        cbn [replaceFrom]. unfold HasPrefix. cbn [String.prefix].
        destruct (ascii_dec "$" "$") as [_ | Hne]; [| by destruct Hne].
        destruct (ascii_dec "{" "{") as [_ | Hne]; [| by destruct Hne].
        destruct (ascii_dec "P" "D") as [Heq | _]; [discriminate Heq |].
        rewrite (replaceFrom_text "$" "{PROJECT}" projectName "{DESCRIPTION}") by done.
        by rewrite IH. }
    assert (H2 : Replace (render projectName "${DESCRIPTION}" pieces) "${DESCRIPTION}"
                   projectDescription = render projectName projectDescription pieces).
    { clear H1. unfold Replace. induction pieces as [|[s | |] l IH]; [done | | |].
      - simpl in Hp. apply andb_true_iff in Hp as [Hs Hl]. apply negb_true_iff in Hs.
        cbn [render]. rewrite replaceFrom_text by done. by rewrite IH.
      - cbn [render]. rewrite replaceFrom_text by done. by rewrite IH.
      - cbn [render]. rewrite replaceFrom_old. by rewrite IH. }
    by rewrite H1, H2.
Qed.

End Transform.

Section ProjectName.

Variable IsPackageName : string -> bool.

Local Abbreviation valid := (IsValidProjectName IsPackageName).

Lemma buildUp_valid (result name : string) :
  result = "" \/ valid result = true ->
  buildUp IsPackageName result name = "" \/
  valid (buildUp IsPackageName result name) = true.
Proof.
  revert result. induction name as [|a name IH]; intros result H; [done |].
  cbn [buildUp]. destruct (valid (result +:+ string_of_byte a)) eqn:E; apply IH; auto.
Qed.

(** X19. If [project] is a package name, then what [getValidProjectName]
    returns is always a package name; so is what
    [ValueOrSanitizedDefaultProjectName] returns when no name is given.  A
    name that is given is returned as it is, valid or not. *)
Theorem sanitized_project_name_is_valid (name defaultNameToSanitize : string) :
  IsPackageName "project" = true ->
  IsPackageName (getValidProjectName IsPackageName name) = true /\
  IsPackageName
    (ValueOrSanitizedDefaultProjectName IsPackageName "" defaultNameToSanitize) = true /\
  (name <> "" ->
   ValueOrSanitizedDefaultProjectName IsPackageName name defaultNameToSanitize = name).
Proof.
  intros Hdef.
  assert (Hget : forall n, IsPackageName (getValidProjectName IsPackageName n) = true).
  { intros n. unfold getValidProjectName.
    destruct (valid n) eqn:Hn; [exact Hn |].
    destruct (buildUp_valid "" n (or_introl eq_refl)) as [-> | Hb]; [exact Hdef |].
    destruct (String.eqb (buildUp IsPackageName "" n) "") eqn:E; [exact Hdef | exact Hb]. }
  split_and!.
  - apply Hget.
  - unfold ValueOrSanitizedDefaultProjectName. simpl. apply Hget.
  - intros Hne. unfold ValueOrSanitizedDefaultProjectName.
    apply String.eqb_neq in Hne. by rewrite Hne.
Qed.

Lemma buildUp_sublist (result name : string) :
  all_bytes (fun b => (N_of_ascii b <? 128)%N) name = true ->
  exists kept,
    buildUp IsPackageName result name = result +:+ kept /\
    sublist (list_ascii_of_string kept) (list_ascii_of_string name).
Proof.
  revert result. induction name as [|a name IH]; intros result Hascii.
  - exists "". split; [by rewrite append_empty_r | done].
  - simpl in Hascii. apply andb_true_iff in Hascii as [Ha Hn].
    cbn [buildUp]. unfold string_of_byte. rewrite Ha.
    destruct (valid (result +:+ String a "")).
    + destruct (IH (result +:+ String a "") Hn) as (kept & E & Hs).
      exists (String a kept). split.
      * by rewrite E, append_assoc.
      * simpl. by apply sublist_skip.
    + destruct (IH result Hn) as (kept & E & Hs).
      exists kept. split; [done |]. simpl. by apply sublist_cons.
Qed.

(** X20. For a name of bytes below 128, [getValidProjectName] returns the name
    itself, or [project], or the name with some of its bytes left out: bytes
    are only dropped, never added, changed or reordered. *)
Theorem sanitized_project_name_drops_bytes (name : string) :
  all_bytes (fun b => (N_of_ascii b <? 128)%N) name = true ->
  getValidProjectName IsPackageName name = "project" \/
  sublist (list_ascii_of_string (getValidProjectName IsPackageName name))
          (list_ascii_of_string name).
Proof.
  intros Hascii. unfold getValidProjectName.
  destruct (valid name); [by right |].
  destruct (buildUp_sublist "" name Hascii) as (kept & E & Hs).
  destruct (String.eqb (buildUp IsPackageName "" name) "") eqn:Hb; [by left |].
  right. by rewrite E.
Qed.

End ProjectName.

Section TreeOnlyFirst.

Context {Repository Worktree W : Type}.
Variable url_Parse : string -> result URL.
Variable Short : ReferenceName -> string.
Variable sort_Sort : list ReferenceName -> list ReferenceName.

(** X21. [tree] is a keyword only as the first segment after the repository:
    when that segment is something else, every segment, a later [tree]
    included, belongs to the subdirectory on the default branch, and the
    repository is not asked for its references. *)
Theorem tree_is_special_only_after_repository (h : handler Repository Worktree W) w
    rawurl u (repo : Repository) lead owner rname first rest :
  url_Parse rawurl = Ok u ->
  pathSegments u = lead :: owner :: rname :: first :: rest ->
  first <> "tree" -> "." ∉ first :: rest -> ".." ∉ first :: rest ->
  run h (ParseGitCheckoutOptionsSubDirectory url_Parse Short sort_Sort rawurl repo) w =
  (Ok ({| CheckoutOptions.Hash := ZeroHash; CheckoutOptions.Branch := Master |},
       Join (first :: rest) "/"), w, []).
Proof.
  intros Hu Hp Hf Hd1 Hd2.
  rewrite (Parse_no_tree url_Parse Short sort_Sort rawurl u repo lead owner rname first rest);
    try done.
  by apply (hasDotComponent_false sort_Sort).
Qed.

End TreeOnlyFirst.

Section TransformWindows.

Lemma Replace_Join (c : ascii) (old' new : string) (pieces : list string) :
  Forall (fun p => contains c p = false) pieces ->
  Replace (Join pieces (String c old')) (String c old') new = Join pieces new.
Proof.
  unfold Replace. induction 1 as [|p l Hp Hl IH]; [done |].
  destruct l as [|q l].
  - simpl Join. rewrite <- (append_empty_r p) at 1.
    rewrite replaceFrom_text by done. by rewrite append_empty_r.
  - change (Join (p :: q :: l) (String c old'))
      with (p +:+ String c old' +:+ Join (q :: l) (String c old')).
    rewrite replaceFrom_text by done. rewrite replaceFrom_old, IH. done.
Qed.

Lemma contains_Join (a : ascii) (sep : string) (pieces : list string) :
  contains a sep = false -> Forall (fun p => contains a p = false) pieces ->
  contains a (Join pieces sep) = false.
Proof.
  intros Hsep. induction 1 as [|p l Hp Hl IH]; [done |].
  destruct l as [|q l]; [done |].
  change (Join (p :: q :: l) sep) with (p +:+ sep +:+ Join (q :: l) sep).
  by rewrite !contains_append, Hp, Hsep, IH.
Qed.

(** X22. On Windows, [transform] turns every line feed into a carriage return
    and a line feed: lines without [$] that are joined by line feeds come out
    joined by carriage return and line feed. *)
Theorem transform_on_windows (lines : list string) (projectName projectDescription : string) :
  Forall (fun l => contains "010" l = false) lines ->
  Forall (fun l => contains "$" l = false) lines ->
  transform "windows" (Join lines LF) projectName projectDescription
  = Join lines (CR +:+ LF).
Proof.
  intros Hlf Hd. unfold transform. rewrite String.eqb_refl.
  unfold LF at 1 2. rewrite (Replace_Join "010" "" (CR +:+ LF) lines Hlf).
  assert (Hno : contains "$" (Join lines (CR +:+ LF)) = false)
    by (by apply contains_Join).
  rewrite (Replace_without "$" "{PROJECT}" projectName _ Hno).
  by rewrite (Replace_without "$" "{DESCRIPTION}" projectDescription _ Hno).
Qed.

End TransformWindows.

(** ** Instances of the further properties *)

Section MoreInstances.

Local Abbreviation onBranch ref :=
  {| CheckoutOptions.Hash := ZeroHash; CheckoutOptions.Branch := ref |}.
Local Abbreviation Parse :=
  (ParseGitCheckoutOptionsSubDirectory (Repository:=Sample.Repository)
     (Worktree:=Sample.Worktree) Sample.url_Parse Sample.Short Sample.sort_Sort).
Local Abbreviation ByRepo :=
  (GetGitHubProjectForOriginByRepo (Repository:=Sample.Repository)
     (Worktree:=Sample.Worktree) SampleOS.errors_Wrap SampleOS.Remote_String).
Local Abbreviation ForOrigin :=
  (GetGitHubProjectForOrigin (Repository:=Sample.Repository) (Worktree:=Sample.Worktree)
     SampleOS.errors_Wrap SampleOS.is_ErrRepositoryNotExists SampleOS.path_Join
     SampleOS.Remote_String).
Local Abbreviation Retrieve :=
  (RetrieveTemplate (Repository:=Sample.Repository) (Worktree:=Sample.Worktree)
     Sample.url_Parse Sample.Short Sample.sort_Sort SampleOS.path_Join
     SampleOS.filepath_FromSlash).
Local Abbreviation cleanup :=
  (cleanupLegacyTemplateDir (Repository:=Sample.Repository) (Worktree:=Sample.Worktree)
     SampleOS.errors_Wrap SampleOS.is_ErrRepositoryNotExists SampleOS.path_Join
     ".pulumi" "templates").
Local Abbreviation CloneOrUpdate :=
  (CloneOrUpdatePulumiTemplates (Repository:=Sample.Repository)
     (Worktree:=Sample.Worktree) SampleOS.errors_Wrap SampleOS.is_ErrRepositoryNotExists
     SampleOS.path_Join ".pulumi" "templates").

Local Abbreviation someone := (Some {| User.HomeDir := "/home/someone" |}, None).
Local Abbreviation aDirectory := (Ok {| FileInfo.Name := "python"; FileInfo.IsDir := true |}).
Local Abbreviation noRemote := (Err (ErrLibrary "remote not found")).

(** a machine on which every call succeeds, with the given references and the
    given URLs of [origin] *)
Local Abbreviation working names urls :=
  (SampleOS.machine (SampleOS.cloned names) (Ok {| URLs := urls |}) (Ok "/work/.git")
     None aDirectory someone None None).

(** a machine without a repository at the template directory *)
Local Abbreviation legacy :=
  (SampleOS.machine
     (Sample.scripted (Ok 1%nat) (Err SampleOS.ErrRepositoryNotExists) (Ok 2%nat) None)
     noRemote (Err (ErrLibrary "permission denied")) None aDirectory someone None None).

Ltac by_decide := apply (bool_decide_unpack _); vm_compute; exact I.

Lemma subdirectory_has_no_dot_component_witness :
  ("." ∉ Split "content/foo" "/") /\ (".." ∉ Split "content/foo" "/").
Proof.
  apply (subdirectory_has_no_dot_component Sample.url_Parse Sample.Short Sample.sort_Sort
           (Sample.world []) tt "https://github.com/pulumi/templates/content/foo/" 0%nat
           (onBranch Master) "content/foo").
  reflexivity.
Defined.

Lemma resolver_errors_surface_unchanged_witness :
  let h := Sample.scripted (Ok 1%nat) (Ok 1%nat) (Ok 2%nat) None in
  let rawurl := "https://github.com/pulumi/templates/tree/master" in
  let e := ErrLibrary "unreachable" in
  e = errors_New "invalid Git URL" \/
  Sample.url_Parse rawurl = Err e \/
  (h (Repository_References 1%nat) tt).1 = Err e \/
  (exists it, (h (Repository_References 1%nat) tt).1 = Ok it /\ iter_err it = Some e).
Proof.
  apply (resolver_errors_surface_unchanged Sample.url_Parse Sample.Short Sample.sort_Sort
           (Sample.scripted (Ok 1%nat) (Ok 1%nat) (Ok 2%nat) None) tt
           "https://github.com/pulumi/templates/tree/master" 1%nat
           (ErrLibrary "unreachable")).
  reflexivity.
Defined.

Lemma trailing_slash_is_ignored_witness :
  Parse "https://github.com/pulumi/templates/tree/master/python/" 0%nat
  = Parse "https://github.com/pulumi/templates/tree/master/python" 0%nat.
Proof.
  apply (trailing_slash_is_ignored Sample.url_Parse Sample.Short Sample.sort_Sort
           "https://github.com/pulumi/templates/tree/master/python"
           "https://github.com/pulumi/templates/tree/master/python/"
           {| Scheme := "https"; Host := "github.com";
              Path := "/pulumi/templates/tree/master/python" |}
           {| Scheme := "https"; Host := "github.com";
              Path := "/pulumi/templates/tree/master/python/" |} 0%nat);
    reflexivity.
Defined.

Lemma tree_without_ref_rejected_witness :
  run (Sample.counting ["refs/heads/master"])
      (Parse "https://github.com/pulumi/templates/tree/" 0%nat) 0%nat
  = (Err (errors_New "invalid Git URL"), 0%nat, []).
Proof.
  apply (tree_without_ref_rejected Sample.url_Parse Sample.Short Sample.sort_Sort
           (Sample.counting ["refs/heads/master"]) 0%nat
           "https://github.com/pulumi/templates/tree/"
           {| Scheme := "https"; Host := "github.com"; Path := "/pulumi/templates/tree/" |}
           0%nat "pulumi" "templates").
  - reflexivity.
  - reflexivity.
  - reflexivity.
  - right. reflexivity.
Defined.

Lemma ParseGitRepoURL_shape_witness :
  exists u owner rname,
    Sample.url_Parse "https://github.com/pulumi/templates/tree/master/python" = Ok u /\
    Scheme u = "https" /\
    "https://github.com/pulumi/templates.git"
      = "https://" +:+ Host u +:+ "/" +:+ owner +:+ "/" +:+ rname /\
    owner <> "" /\ contains "/" owner = false /\
    contains "/" rname = false /\ HasSuffix rname ".git" = true.
Proof.
  apply (ParseGitRepoURL_shape Sample.url_Parse
           "https://github.com/pulumi/templates/tree/master/python"
           "https://github.com/pulumi/templates.git").
  reflexivity.
Defined.

Lemma GitHub_remote_gives_owner_and_name_witness :
  osrun (working [] ["git@github.com:pulumi/templates.git"]) (ByRepo 1%nat) tt
  = (Ok ("pulumi", "templates"), tt, [Repository_Remote 1%nat "origin"]).
Proof.
  apply (GitHub_remote_gives_owner_and_name SampleOS.errors_Wrap SampleOS.Remote_String
           (working [] ["git@github.com:pulumi/templates.git"]) tt 1%nat
           {| URLs := ["git@github.com:pulumi/templates.git"] |}
           "git@github.com:pulumi/templates.git" [] "pulumi" "templates").
  - reflexivity.
  - reflexivity.
  - reflexivity.
  - reflexivity.
  - reflexivity.
  - right; left. reflexivity.
Defined.

Lemma GitHub_project_only_from_GitHub_remote_witness :
  let h := working [] ["https://github.com/pulumi/templates"; "git@elsewhere:a/b"] in
  exists remote url others prefix,
    (h (Repository_Remote 1%nat "origin") tt).1 = Ok remote /\
    URLs remote = url :: others /\
    (prefix = "git@github.com:" \/ prefix = "https://github.com/") /\
    (url = prefix +:+ "pulumi" +:+ "/" +:+ "templates" \/
     url = prefix +:+ "pulumi" +:+ "/" +:+ "templates" +:+ ".git") /\
    contains "/" "pulumi" = false /\ contains "/" "templates" = false.
Proof.
  apply (GitHub_project_only_from_GitHub_remote SampleOS.errors_Wrap SampleOS.Remote_String
           (working [] ["https://github.com/pulumi/templates"; "git@elsewhere:a/b"])
           tt 1%nat "pulumi" "templates" tt [Repository_Remote 1%nat "origin"]).
  reflexivity.
Defined.

Lemma no_repository_hides_the_cause_witness :
  osrun legacy (ForOrigin "/work/src") tt
  = (Err (fmt_Errorf "no git repository found from /work/src"), tt,
     [fsutil_WalkUp "/work/src"]).
Proof.
  pose proof (no_repository_hides_the_cause SampleOS.errors_Wrap
                SampleOS.is_ErrRepositoryNotExists SampleOS.path_Join
                SampleOS.Remote_String legacy tt "/work/src") as H.
  cbv zeta in H. destruct H as [H _].
  exact (H (ErrLibrary "permission denied") eq_refl).
Defined.

Lemma RetrieveTemplate_refuses_other_schemes_witness :
  osrun (working ["refs/heads/master"] []) (Retrieve "git://github.com/pulumi/templates" "/tmp/t") tt
  = (Err (errors_New "invalid URL scheme"), tt, []).
Proof.
  apply (RetrieveTemplate_refuses_other_schemes Sample.url_Parse Sample.Short
           Sample.sort_Sort SampleOS.path_Join SampleOS.filepath_FromSlash
           (working ["refs/heads/master"] []) tt "git://github.com/pulumi/templates" "/tmp/t"
           {| Scheme := "git"; Host := "github.com"; Path := "/pulumi/templates" |}).
  - reflexivity.
  - discriminate.
Defined.

Lemma RetrieveTemplate_success_witness :
  let h := working ["refs/heads/master"] [] in
  let rawurl := "https://github.com/pulumi/templates/tree/master/python" in
  exists url repo opts sub wt w1 t1 w2 t2,
    ParseGitRepoURL Sample.url_Parse rawurl = Ok url /\
    run (gitOf h) (GitCloneOrPull url "/tmp/t") tt = (Ok repo, w1, t1) /\
    run (gitOf h) (Parse rawurl repo) w1 = (Ok (opts, sub), w2, t2) /\
    "/tmp/t/python" = SampleOS.path_Join ["/tmp/t"; SampleOS.filepath_FromSlash sub] /\
    (osrun h (Retrieve rawurl "/tmp/t") tt).2 = map Git t1 ++ map Git t2 ++
        [fmt_Printf ("JVP: Branch: " +:+ CheckoutOptions.Branch opts +:+ LF);
         Git (Repository_Worktree repo);
         Worktree_Checkout wt opts true;
         os_Stat "/tmp/t/python"].
Proof.
  apply (RetrieveTemplate_success Sample.url_Parse Sample.Short Sample.sort_Sort
           SampleOS.path_Join SampleOS.filepath_FromSlash
           (working ["refs/heads/master"] []) tt
           "https://github.com/pulumi/templates/tree/master/python" "/tmp/t"
           "/tmp/t/python" tt).
  reflexivity.
Defined.

Lemma RetrieveTemplate_refuses_dots_after_cloning_witness :
  let h := working ["refs/heads/master"] [] in
  osrun h (Retrieve "https://github.com/pulumi/templates/python/../go" "/tmp/t") tt
  = (let '(r, w1, t1) :=
       run (gitOf h) (GitCloneOrPull "https://github.com/pulumi/templates.git" "/tmp/t") tt in
     (match r with
      | Ok _ => Err (errors_New "invalid Git URL")
      | Err e => Err e
      end, w1, map Git t1)).
Proof.
  apply (RetrieveTemplate_refuses_dots_after_cloning Sample.url_Parse Sample.Short
           Sample.sort_Sort SampleOS.path_Join SampleOS.filepath_FromSlash
           (working ["refs/heads/master"] []) tt
           "https://github.com/pulumi/templates/python/../go" "/tmp/t"
           {| Scheme := "https"; Host := "github.com";
              Path := "/pulumi/templates/python/../go" |}
           "https://github.com/pulumi/templates.git").
  - reflexivity.
  - reflexivity.
  - right. by_decide.
Defined.

Lemma cleanup_removes_only_non_repositories_witness :
  osrun legacy cleanup tt
  = (None, tt,
     [user_Current; Git (PlainOpen "/home/someone/.pulumi/templates");
      os_RemoveAll "/home/someone/.pulumi/templates"]).
Proof.
  pose proof (cleanup_removes_only_non_repositories SampleOS.errors_Wrap
                SampleOS.is_ErrRepositoryNotExists SampleOS.path_Join ".pulumi" "templates"
                legacy tt {| User.HomeDir := "/home/someone" |} eq_refl) as H.
  cbv zeta in H. destruct H as (_ & _ & H & _).
  exact (H SampleOS.ErrRepositoryNotExists eq_refl eq_refl).
Defined.

Lemma CloneOrUpdate_success_witness :
  let h := working ["refs/heads/master"] [] in
  exists wc tc dir wd repo tg,
    osrun h cleanup tt = (None, wc, tc) /\
    osrun h (GetTemplateDir SampleOS.errors_Wrap SampleOS.path_Join ".pulumi" "templates" "")
          wc = ((dir, None), wd, [user_Current]) /\
    (h (os_MkdirAll dir 448) wd).1 = None /\
    run (gitOf h) (GitCloneOrPull "https://github.com/pulumi/templates.git" dir)
        (h (os_MkdirAll dir 448) wd).2 = (Ok repo, tt, tg) /\
    (osrun h CloneOrUpdate tt).2 = tc ++ [user_Current; os_MkdirAll dir 448] ++ map Git tg.
Proof.
  apply (CloneOrUpdate_success SampleOS.errors_Wrap SampleOS.is_ErrRepositoryNotExists
           SampleOS.path_Join ".pulumi" "templates" (working ["refs/heads/master"] []) tt tt
           (osrun (working ["refs/heads/master"] []) CloneOrUpdate tt).2).
  reflexivity.
Defined.

Lemma isBinary_looks_at_first_bytes_witness :
  let text := string_of_list_ascii (repeat "a"%char firstFewBytes) in
  isBinary (text +:+ String zero "binary") = isBinary text.
Proof.
  apply (proj2 (isBinary_looks_at_first_bytes
                  (string_of_list_ascii (repeat "a"%char firstFewBytes)))).
  apply Nat.leb_le. vm_compute. reflexivity.
Defined.

Lemma newExistingFilesError_names_every_file_witness :
  exists message,
    newExistingFilesError ["Pulumi.yaml"; "index.ts"] = Returns (errors_New message) /\
    forall file, file ∈ ["Pulumi.yaml"; "index.ts"] ->
      exists before after, message = before +:+ "  overwrite   " +:+ file +:+ LF +:+ after.
Proof.
  apply (proj2 (newExistingFilesError_names_every_file ["Pulumi.yaml"; "index.ts"])).
  discriminate.
Defined.

Lemma transform_fills_placeholders_witness :
  transform "linux" "name: ${PROJECT}
description: ${DESCRIPTION}
" "my-project" "A $5 project"
  = "name: my-project
description: A $5 project
".
Proof.
  apply (proj2 (transform_fills_placeholders "linux" "" "my-project" "A $5 project"
                  [Text "name: "; ProjectPlaceholder; Text "
description: "; DescriptionPlaceholder; Text "
"] ltac:(discriminate))); reflexivity.
Defined.

Lemma sanitized_project_name_is_valid_witness :
  SampleOS.IsPackageName (getValidProjectName SampleOS.IsPackageName "my project!") = true /\
  SampleOS.IsPackageName
    (ValueOrSanitizedDefaultProjectName SampleOS.IsPackageName "" "2 fast") = true /\
  ("my project!" <> "" ->
   ValueOrSanitizedDefaultProjectName SampleOS.IsPackageName "my project!" "2 fast"
   = "my project!").
Proof.
  apply (sanitized_project_name_is_valid SampleOS.IsPackageName "my project!" "2 fast").
  reflexivity.
Defined.

Lemma sanitized_project_name_drops_bytes_witness :
  getValidProjectName SampleOS.IsPackageName "my project!" = "project" \/
  sublist (list_ascii_of_string (getValidProjectName SampleOS.IsPackageName "my project!"))
          (list_ascii_of_string "my project!").
Proof.
  apply (sanitized_project_name_drops_bytes SampleOS.IsPackageName "my project!").
  reflexivity.
Defined.

Lemma tree_is_special_only_after_repository_witness :
  run (Sample.counting ["refs/heads/master"])
      (Parse "https://github.com/pulumi/templates/content/tree/master" 0%nat) 0%nat
  = (Ok (onBranch Master, "content/tree/master"), 0%nat, []).
Proof.
  apply (tree_is_special_only_after_repository Sample.url_Parse Sample.Short
           Sample.sort_Sort (Sample.counting ["refs/heads/master"]) 0%nat
           "https://github.com/pulumi/templates/content/tree/master"
           {| Scheme := "https"; Host := "github.com";
              Path := "/pulumi/templates/content/tree/master" |}
           0%nat "" "pulumi" "templates" "content" ["tree"; "master"]).
  - reflexivity.
  - reflexivity.
  - discriminate.
  - by_decide.
  - by_decide.
Defined.

Lemma transform_on_windows_witness :
  transform "windows" (Join ["name: x"; "runtime: go"; ""] LF) "p" "d"
  = Join ["name: x"; "runtime: go"; ""] (CR +:+ LF).
Proof.
  apply (transform_on_windows ["name: x"; "runtime: go"; ""] "p" "d").
  - repeat constructor.
  - repeat constructor.
Defined.

End MoreInstances.
